(** * The MCP configuration installer (scripts/install.py)

    A shallow embedding of the installer's JSON merge engine: the three
    [update] closures that place a server entry in a configuration document,
    [update_json_file] with its read / backup / mutate / write / restore
    lifecycle, the entry builder ([get_binary_config], the read-only step of
    [main], [create_server_config]) and the orchestration around them
    ([update_vscode], [update_environment], the server loop of [main]). *)

From Stdlib Require Import ZArith String Ascii List Bool Lia.
From stdpp Require Import base option list strings pretty gmap.
Import ListNotations.
Local Open Scope string_scope.
Local Open Scope list_scope.
#[local] Set Warnings "-register-all".

(** ** Python values *)

(** What [json.load] can return, and what the installer builds in memory:
    [None], [bool], [int], [float] (kept as its literal), [str], [list] and
    [dict].  A [dict] keeps insertion order, so it is an association list. *)
Inductive json : Type :=
| JNull
| JBool (b : bool)
| JInt (n : Z)
| JFloat (literal : string)
| JStr (s : string)
| JArr (items : list json)
| JObj (fields : list (string * json)).

Definition dict : Type := list (string * json).

(** [k in d] and [d.get(k)] *)
Fixpoint dict_get (k : string) (d : dict) : option json :=
  match d with
  | [] => None
  | (k', v) :: d' => if String.eqb k' k then Some v else dict_get k d'
  end.

Definition dict_has (k : string) (d : dict) : bool :=
  match dict_get k d with Some _ => true | None => false end.

(** [d[k] = v]: an existing key keeps its position, a new key goes last. *)
Fixpoint dict_set (k : string) (v : json) (d : dict) : dict :=
  match d with
  | [] => [(k, v)]
  | (k', v') :: d' =>
      if String.eqb k' k then (k', v) :: d' else (k', v') :: dict_set k v d'
  end.

(** [d.update(src)] *)
Definition dict_update (d src : dict) : dict :=
  fold_left (fun acc kv => dict_set (fst kv) (snd kv) acc) src d.

(** ** Exceptions *)

(** The exceptions the installer meets, each with the text [str(e)] gives.
    All but [SystemExit] are subclasses of [Exception]. *)
Inductive exn : Type :=
| JSONDecodeError (msg : string)
| UnicodeDecodeError (msg : string)
| OSError (msg : string)
| TypeError (msg : string)
| KeyError (msg : string)
| ValueError (msg : string)
| SystemExit (code : Z).

(** [isinstance(e, Exception)] *)
Definition is_Exception (e : exn) : bool :=
  match e with SystemExit _ => false | _ => true end.

(** [isinstance(e, json.JSONDecodeError)] *)
Definition is_JSONDecodeError (e : exn) : bool :=
  match e with JSONDecodeError _ => true | _ => false end.

(** [str(e)] *)
Definition str_exn (e : exn) : string :=
  match e with
  | JSONDecodeError m | UnicodeDecodeError m | OSError m
  | TypeError m | KeyError m | ValueError m => m
  | SystemExit c => pretty c
  end.

(** The outcome of an expression that may raise. *)
Inductive res (A : Type) : Type :=
| Ok (a : A)
| Raise (e : exn).
Arguments Ok {A} a.
Arguments Raise {A} e.

Definition res_bind {A B : Type} (m : res A) (k : A -> res B) : res B :=
  match m with
  | Ok a => k a
  | Raise e => Raise e
  end.

Declare Scope res_scope.
Delimit Scope res_scope with res.
Notation "'let?' x ':=' m 'in' k" := (res_bind m (fun x => k))
  (at level 10, x name, m at level 100, k at level 200) : res_scope.

(** ** Python operators on values *)

(** [type(v).__name__] *)
Definition type_name (v : json) : string :=
  match v with
  | JNull => "NoneType"
  | JBool _ => "bool"
  | JInt _ => "int"
  | JFloat _ => "float"
  | JStr _ => "str"
  | JArr _ => "list"
  | JObj _ => "dict"
  end.

Definition is_str (k : string) (v : json) : bool :=
  match v with JStr s => String.eqb s k | _ => false end.

(** [sub in s] for two [str] *)
Definition is_substring (sub s : string) : bool :=
  match String.index 0 sub s with Some _ => true | None => false end.

(** [k in v] with [k] a [str]: key membership for a dict, element membership
    for a list, substring test for a str, [TypeError] for the rest. *)
Definition py_contains (k : string) (v : json) : res bool :=
  match v with
  | JObj d => Ok (dict_has k d)
  | JArr l => Ok (existsb (is_str k) l)
  | JStr s => Ok (is_substring k s)
  | _ => Raise (TypeError ("argument of type '" ++ type_name v ++ "' is not iterable"))
  end.

(** [v[k]] with [k] a [str] *)
Definition py_getitem (v : json) (k : string) : res json :=
  match v with
  | JObj d =>
      match dict_get k d with
      | Some x => Ok x
      | None => Raise (KeyError ("'" ++ k ++ "'"))
      end
  | JArr _ => Raise (TypeError "list indices must be integers or slices, not str")
  | JStr _ => Raise (TypeError "string indices must be integers")
  | _ => Raise (TypeError ("'" ++ type_name v ++ "' object is not subscriptable"))
  end.

(** [v[k] = x] with [k] a [str]; the result is the object after the store. *)
Definition py_setitem (v : json) (k : string) (x : json) : res json :=
  match v with
  | JObj d => Ok (JObj (dict_set k x d))
  | JArr _ => Raise (TypeError "list indices must be integers or slices, not str")
  | _ => Raise (TypeError ("'" ++ type_name v ++ "' object does not support item assignment"))
  end.

(** A store into an object reached through [v[k]] is seen through [v]: the
    object at [k] is replaced by its state after the store. *)
Definition written_back (v : json) (k : string) (inner : json) : json :=
  match v with
  | JObj d => JObj (dict_set k inner d)
  | _ => v
  end.

(** [l.insert(i, x)]: a negative index counts from the end, and an index out
    of range is clamped. *)
Definition list_insert_at {A : Type} (i : Z) (x : A) (l : list A) : list A :=
  let n := Z.of_nat (length l) in
  let j := if Z.ltb i 0 then Z.max 0 (i + n) else Z.min i n in
  firstn (Z.to_nat j) l ++ x :: skipn (Z.to_nat j) l.

(** ** The three [update] closures *)

Section Adapters.
Local Open Scope res_scope.
Variable server_name : string.
Variable server_config : dict.

(** The [update] of [update_vscode_workspace]. *)
Definition update_vscode_workspace_update (data : json) : res json :=
  let? present := py_contains "servers" data in
  let? data :=
    (if negb present then py_setitem data "servers" (JObj []) else Ok data) in
  (* data["servers"][server_name] = server_config *)
  let? servers := py_getitem data "servers" in
  let? servers := py_setitem servers server_name (JObj server_config) in
  Ok (written_back data "servers" servers).

(** The [update] of [update_vscode_user]. *)
Definition update_vscode_user_update (data : json) : res json :=
  let? present := py_contains "mcp" data in
  let? data :=
    (if negb present then py_setitem data "mcp" (JObj []) else Ok data) in
  let? mcp := py_getitem data "mcp" in
  let? present := py_contains "servers" mcp in
  let? data :=
    (if negb present then
       (* data["mcp"]["servers"] = {} *)
       let? mcp := py_getitem data "mcp" in
       let? mcp := py_setitem mcp "servers" (JObj []) in
       Ok (written_back data "mcp" mcp)
     else Ok data) in
  (* data["mcp"]["servers"][server_name] = server_config *)
  let? mcp := py_getitem data "mcp" in
  let? servers := py_getitem mcp "servers" in
  let? servers := py_setitem servers server_name (JObj server_config) in
  Ok (written_back data "mcp" (written_back mcp "servers" servers)).

(** The [update] of [update_claude_config]. *)
Definition update_claude_config_update (is_claude_code : bool) (data : json)
  : res json :=
  let? present := py_contains "mcpServers" data in
  let? data :=
    (if negb present then py_setitem data "mcpServers" (JObj []) else Ok data) in
  (* Add type field for Claude Code *)
  let config := server_config in
  let config :=
    if is_claude_code then dict_set "type" (JStr "stdio") config else config in
  let? servers := py_getitem data "mcpServers" in
  let? servers := py_setitem servers server_name (JObj config) in
  Ok (written_back data "mcpServers" servers).
End Adapters.

(** ** Paths *)

(** A [pathlib.Path] as the list of its components; [p / c] adds one. *)
Abbreviation Path := (list string).

Definition path_div (p : Path) (c : string) : Path := p ++ [c].
Notation "p // c" := (path_div p c) (at level 40, left associativity).

(** [p.name]: the last component, empty for [Path(".")]. *)
Definition path_name (p : Path) : string := List.last p EmptyString.

(** Splits a name at its last dot: [Some (before, after)]. *)
Fixpoint rsplit_dot (s : string) : option (string * string) :=
  match s with
  | EmptyString => None
  | String a s' =>
      match rsplit_dot s' with
      | Some (before, after) => Some (String a before, after)
      | None => if Ascii.eqb a "." then Some (EmptyString, s') else None
      end
  end.

(** The name without [p.suffix]: the suffix starts at the last dot of the
    name, unless that dot is the first or the last character. *)
Definition path_stem (name : string) : string :=
  match rsplit_dot name with
  | Some (String a before, String b after) => String a before
  | _ => name
  end.

(** [p.with_suffix(suffix)], for a suffix that starts with a dot;
    [ValueError] for a path with an empty name. *)
Definition with_suffix (p : Path) (suffix : string) : res Path :=
  let name := path_name p in
  if String.eqb name EmptyString then Raise (ValueError "path has an empty name")
  else Ok (removelast p ++ [path_stem name ++ suffix]%string).

(** ** The world: files, terminal output and I/O faults *)

(** How an attempt to write a file ends: all of it written; the file could not
    be opened (nothing changes); or the file was opened, which truncates it,
    and the write stopped after [written] characters. *)
Inductive write_outcome : Type :=
| IoOk
| IoFailOpen (msg : string)
| IoFailPartial (written : nat) (msg : string).

(** How reading a file as text can fail: the file cannot be opened or read,
    or its bytes are not UTF-8. *)
Inductive read_error : Type :=
| ReadOSError (msg : string)
| ReadUnicodeDecodeError (msg : string).

Definition exn_of_read_error (r : read_error) : exn :=
  match r with
  | ReadOSError m => OSError m
  | ReadUnicodeDecodeError m => UnicodeDecodeError m
  end.

(** What the operating system does to the I/O steps of one
    [update_json_file] call. *)
Record io_faults : Type := {
  read_fault : option read_error;
  backup_fault : write_outcome;
  mkdir_fault : option string;
  write_fault : write_outcome;
  restore_fault : write_outcome
}.

Definition no_faults : io_faults :=
  {| read_fault := None; backup_fault := IoOk; mkdir_fault := None;
     write_fault := IoOk; restore_fault := IoOk |}.

(** [fs]: the regular files and their contents; [out]: the lines printed so
    far; [oracle]: the faults of the coming [update_json_file] calls, one
    record per call (none left: no fault). *)
Record World : Type := {
  fs : gmap Path string;
  out : list string;
  oracle : list io_faults
}.

Definition set_fs (f : gmap Path string) (w : World) : World :=
  {| fs := f; out := out w; oracle := oracle w |}.

(** A statement: it changes the world and returns or raises. *)
Definition M (A : Type) : Type := World -> World * res A.

Definition ret {A : Type} (a : A) : M A := fun w => (w, Ok a).

Definition raise {A : Type} (e : exn) : M A := fun w => (w, Raise e).

Definition bind {A B : Type} (m : M A) (k : A -> M B) : M B :=
  fun w =>
    match m w with
    | (w', Ok a) => k a w'
    | (w', Raise e) => (w', Raise e)
    end.

(** An expression evaluated inside a statement. *)
Definition lift {A : Type} (r : res A) : M A := fun w => (w, r).

(** [try: body except <class> as e: handler e] *)
Definition try_except {A : Type} (body : M A) (class : exn -> bool)
  (handler : exn -> M A) : M A :=
  fun w =>
    match body w with
    | (w', Raise e) => if class e then handler e w' else (w', Raise e)
    | r => r
    end.

Declare Scope M_scope.
Delimit Scope M_scope with M.
Notation "x <- m ;; k" := (bind m (fun x => k))
  (at level 100, m at next level, right associativity) : M_scope.
Notation "m ;; k" := (bind m (fun _ => k))
  (at level 100, right associativity) : M_scope.

(** [print(line)] on a standard output that can encode [line].  (One that
    cannot raises [UnicodeEncodeError]; every statement below about what is
    printed or returned presupposes that the lines are accepted.) *)
Definition print (line : string) : M unit :=
  fun w => ({| fs := fs w; out := out w ++ [line]; oracle := oracle w |}, Ok tt).

(** The faults that the next [update_json_file] call meets, and the world
    once that call has taken them. *)
Definition upcoming_faults (w : World) : io_faults :=
  match oracle w with
  | [] => no_faults
  | f :: _ => f
  end.

Definition begin_call (w : World) : World :=
  {| fs := fs w; out := out w; oracle := tl (oracle w) |}.

(** The faults of the call that starts now. *)
Definition next_faults : M io_faults :=
  fun w =>
    match oracle w with
    | [] => (w, Ok no_faults)
    | f :: rest => ({| fs := fs w; out := out w; oracle := rest |}, Ok f)
    end.

(** [p.exists()] *)
Definition path_exists (p : Path) : M bool :=
  fun w => (w, Ok (match fs w !! p with Some _ => true | None => false end)).

(** [open(p, "r", encoding="utf-8")] and [f.read()] *)
Definition read_text (fault : option read_error) (p : Path) : M string :=
  fun w =>
    match fault with
    | Some r => (w, Raise (exn_of_read_error r))
    | None =>
        match fs w !! p with
        | Some text => (w, Ok text)
        | None => (w, Raise (OSError "No such file or directory"))
        end
    end.

(** [p.read_bytes()] *)
Definition read_bytes (p : Path) : M string :=
  fun w =>
    match fs w !! p with
    | Some bytes => (w, Ok bytes)
    | None => (w, Raise (OSError "No such file or directory"))
    end.

(** Opening [p] for writing and writing [content]. *)
Definition write_file (outcome : write_outcome) (p : Path) (content : string)
  : M unit :=
  fun w =>
    match outcome with
    | IoOk => (set_fs (<[p := content]> (fs w)) w, Ok tt)
    | IoFailOpen msg => (w, Raise (OSError msg))
    | IoFailPartial n msg =>
        (set_fs (<[p := String.substring 0 n content]> (fs w)) w,
         Raise (OSError msg))
    end.

(** [p.parent.mkdir(parents=True, exist_ok=True)]: the directory of an
    existing file exists and nothing happens; otherwise creating it can
    fail. *)
Definition mkdir_parent (fault : option string) (p : Path) : M unit :=
  fun w =>
    match fs w !! p, fault with
    | None, Some msg => (w, Raise (OSError msg))
    | _, _ => (w, Ok tt)
    end.

Definition newline : string := String (ascii_of_nat 10) EmptyString.

(** ** The terminal *)

(** How a question ends: with an answer; with [EOFError], the typed input
    being exhausted; or unfinished, a loop bounded by fuel having used it
    up. *)
Inductive asked (A : Type) : Type :=
| Answered (a : A)
| EOFError
| Unfinished.
Arguments Answered {A} a.
Arguments EOFError {A}.
Arguments Unfinished {A}.

(** A statement that may read the terminal: from the lines still to be typed
    and the world, to the lines left, the world and the outcome. *)
Definition Prompt (A : Type) : Type :=
  list string -> World -> list string * World * asked A.

Definition ask_ret {A : Type} (a : A) : Prompt A :=
  fun typed w => (typed, w, Answered a).

Definition ask_bind {A B : Type} (m : Prompt A) (k : A -> Prompt B)
  : Prompt B :=
  fun typed w =>
    match m typed w with
    | (rest, w', Answered a) => k a rest w'
    | (rest, w', EOFError) => (rest, w', EOFError)
    | (rest, w', Unfinished) => (rest, w', Unfinished)
    end.

Declare Scope Prompt_scope.
Delimit Scope Prompt_scope with Prompt.
Notation "x <- m ;; k" := (ask_bind m (fun x => k))
  (at level 100, m at next level, right associativity) : Prompt_scope.
Notation "m ;; k" := (ask_bind m (fun _ => k))
  (at level 100, right associativity) : Prompt_scope.

(** [input(prompt)] and [getpass(prompt)]: the next typed line, [EOFError]
    when there is none.  The prompt text is shown on the terminal and is
    not part of [out], which holds what [print] wrote. *)
Definition input (prompt : string) : Prompt string :=
  fun typed w =>
    match typed with
    | [] => ([], w, EOFError)
    | line :: rest => (rest, w, Answered line)
    end.

Definition getpass (prompt : string) : Prompt string := input prompt.

(** [print(line)] among prompts *)
Definition say (line : string) : Prompt unit :=
  fun typed w => (typed, fst (print line w), Answered tt).

(** [while True: line = input(prompt); body]: [body] prints what it has to
    and either leaves the loop with a value or goes round again. *)
Fixpoint ask_until {A : Type} (prompt : string)
  (body : string -> World -> World * option A) (typed : list string)
  (w : World) : list string * World * asked A :=
  match typed with
  | [] => ([], w, EOFError)
  | line :: rest =>
      match body line w with
      | (w', Some a) => (rest, w', Answered a)
      | (w', None) => ask_until prompt body rest w'
      end
  end.

(** ** Records of the run *)

(** [Path(".vscode/mcp.json")] *)
Definition vscode_workspace_path : Path := [".vscode"; "mcp.json"].

(** The dictionary [get_platform_paths] returns. *)
Record platform_paths : Type := {
  vscode_user_settings : option Path;
  vscode_workspace : option Path;
  claude_desktop : option Path;
  claude_code : option Path;
  cursor : option Path
}.

(** [system]: [platform.system()]; [home]: [Path.home()]; [appdata] and
    [userprofile]: the paths made from the environment variables APPDATA
    and USERPROFILE, which are [Path(".")], the empty list, when the
    variable is not set. *)
Definition get_platform_paths (system : string) (home appdata userprofile : Path)
  : platform_paths :=
  if String.eqb system "Windows" then
    {| vscode_user_settings := Some (appdata // "Code" // "User" // "settings.json");
       vscode_workspace := Some vscode_workspace_path;
       claude_desktop := Some (appdata // "Claude" // "claude_desktop_config.json");
       claude_code := Some (userprofile // ".claude.json");
       cursor := Some (appdata // "Cursor" // "mcp.json") |}
  else if String.eqb system "Darwin" then
    {| vscode_user_settings :=
         Some (home // "Library" // "Application Support" // "Code" // "User"
                    // "settings.json");
       vscode_workspace := Some vscode_workspace_path;
       claude_desktop :=
         Some (home // "Library" // "Application Support" // "Claude"
                    // "claude_desktop_config.json");
       claude_code := Some (home // ".claude.json");
       cursor := Some (home // ".cursor" // "mcp.json") |}
  else
    {| vscode_user_settings :=
         Some (home // ".config" // "Code" // "User" // "settings.json");
       vscode_workspace := Some vscode_workspace_path;
       claude_desktop :=
         Some (home // ".config" // "Claude" // "claude_desktop_config.json");
       claude_code := Some (home // ".claude.json");
       cursor := Some (home // ".cursor" // "mcp.json") |}.

(** One element of [servers]: the dictionary [prompt_user] or
    [collect_servers] fills, with its five keys. *)
Record ServerData : Type := {
  sd_name : string;
  sd_mode : string;
  sd_gitlab_host : string;
  sd_token : string;
  sd_readonly : bool
}.

(** [config["gitlab_host"]] as [prompt_user] sets it from the stripped
    answer [host_input]. *)
Definition prompt_user_gitlab_host (host_input : string) : string :=
  if String.eqb host_input EmptyString then "https://gitlab.com" else host_input.

(** The dictionary [get_binary_config] returns; [docker_image] is only set
    in docker mode. *)
Record BinaryConfig : Type := {
  bc_mode : string;
  bc_env : dict;
  bc_docker_image : option string;
  bc_command : string;
  bc_args : list json
}.

Definition docker_image_tag : string := "gitlab-mcp-server:latest".

(** The read-only step of [main]'s server loop, on the dictionary
    [get_binary_config] returned. *)
Definition main_readonly (server_config_data : ServerData)
  (binary_config : BinaryConfig) : BinaryConfig :=
  if sd_readonly server_config_data then
    let args :=
      if String.eqb (bc_mode binary_config) "docker" then
        (* Insert before the image name (last arg) *)
        list_insert_at (-1) (JStr "GITLAB_READ_ONLY")
          (list_insert_at (-1) (JStr "-e") (bc_args binary_config))
      else bc_args binary_config in
    {| bc_mode := bc_mode binary_config;
       bc_env := dict_set "GITLAB_READ_ONLY" (JStr "true") (bc_env binary_config);
       bc_docker_image := bc_docker_image binary_config;
       bc_command := bc_command binary_config;
       bc_args := args |}
  else binary_config.

(** [create_server_config]: the entry placed in the configuration files. *)
Definition create_server_config (binary_config : BinaryConfig)
  (server_config_data : ServerData) : dict :=
  (* Copy env from binary config *)
  let env := dict_update [] (bc_env binary_config) in
  (* Add GitLab-specific environment variables *)
  let env := dict_set "GITLAB_TOKEN" (JStr (sd_token server_config_data)) env in
  let env :=
    if negb (String.eqb (sd_gitlab_host server_config_data) EmptyString) then
      dict_set "GITLAB_HOST" (JStr (sd_gitlab_host server_config_data)) env
    else env in
  let env :=
    if sd_readonly server_config_data then
      dict_set "GITLAB_READ_ONLY" (JStr "true") env
    else env in
  [("command", JStr (bc_command binary_config));
   ("args", JArr (bc_args binary_config));
   ("env", JObj env)].

(** [for x in l: body x] *)
Fixpoint for_each {A : Type} (l : list A) (body : A -> M unit) : M unit :=
  match l with
  | [] => ret tt
  | x :: l' => bind (body x) (fun _ => for_each l' body)
  end.

(** ** The four target shapes *)

(** The shapes of a target file, each naming one [update] closure:
    [WorkspaceNested] is that of [update_vscode_workspace], [UserNested] that
    of [update_vscode_user], [FlatWithTypeTag] and [FlatPlain] that of
    [update_claude_config] with [is_claude_code] true and false. *)
Inductive adapter_kind : Type :=
| WorkspaceNested
| UserNested
| FlatWithTypeTag
| FlatPlain.

Definition adapter_update (kind : adapter_kind) (server_name : string)
  (server_config : dict) : json -> res json :=
  match kind with
  | WorkspaceNested => update_vscode_workspace_update server_name server_config
  | UserNested => update_vscode_user_update server_name server_config
  | FlatWithTypeTag => update_claude_config_update server_name server_config true
  | FlatPlain => update_claude_config_update server_name server_config false
  end.

(** The top-level key an adapter owns. *)
Definition container_key (kind : adapter_kind) : string :=
  match kind with
  | WorkspaceNested => "servers"
  | UserNested => "mcp"
  | FlatWithTypeTag | FlatPlain => "mcpServers"
  end.

(** The mapping of server names an adapter writes into: [data["servers"]],
    [data["mcp"]["servers"]] or [data["mcpServers"]], when the document has
    it. *)
Definition innermost_container (kind : adapter_kind) (data : json)
  : option dict :=
  match kind, data with
  | UserNested, JObj top =>
      match dict_get "mcp" top with
      | Some (JObj mcp) =>
          match dict_get "servers" mcp with
          | Some (JObj servers) => Some servers
          | _ => None
          end
      | _ => None
      end
  | _, JObj top =>
      match dict_get (container_key kind) top with
      | Some (JObj servers) => Some servers
      | _ => None
      end
  | _, _ => None
  end.

(** The object an adapter stores under the server name: the entry, and for
    [FlatWithTypeTag] a copy of it with the type tag. *)
Definition placed_entry (kind : adapter_kind) (entry : dict) : dict :=
  match kind with
  | FlatWithTypeTag => dict_set "type" (JStr "stdio") entry
  | _ => entry
  end.

(** The documents of the specification's shape scenario (section 8,
    "Adapter shape exactness"), written as the specification lists them. *)
Definition spec_fresh_document (kind : adapter_kind) (name : string)
  (entry : dict) : json :=
  match kind with
  | WorkspaceNested => JObj [("servers", JObj [(name, JObj entry)])]
  | UserNested => JObj [("mcp", JObj [("servers", JObj [(name, JObj entry)])])]
  | FlatWithTypeTag =>
      JObj [("mcpServers",
             JObj [(name, JObj (dict_set "type" (JStr "stdio") entry))])]
  | FlatPlain => JObj [("mcpServers", JObj [(name, JObj entry)])]
  end.

(** ** Sample inputs *)

Definition double_quote : string := String (ascii_of_nat 34) EmptyString.

Fixpoint indentation (level : nat) : string :=
  match level with
  | O => EmptyString
  | S n => "  " ++ indentation n
  end.

(** A serialiser for the samples, laid out as [json.dumps(data, indent=2)]
    lays out values whose strings need no escape. *)
Fixpoint sample_dumps_at (level : nat) (v : json) : string :=
  match v with
  | JNull => "null"
  | JBool true => "true"
  | JBool false => "false"
  | JInt n => pretty n
  | JFloat literal => literal
  | JStr s => double_quote ++ s ++ double_quote
  | JArr [] => "[]"
  | JArr (x :: xs) =>
      ("[" ++ newline ++ indentation (S level) ++ sample_dumps_at (S level) x
      ++ (fix rest (l : list json) : string :=
            match l with
            | [] => EmptyString
            | y :: l' =>
                ("," ++ newline ++ indentation (S level)
                 ++ sample_dumps_at (S level) y ++ rest l')%string
            end) xs
      ++ newline ++ indentation level ++ "]")%string
  | JObj [] => "{}"
  | JObj ((k, x) :: kvs) =>
      ("{" ++ newline ++ indentation (S level)
      ++ double_quote ++ k ++ double_quote ++ ": " ++ sample_dumps_at (S level) x
      ++ (fix rest (l : list (string * json)) : string :=
            match l with
            | [] => EmptyString
            | (k', y) :: l' =>
                ("," ++ newline ++ indentation (S level)
                 ++ double_quote ++ k' ++ double_quote ++ ": "
                 ++ sample_dumps_at (S level) y ++ rest l')%string
            end) kvs
      ++ newline ++ indentation level ++ "}")%string
  end.

Definition sample_dumps (v : json) : string := sample_dumps_at 0 v.

(** An entry as [create_server_config] builds it. *)
Definition sample_entry : dict :=
  [("command", JStr "/bin/x");
   ("args", JArr [JStr "stdio"]);
   ("env", JObj [("GITLAB_TOKEN", JStr "t")])].

(** A settings file with an unrelated key and one server already in each
    container. *)
Definition sample_settings : json :=
  JObj [("editor.fontSize", JInt 14);
        ("servers", JObj [("gitlab", JObj [("command", JStr "old")]);
                          ("other", JObj [("command", JStr "keep")])]);
        ("mcp", JObj [("servers",
                       JObj [("gitlab", JObj [("command", JStr "old")])])]);
        ("mcpServers", JObj [("gitlab", JObj [("command", JStr "old")]);
                             ("other", JObj [("command", JStr "keep")])])].

Definition sample_documents : list json :=
  [JObj []; JArr []; sample_settings].

(** A parser for the samples: it knows the texts of [sample_documents] and
    rejects every other text. *)
Definition sample_loads (text : string) : string + json :=
  match
    find (fun v => String.eqb text (sample_dumps v ++ newline)
                   || String.eqb text (sample_dumps v)) sample_documents
  with
  | Some v => inr v
  | None => inl "Expecting value: line 1 column 1 (char 0)"
  end.

Definition sample_str_path (p : Path) : string := String.concat "/" p.

Definition sample_resolve (p : Path) : Path := p.

Definition sample_home : Path := ["/home/dev"].

Definition sample_paths : platform_paths :=
  get_platform_paths "Linux" sample_home [] [].

Definition sample_world (text : string) (faults : list io_faults) : World :=
  {| fs := {[ vscode_workspace_path := text ]}; out := []; oracle := faults |}.

Definition sample_settings_text : string :=
  (sample_dumps sample_settings ++ newline)%string.

(** A failing device: the target is opened, which truncates it, and the write
    stops there with an I/O error; so does the restore. *)
Definition failing_device : io_faults :=
  {| read_fault := None;
     backup_fault := IoOk;
     mkdir_fault := None;
     write_fault := IoFailPartial 0 "[Errno 5] Input/output error";
     restore_fault := IoFailPartial 0 "[Errno 5] Input/output error" |}.

(** What the prompts record when every answer is left empty but the token,
    with the read-only question answered yes or no. *)
Definition sample_server (mode : string) (readonly : bool) : ServerData :=
  {| sd_name := "gitlab";
     sd_mode := mode;
     sd_gitlab_host := prompt_user_gitlab_host EmptyString;
     sd_token := "glpat-secret";
     sd_readonly := readonly |}.

Definition sample_docker_config : BinaryConfig :=
  {| bc_mode := "docker";
     bc_env := [];
     bc_docker_image := Some docker_image_tag;
     bc_command := "docker";
     bc_args :=
       [JStr "run"; JStr "-i"; JStr "--rm"; JStr "-e"; JStr "GITLAB_TOKEN";
        JStr "-e"; JStr "GITLAB_HOST"; JStr docker_image_tag] |}.

Definition sample_project_root : Path := ["/home/dev/gitlab-mcp-server"].

(** A [strip] that drops the spaces at both ends, a [lower] for the ASCII
    letters and an [int] for unsigned decimal numerals. *)
Fixpoint drop_spaces (s : string) : string :=
  match s with
  | String c s' => if Ascii.eqb c " " then drop_spaces s' else s
  | EmptyString => EmptyString
  end.

Definition sample_strip (s : string) : string :=
  String.rev (drop_spaces (String.rev (drop_spaces s))).

Definition lower_ascii (c : ascii) : ascii :=
  let n := nat_of_ascii c in
  if Nat.leb 65 n && Nat.leb n 90 then ascii_of_nat (n + 32) else c.

Fixpoint sample_lower (s : string) : string :=
  match s with
  | String c s' => String (lower_ascii c) (sample_lower s')
  | EmptyString => EmptyString
  end.

Fixpoint digits_value (s : string) (value : Z) : option Z :=
  match s with
  | EmptyString => Some value
  | String c s' =>
      let n := nat_of_ascii c in
      if Nat.leb 48 n && Nat.leb n 57
      then digits_value s' (10 * value + Z.of_nat (n - 48))
      else None
  end.

Definition sample_int (s : string) : option Z :=
  match s with
  | EmptyString => None
  | _ => digits_value s 0
  end.

(** A project checked out and built under the home directory. *)
Definition sample_checkout : Path := ["/"; "home"; "dev"; "gitlab-mcp-server"].

Definition built_world (faults : list io_faults) : World :=
  {| fs := {[ sample_checkout // "go.mod" := "module gitlab-mcp-server";
              sample_checkout // "bin" // "gitlab-mcp-server" := "ELF" ]};
     out := [];
     oracle := faults |}.

Definition empty_world : World := {| fs := ∅; out := []; oracle := [] |}.

Definition cursor_path : Path := sample_home // ".cursor" // "mcp.json".

(** The target is write-protected: neither the write nor the restore can
    open it. *)
Definition write_protected_target : io_faults :=
  {| read_fault := None;
     backup_fault := IoOk;
     mkdir_fault := None;
     write_fault := IoFailOpen "[Errno 13] Permission denied";
     restore_fault := IoFailOpen "[Errno 13] Permission denied" |}.



(** The target is there and cannot be read. *)
Definition unreadable_target : io_faults :=
  {| read_fault := Some (ReadOSError "[Errno 13] Permission denied");
     backup_fault := IoOk;
     mkdir_fault := None;
     write_fault := IoOk;
     restore_fault := IoOk |}.

(** The parent directory cannot be made. *)
Definition no_parent_directory : io_faults :=
  {| read_fault := None;
     backup_fault := IoOk;
     mkdir_fault := Some "[Errno 13] Permission denied";
     write_fault := IoOk;
     restore_fault := IoOk |}.

Definition two_servers_typed : list string :=
  ["work"; EmptyString; EmptyString; "t1"; "n"; "y";
   "work"; "home"; "https://gitlab.example.com"; "t2"; "yes"; EmptyString].

Definition sample_cwd : Path := sample_checkout // "scripts".

(** ** The installer *)

Section Installer.
Local Open Scope M_scope.

(** [json.loads] on the text of a file: the document, or the message of the
    [JSONDecodeError]. *)
Variable json_loads : string -> string + json.
(** [json.dumps(data, indent=2)] *)
Variable json_dumps : json -> string.
(** [str(p)] and [p.resolve()] *)
Variable str_path : Path -> string.
Variable resolve : Path -> Path.

(** [with open(path, "r", encoding="utf-8") as f: json.load(f)] *)
Definition json_load (fault : option read_error) (path : Path) : M json :=
  text <- read_text fault path ;;
  match json_loads text with
  | inl msg => raise (JSONDecodeError msg)
  | inr data => ret data
  end.

(** "Read existing file or create new structure" *)
Definition read_existing (flt : io_faults) (path : Path) (description : string)
  : M json :=
  existed <- path_exists path ;;
  if existed : bool then
    try_except (json_load (read_fault flt) path) is_JSONDecodeError
      (fun e =>
         print ("  Warning: Failed to parse existing " ++ description
                  ++ ": " ++ str_exn e) ;;
         ret (JObj []))
  else ret (JObj []).

(** "Create backup if file exists" *)
Definition create_backup (flt : io_faults) (path : Path) : M unit :=
  existed <- path_exists path ;;
  if existed : bool then
    backup_path <- lift (with_suffix path ".json.bak") ;;
    try_except
      (bytes <- read_bytes path ;;
       write_file (backup_fault flt) backup_path bytes)
      is_Exception
      (fun e => print ("  Warning: Failed to create backup: " ++ str_exn e))
  else ret tt.

(** "Write updated config", with its [except] branch *)
Definition write_updated (flt : io_faults) (path : Path) (data : json)
  (description : string) : M bool :=
  try_except
    (write_file (write_fault flt) path (json_dumps data ++ newline) ;;
     ret true)
    is_Exception
    (fun e =>
       (* Try to restore backup *)
       backup_path <- lift (with_suffix path ".json.bak") ;;
       backup_exists <- path_exists backup_path ;;
       (if backup_exists : bool then
          try_except
            (bytes <- read_bytes backup_path ;;
             write_file (restore_fault flt) path bytes)
            is_Exception
            (fun _ => ret tt)
        else ret tt) ;;
       print ("  Error: Failed to write " ++ description ++ ": " ++ str_exn e) ;;
       ret false).

(** [update_json_file], block by block as the source comments divide it. *)
Definition update_json_file (path : Path) (update_func : json -> res json)
  (description : string) : M bool :=
  flt <- next_faults ;;
  data <- read_existing flt path description ;;
  create_backup flt path ;;
  (* Apply updates *)
  data <- lift (update_func data) ;;
  (* Create parent directories if needed *)
  mkdir_parent (mkdir_fault flt) path ;;
  write_updated flt path data description.

Definition update_vscode_workspace (path : Path) (server_name : string)
  (server_config : dict) : M bool :=
  update_json_file path
    (update_vscode_workspace_update server_name server_config)
    "VS Code workspace config".

Definition update_vscode_user (path : Path) (server_name : string)
  (server_config : dict) : M bool :=
  update_json_file path
    (update_vscode_user_update server_name server_config)
    "VS Code user settings".

Definition update_claude_config (path : Path) (server_name : string)
  (server_config : dict) (is_claude_code : bool) : M bool :=
  let desc :=
    if is_claude_code then "Claude Code config" else "Claude/Cursor config" in
  update_json_file path
    (update_claude_config_update server_name server_config is_claude_code)
    desc.

Definition update_vscode (paths : platform_paths) (server_name : string)
  (server_config : dict) : M bool :=
  (* Try workspace config first *)
  configured <-
    match vscode_workspace paths with
    | Some workspace =>
        try_except (update_vscode_workspace workspace server_name server_config)
          is_Exception (fun _ => ret false)
    | None => ret false
    end ;;
  if configured : bool then ret true
  else
    (* Fall back to user settings *)
    match vscode_user_settings paths with
    | Some user_settings =>
        update_vscode_user user_settings server_name server_config
    | None => ret false
    end.

Definition update_environment (env : string) (paths : platform_paths)
  (server_name : string) (server_config : dict) : M bool :=
  print (newline ++ "Configuring " ++ env ++ "...") ;;
  outcome <-
    try_except
      (if String.eqb env "VS Code" then
         success <- update_vscode paths server_name server_config ;;
         ret (success, None)
       else if String.eqb env "Claude Desktop" then
         match claude_desktop paths with
         | Some path =>
             success <- update_claude_config path server_name server_config false ;;
             ret (success, None)
         | None => ret (false, Some "Path not available")
         end
       else if String.eqb env "Claude Code" then
         match claude_code paths with
         | Some path =>
             success <- update_claude_config path server_name server_config true ;;
             ret (success, None)
         | None => ret (false, Some "Path not available")
         end
       else if String.eqb env "Cursor" then
         match cursor paths with
         | Some path =>
             success <- update_claude_config path server_name server_config false ;;
             ret (success, None)
         | None => ret (false, Some "Path not available")
         end
       else ret (false, None))
      is_Exception
      (fun e => ret (false, Some (str_exn e))) ;;
  if fst outcome : bool then
    print ("  ✓ " ++ env ++ " configured successfully") ;;
    ret true
  else
    print ("  ✗ Error configuring " ++ env
             ++ match snd outcome with
                | Some error =>
                    if String.eqb error EmptyString then EmptyString else ": " ++ error
                | None => EmptyString
                end) ;;
    ret false.

Definition get_binary_config (mode : string) (project_root : Path)
  : M BinaryConfig :=
  if String.eqb mode "docker" then
    ret {| bc_mode := mode;
           bc_env := [];
           bc_docker_image := Some docker_image_tag;
           bc_command := "docker";
           bc_args :=
             [JStr "run"; JStr "-i"; JStr "--rm"; JStr "-e"; JStr "GITLAB_TOKEN";
              JStr "-e"; JStr "GITLAB_HOST"] ++ [JStr docker_image_tag] |}
  else (* local *)
    let binary_path := project_root // "bin" // "gitlab-mcp-server" in
    found <- path_exists binary_path ;;
    if negb found then
      print ("Error: Binary not found at " ++ str_path binary_path) ;;
      print "Please run 'make build' first" ;;
      raise (SystemExit 1)
    else
      let abs_path := resolve binary_path in
      ret {| bc_mode := mode;
             bc_env := [];
             bc_docker_image := None;
             bc_command := str_path abs_path;
             bc_args := [JStr "stdio"] |}.

(** The entry of one server: [main]'s loop body up to
    [create_server_config]. *)
Definition main_server_config (project_root : Path)
  (server_config_data : ServerData) : M dict :=
  (* Get binary configuration *)
  binary_config <-
    try_except (get_binary_config (sd_mode server_config_data) project_root)
      is_Exception
      (fun e => print ("Error: " ++ str_exn e) ;; raise (SystemExit 1)) ;;
  (* Add read-only environment variable if needed *)
  let binary_config := main_readonly server_config_data binary_config in
  (* Create server configuration *)
  ret (create_server_config binary_config server_config_data).

(** The body of [main]'s loop over [servers]. *)
Definition main_server (project_root : Path) (paths : platform_paths)
  (environments : list string) (server_config_data : ServerData) : M unit :=
  let server_name := sd_name server_config_data in
  print (newline ++ "--- Processing server: " ++ server_name ++ " ---") ;;
  server_config <- main_server_config project_root server_config_data ;;
  (* Update configurations for selected environments *)
  for_each environments
    (fun env =>
       update_environment env paths server_name server_config ;; ret tt).

(** [main] from "Process each server" to the end of that loop; the prompts
    before it supply [servers] and [environments] and write no file. *)
Definition main_configure_servers (project_root : Path)
  (paths : platform_paths) (environments : list string)
  (servers : list ServerData) : M unit :=
  print (newline ++ "=== Configuring " ++ pretty (length servers)
           ++ " server(s) ===") ;;
  for_each servers (main_server project_root paths environments).

(** The shape of a target file as the wrapper that writes it. *)
Definition apply_adapter (kind : adapter_kind) (path : Path)
  (server_name : string) (server_config : dict) : M bool :=
  match kind with
  | WorkspaceNested => update_vscode_workspace path server_name server_config
  | UserNested => update_vscode_user path server_name server_config
  | FlatWithTypeTag => update_claude_config path server_name server_config true
  | FlatPlain => update_claude_config path server_name server_config false
  end.

Definition adapter_description (kind : adapter_kind) : string :=
  match kind with
  | WorkspaceNested => "VS Code workspace config"
  | UserNested => "VS Code user settings"
  | FlatWithTypeTag => "Claude Code config"
  | FlatPlain => "Claude/Cursor config"
  end.

(** The file [update_environment] hands to [update_claude_config] for the
    environment [env], and the shape it is written in. *)
Definition claude_target_path (paths : platform_paths) (env : string)
  : option Path :=
  if String.eqb env "Claude Desktop" then claude_desktop paths
  else if String.eqb env "Claude Code" then claude_code paths
  else if String.eqb env "Cursor" then cursor paths
  else None.

Definition claude_target_kind (env : string) : adapter_kind :=
  if String.eqb env "Claude Code" then FlatWithTypeTag else FlatPlain.

(** The line the backup step prints: none when the copy succeeds. *)
Definition backup_warning (flt : io_faults) : list string :=
  match backup_fault flt with
  | IoOk => []
  | IoFailOpen msg | IoFailPartial _ msg =>
      ["  Warning: Failed to create backup: " ++ msg]%string
  end.

(** [entry["env"]] and [entry["args"]] of an entry. *)
Definition entry_env (entry : dict) : dict :=
  match dict_get "env" entry with
  | Some (JObj env) => env
  | _ => []
  end.

Definition entry_args (entry : dict) : list json :=
  match dict_get "args" entry with
  | Some (JArr args) => args
  | _ => []
  end.


(** The files a run may write for [paths]: the five targets of
    [get_platform_paths] that are set. *)
Definition config_targets (paths : platform_paths) : list Path :=
  omap id [vscode_user_settings paths; vscode_workspace paths;
           claude_desktop paths; claude_code paths; cursor paths].

(** [q] is neither one of [targets] nor the .json.bak sibling of one. *)
Definition outside_targets (targets : list Path) (q : Path) : Prop :=
  forall p, In p targets ->
    q <> p /\ forall bp, with_suffix p ".json.bak" = Ok bp -> q <> bp.

(** From [w] to [w'] no file outside [targets] and their backups has
    changed, and no file has disappeared. *)
Definition files_kept (targets : list Path) (w w' : World) : Prop :=
  (forall q, outside_targets targets q -> fs w' !! q = fs w !! q) /\
  (forall q, is_Some (fs w !! q) -> is_Some (fs w' !! q)).


(** The files [update_environment] may write for [env]. *)
Definition environment_targets (paths : platform_paths) (env : string)
  : list Path :=
  if String.eqb env "VS Code" then
    omap id [vscode_workspace paths; vscode_user_settings paths]
  else
    match claude_target_path paths env with
    | Some path => [path]
    | None => []
    end.

(** Every run of [m] keeps the files outside [targets]. *)
Definition runs_within {A : Type} (targets : list Path) (m : M A) : Prop :=
  forall w w' r, m w = (w', r) -> files_kept targets w w'.


(** What a caller that ignores the value sees of an outcome. *)
Definition outcome_of {A : Type} (r : res A) : res unit :=
  match r with
  | Ok _ => Ok tt
  | Raise e => Raise e
  end.

(** Two worlds show the same terminal and have the same faults ahead. *)
Definition same_screen (w1 w2 : World) : Prop :=
  out w1 = out w2 /\ oracle w1 = oracle w2.


(** ** The prompts *)

(** [s.strip()], [s.lower()] and [int(s)] ([None]: [ValueError]) *)
Variable strip : string -> string.
Variable lower : string -> string.
Variable int_of_str : string -> option Z.

(** The mode loop, which [prompt_user] and [collect_servers] both contain. *)
Definition ask_mode : Prompt string :=
  ask_until "Select mode [local/docker] (default: local): "
    (fun line w =>
       let mode_input := strip line in
       if String.eqb mode_input EmptyString || String.eqb mode_input "local"
       then (w, Some "local")
       else if String.eqb mode_input "docker" then (w, Some "docker")
       else (fst (print ("Invalid mode: " ++ mode_input
                           ++ ". Must be 'local' or 'docker'") w),
             None)).

(** The token loop of both, with its prompt. *)
Definition ask_token (prompt : string) : Prompt string :=
  ask_until prompt
    (fun line w =>
       let token := strip line in
       if negb (String.eqb token EmptyString) then (w, Some token)
       else (fst (print "Error: token cannot be empty" w), None)).

(** [readonly_input in ("y", "yes")] *)
Definition is_yes (readonly_input : string) : bool :=
  String.eqb readonly_input "y" || String.eqb readonly_input "yes".

(** The dictionary [prompt_user] returns, before [main] names it. *)
Record UserConfig : Type := {
  uc_mode : string;
  uc_gitlab_host : string;
  uc_token : string;
  uc_readonly : bool
}.

Definition prompt_user : Prompt UserConfig :=
  (mode <- ask_mode ;;
   host_input <-
     input "GitLab host URL (default: https://gitlab.com, press Enter to use default): " ;;
   let host_input := strip host_input in
   token <- ask_token "GitLab access token: " ;;
   readonly_input <- input "Enable read-only mode? (y/n, default: n): " ;;
   let readonly_input := lower (strip readonly_input) in
   ask_ret {| uc_mode := mode;
              uc_gitlab_host := prompt_user_gitlab_host host_input;
              uc_token := token;
              uc_readonly := is_yes readonly_input |})%Prompt.

Definition prompt_multiple_servers : Prompt bool :=
  ask_until "Configure multiple GitLab servers? (y/n, default: n): "
    (fun line w =>
       let choice := lower (strip line) in
       if String.eqb choice EmptyString || String.eqb choice "n"
       then (w, Some false)
       else if String.eqb choice "y" then (w, Some true)
       else (fst (print "Please enter 'y' or 'n'" w), None)).

(** The name loop of [collect_servers]: after the message for a name that
    is taken, control reaches the [print] that follows the [if] as well. *)
Definition ask_server_name (servers : list ServerData) : Prompt string :=
  ask_until "Server name (e.g., 'work', 'personal', 'gitlab'): "
    (fun line w =>
       let name := strip line in
       if negb (String.eqb name EmptyString) then
         if existsb (fun s => String.eqb (sd_name s) name) servers then
           (fst (print "Error: Server name cannot be empty"
                   (fst (print ("Error: Server '" ++ name
                                  ++ "' already configured. Please use a different name.")
                           w))),
            None)
         else (w, Some name)
       else (fst (print "Error: Server name cannot be empty" w), None)).

(** The last loop of [collect_servers]: [false] returns the servers, [true]
    goes on to the next one. *)
Definition ask_another : Prompt bool :=
  ask_until "Add another server? (y/n, default: n): "
    (fun line w =>
       let more := lower (strip line) in
       if String.eqb more EmptyString || String.eqb more "n"
       then (w, Some false)
       else if String.eqb more "y" then (w, Some true)
       else (fst (print "Please enter 'y' or 'n'" w), None)).

(** The outer loop of [collect_servers], one server per round; [fuel]
    bounds the rounds.  [global_mode] is read from the second round on,
    after the first has set it. *)
Fixpoint collect_servers_from (fuel : nat) (servers : list ServerData)
  (server_num : nat) (global_mode : string) : Prompt (list ServerData) :=
  match fuel with
  | O => fun typed w => (typed, w, Unfinished)
  | S fuel =>
      let server_num := S server_num in
      (say (newline ++ "=== Configuring Server " ++ pretty server_num
              ++ " ===") ;;
       server_name <- ask_server_name servers ;;
       mode <- (if Nat.eqb server_num 1 then ask_mode
                else ask_ret global_mode) ;;
       host_input <-
         input ("GitLab host URL for '" ++ server_name
                  ++ "' (default: https://gitlab.com, press Enter to use default): ") ;;
       let host_input := strip host_input in
       token <-
         ask_token ("GitLab access token for '" ++ server_name ++ "': ") ;;
       readonly_input <- input "Enable read-only mode? (y/n, default: n): " ;;
       let readonly_input := lower (strip readonly_input) in
       let config :=
         {| sd_name := server_name;
            sd_mode := mode;
            sd_gitlab_host := prompt_user_gitlab_host host_input;
            sd_token := token;
            sd_readonly := is_yes readonly_input |} in
       let servers := servers ++ [config] in
       say EmptyString ;;
       more <- ask_another ;;
       if more : bool then collect_servers_from fuel servers server_num mode
       else ask_ret servers)%Prompt
  end.

(** [collect_servers]: every round reads at least one line, so there are no
    more rounds than lines. *)
Definition collect_servers : Prompt (list ServerData) :=
  fun typed w => collect_servers_from (S (length typed)) [] 0 EmptyString typed w.

(** [s.split(",")] *)
Fixpoint split_comma (s : string) : list string :=
  match s with
  | EmptyString => [EmptyString]
  | String c s' =>
      if Ascii.eqb c "," then EmptyString :: split_comma s'
      else match split_comma s' with
           | [] => [String c EmptyString]
           | part :: parts => String c part :: parts
           end
  end.

Definition environments_offered : list string :=
  ["VS Code"; "Claude Desktop"; "Claude Code"; "Cursor"].

(** The [for part in choice.split(",")] loop of [prompt_environments]. *)
Fixpoint select_environments (parts : list string) (selected : list string)
  : Prompt (list string) :=
  match parts with
  | [] => ask_ret selected
  | part :: parts =>
      let part := strip part in
      if String.eqb part EmptyString then select_environments parts selected
      else
        match int_of_str part with
        | Some idx =>
            (* Try to parse as number *)
            if Z.leb 1 idx
               && Z.leb idx (Z.of_nat (length environments_offered))
            then
              select_environments parts
                (selected
                   ++ [nth (Z.to_nat (idx - 1)) environments_offered
                         EmptyString])
            else select_environments parts selected
        | None =>
            (* Try to match by name *)
            match
              find (fun env => String.eqb (lower part) (lower env))
                environments_offered
            with
            | Some env => select_environments parts (selected ++ [env])
            | None =>
                ask_bind
                  (say ("Warning: Unknown environment '" ++ part
                          ++ "', skipping"))
                  (fun _ => select_environments parts selected)
            end
        end
  end.

(** [for i, env in enumerate(environments, 1): print(f"  {i}. {env}")] *)
Fixpoint say_numbered (i : nat) (environments : list string) : Prompt unit :=
  match environments with
  | [] => ask_ret tt
  | env :: rest =>
      ask_bind (say ("  " ++ pretty i ++ ". " ++ env))
        (fun _ => say_numbered (S i) rest)
  end.

Definition prompt_environments : Prompt (list string) :=
  (say (newline
          ++ "Select development environments to configure (comma-separated, or 'all'):") ;;
   say_numbered 1 environments_offered ;;
   choice <- input "Your choice (default: all): " ;;
   let choice := strip choice in
   if String.eqb choice EmptyString || String.eqb (lower choice) "all"
   then ask_ret environments_offered
   else
     selected <- select_environments (split_comma choice) [] ;;
     ask_ret (match selected with
              | [] => environments_offered
              | _ => selected
              end))%Prompt.

(** [cwd.parents] for an absolute path, whose first component is its
    anchor: the ancestors from the nearest to the anchor. *)
Definition path_parents (p : Path) : list Path :=
  match p with
  | [] => []
  | anchor :: parts =>
      map (fun k => anchor :: firstn k parts) (rev (seq 0 (length parts)))
  end.

(** The loop of [get_project_root] over [[cwd] + list(cwd.parents)]. *)
Fixpoint first_with_go_mod (candidates : list Path) (cwd : Path) : M Path :=
  match candidates with
  | [] => ret cwd
  | path :: candidates =>
      bind (path_exists (path // "go.mod"))
        (fun found =>
           if found : bool then ret path
           else first_with_go_mod candidates cwd)
  end.

(** [get_project_root], with [cwd] for [Path.cwd()] *)
Definition get_project_root (cwd : Path) : M Path :=
  first_with_go_mod (cwd :: path_parents cwd) cwd.

(** [config["name"] = "gitlab"] on the dictionary of [prompt_user] *)
Definition named (name : string) (config : UserConfig) : ServerData :=
  {| sd_name := name;
     sd_mode := uc_mode config;
     sd_gitlab_host := uc_gitlab_host config;
     sd_token := uc_token config;
     sd_readonly := uc_readonly config |}.

(** A question put by [main]: [EOFError] cancels the installation.  The
    unfinished outcome does not arise, [collect_servers] having fuel for all
    its rounds. *)
Definition main_asks {A : Type} (question : Prompt A) (typed : list string)
  : M (A * list string) :=
  fun w =>
    match question typed w with
    | (rest, w', Answered a) => (w', Ok (a, rest))
    | (_, w', EOFError) =>
        (fst (print (newline ++ "Installation cancelled") w'),
         Raise (SystemExit 1))
    | (_, w', Unfinished) => (w', Raise (SystemExit 1))
    end.

(** [main] up to the end of its server loop, [typed] being what the user
    types; the summary that follows only prints. *)
Definition main (cwd : Path) (system : string)
  (home appdata userprofile : Path) (typed : list string) : M unit :=
  print "=== GitLab MCP Server Installer ===" ;;
  print EmptyString ;;
  (* Get project root *)
  project_root <- get_project_root cwd ;;
  (* Check if user wants multi-server configuration *)
  multi_server <- main_asks prompt_multiple_servers typed ;;
  (* Collect server configurations *)
  servers <-
    (if fst multi_server : bool then
       main_asks collect_servers (snd multi_server)
     else
       main_asks
         (ask_bind prompt_user
            (fun config => ask_ret [named "gitlab" config]))
         (snd multi_server)) ;;
  (* Prompt for environments *)
  environments <- main_asks prompt_environments (snd servers) ;;
  (* Get configuration paths *)
  let paths := get_platform_paths system home appdata userprofile in
  (* Process each server *)
  main_configure_servers project_root paths (fst environments) (fst servers).


(** What a question guarantees on fewer than [bound] typed lines: it writes
    no file and takes no fault, it reads a prefix of the typed lines, an
    answer satisfies [Q] and has read at least [least] lines, the end of
    the input is met only once every line is read, and no loop is left
    unfinished. *)
Definition asks {A : Type} (bound least : nat) (question : Prompt A)
  (Q : A -> Prop) : Prop :=
  forall typed w,
    length typed < bound ->
    match question typed w with
    | (rest, w', r) =>
        fs w' = fs w /\ oracle w' = oracle w /\
        exists used,
          typed = used ++ rest /\
          match r with
          | Answered a => Q a /\ least <= length used
          | EOFError => rest = []
          | Unfinished => False
          end
    end.

(** What [collect_servers] checks of a server before it is kept. *)
Definition checked_server (s : ServerData) : Prop :=
  sd_name s <> EmptyString /\ sd_token s <> EmptyString /\
  sd_gitlab_host s <> EmptyString /\
  (sd_mode s = "local" \/ sd_mode s = "docker").

Definition checked_servers (servers : list ServerData) (mode : string)
  : Prop :=
  NoDup (map sd_name servers) /\ Forall checked_server servers /\
  forall s, In s servers -> sd_mode s = mode.

(** A part of the choice that [prompt_environments] selects nothing for:
    empty, a number out of range, or a name that is not offered. *)
Definition unrecognised (part : string) : Prop :=
  let part := strip part in
  part = EmptyString \/
  (exists idx, int_of_str part = Some idx /\ (idx < 1 \/ 4 < idx)%Z) \/
  (int_of_str part = None /\
   forall env, In env environments_offered -> lower part <> lower env).

(** The lines [print] adds for the typed lines a yes-or-no question
    rejects. *)
Definition rejected_lines (skipped : list string) : list string :=
  map (fun _ => "Please enter 'y' or 'n'") skipped.

(** An answer to a yes-or-no question, as typed. *)
Definition yes_or_no (line : string) : option bool :=
  let choice := lower (strip line) in
  if String.eqb choice EmptyString || String.eqb choice "n" then Some false
  else if String.eqb choice "y" then Some true
  else None.


(** The last line printed when the installation is cancelled. *)
Definition cancelled_line : string := newline ++ "Installation cancelled".

(** ** Dictionaries *)

Lemma dict_get_set (k k' : string) (v : json) (d : dict) :
  dict_get k' (dict_set k v d) = if String.eqb k k' then Some v else dict_get k' d.
Proof.
  induction d as [|[k0 v0] d IH]; simpl.
  - rewrite String.eqb_sym. reflexivity.
  - destruct (String.eqb_spec k0 k) as [->|Hne]; simpl.
    + destruct (String.eqb_spec k k'); reflexivity.
    + destruct (String.eqb_spec k0 k') as [->|Hne'].
      * destruct (String.eqb_spec k k'); congruence.
      * exact IH.
Qed.

Lemma dict_get_set_eq (k : string) (v : json) (d : dict) :
  dict_get k (dict_set k v d) = Some v.
Proof. rewrite dict_get_set, String.eqb_refl. reflexivity. Qed.

Lemma dict_get_set_ne (k k' : string) (v : json) (d : dict) :
  k' <> k -> dict_get k' (dict_set k v d) = dict_get k' d.
Proof.
  intros Hne. rewrite dict_get_set.
  destruct (String.eqb_spec k k'); congruence.
Qed.

Lemma dict_set_set (k : string) (v v' : json) (d : dict) :
  dict_set k v (dict_set k v' d) = dict_set k v d.
Proof.
  induction d as [|[k0 v0] d IH]; simpl.
  - rewrite String.eqb_refl. reflexivity.
  - destruct (String.eqb_spec k0 k) as [->|Hne]; simpl.
    + rewrite String.eqb_refl. reflexivity.
    + destruct (String.eqb_spec k0 k); [congruence|]. rewrite IH. reflexivity.
Qed.

(** ** Backup paths *)

Lemma append_cons (c : ascii) (a b : string) :
  (String c a ++ b)%string = String c (a ++ b).
Proof. reflexivity. Qed.

Lemma rsplit_dot_append (a b x y : string) :
  rsplit_dot b = Some (x, y) ->
  rsplit_dot (a ++ b) = Some ((a ++ x)%string, y).
Proof.
  intros Hb. induction a as [|c a IH].
  - exact Hb.
  - rewrite !append_cons. simpl. rewrite IH. reflexivity.
Qed.

Lemma append_length (a b : string) :
  String.length (a ++ b) = String.length a + String.length b.
Proof.
  induction a as [|c a IH]; [reflexivity|].
  rewrite append_cons. simpl. rewrite IH. reflexivity.
Qed.

Lemma append_length_grows (a b : string) :
  b <> EmptyString -> (a ++ b)%string <> a.
Proof.
  intros Hb Heq. apply (f_equal String.length) in Heq.
  rewrite append_length in Heq.
  destruct b; [congruence|]. simpl in Heq. lia.
Qed.

Lemma path_stem_bak_differs (name : string) :
  (path_stem name ++ ".json.bak")%string <> name.
Proof.
  intros Heq.
  assert (Hsplit : rsplit_dot name
                   = Some ((path_stem name ++ ".json")%string, "bak")).
  { rewrite <- Heq at 1. apply rsplit_dot_append. reflexivity. }
  assert (Hstem : path_stem name = (path_stem name ++ ".json")%string).
  { unfold path_stem at 1. rewrite Hsplit.
    destruct (path_stem name); reflexivity. }
  symmetry in Hstem. revert Hstem. apply append_length_grows. discriminate.
Qed.

Lemma with_suffix_bak_differs (p bp : Path) :
  with_suffix p ".json.bak" = Ok bp -> bp <> p.
Proof.
  unfold with_suffix. intros H.
  destruct (String.eqb_spec (path_name p) EmptyString) as [|Hname]; [discriminate|].
  injection H as <-. intros Heq.
  assert (Hp : p <> []) by (intros ->; apply Hname; reflexivity).
  rewrite (app_removelast_last EmptyString Hp) in Heq at 3.
  apply app_inj_tail in Heq as [_ Heq].
  exact (path_stem_bak_differs _ Heq).
Qed.

Lemma with_suffix_raises (p : Path) (suffix : string) (e : exn) :
  with_suffix p suffix = Raise e -> is_Exception e = true.
Proof.
  unfold with_suffix. destruct (String.eqb (path_name p) EmptyString); [|discriminate].
  intros [= <-]. reflexivity.
Qed.

Lemma with_suffix_named (p : Path) (suffix : string) :
  path_name p <> EmptyString -> exists bp, with_suffix p suffix = Ok bp.
Proof.
  intros Hname. unfold with_suffix.
  destruct (String.eqb_spec (path_name p) EmptyString); [contradiction|]. eauto.
Qed.

(** ** The adapters on documents *)

(** Case analysis on every test an adapter run makes, innermost test
    first. *)
Ltac res_simpl H :=
  unfold res_bind, py_contains, py_getitem, py_setitem, written_back,
    dict_has in H;
  simpl in H;
  rewrite ?dict_get_set_eq in H;
  simpl in H.

Ltac res_cases H :=
  res_simpl H;
  repeat (match type of H with
          | context [match ?x with _ => _ end] =>
              lazymatch x with
              | context [match _ with _ => _ end] => fail
              | _ => destruct x eqn:?; try discriminate H
              end
          end;
          res_simpl H).

Lemma adapter_update_top_level (kind : adapter_kind) (name : string)
  (cfg top : dict) (data' : json) :
  adapter_update kind name cfg (JObj top) = Ok data' ->
  exists top', data' = JObj top' /\
    forall k, k <> container_key kind -> dict_get k top' = dict_get k top.
Proof.
  intros H.
  destruct kind; unfold adapter_update, update_vscode_workspace_update,
    update_vscode_user_update, update_claude_config_update in H.
  all: res_cases H.
  all: injection H as <-; eexists; split; [reflexivity|].
  all: intros k Hk; simpl in Hk; rewrite ?dict_get_set_ne by exact Hk.
  all: reflexivity.
Qed.

Lemma adapter_update_empty (kind : adapter_kind) (name : string) (entry : dict) :
  adapter_update kind name entry (JObj []) = Ok (spec_fresh_document kind name entry).
Proof. destruct kind; reflexivity. Qed.

Lemma adapter_update_not_object (kind : adapter_kind) (name : string)
  (cfg : dict) (data : json) :
  (forall top, data <> JObj top) ->
  exists msg, adapter_update kind name cfg data = Raise (TypeError msg).
Proof.
  intros Hdata.
  destruct data; try (exfalso; eapply Hdata; reflexivity).
  all: destruct kind; simpl; unfold update_vscode_workspace_update,
    update_vscode_user_update, update_claude_config_update; simpl.
  all: try (eexists; reflexivity).
  all: match goal with
       | |- context [negb ?b] => destruct b; simpl; eexists; reflexivity
       end.
Qed.

Lemma adapter_update_raises_Exception (kind : adapter_kind) (name : string)
  (cfg : dict) (data : json) (e : exn) :
  adapter_update kind name cfg data = Raise e -> is_Exception e = true.
Proof.
  intros H.
  destruct kind; unfold adapter_update, update_vscode_workspace_update,
    update_vscode_user_update, update_claude_config_update in H.
  all: res_cases H.
  all: first [discriminate H | injection H as <-; reflexivity].
Qed.

(** An entry stored where the container already exists. *)
Lemma adapter_update_existing (kind : adapter_kind) (name : string)
  (entry : dict) (data : json) (servers : dict) :
  innermost_container kind data = Some servers ->
  exists data',
    adapter_update kind name entry data = Ok data' /\
    innermost_container kind data'
    = Some (dict_set name (JObj (placed_entry kind entry)) servers) /\
    adapter_update kind name entry data' = Ok data'.
Proof.
  intros Hc.
  destruct data as [| | | | | |top]; try (destruct kind; discriminate).
  destruct kind; simpl in Hc.
  all: repeat match type of Hc with
         | context [match ?x with _ => _ end] =>
             destruct x eqn:?; try discriminate Hc
         end.
  all: injection Hc as ->.
  all: unfold adapter_update, update_vscode_workspace_update,
         update_vscode_user_update, update_claude_config_update,
         res_bind, py_contains, py_getitem, py_setitem, written_back, dict_has,
         placed_entry; simpl.
  all: repeat match goal with
         | H : dict_get ?k ?d = Some _ |- context [dict_get ?k ?d] =>
             rewrite H; simpl
         end.
  all: eexists; split; [reflexivity|].
  all: simpl; repeat (rewrite dict_get_set_eq; simpl).
  all: rewrite ?dict_set_set; split; reflexivity.
Qed.

(** ** The blocks of [update_json_file] *)

Ltac unfold_io :=
  unfold read_existing, create_backup, write_updated, mkdir_parent, json_load,
    read_text, read_bytes, write_file, path_exists, try_except, bind, lift,
    ret, raise, print, set_fs.

Ltac unfold_io_in H :=
  unfold read_existing, create_backup, write_updated, mkdir_parent, json_load,
    read_text, read_bytes, write_file, path_exists, try_except, bind, lift,
    ret, raise, print, set_fs in H.

(** Case analysis on every test a run makes, innermost test first; each
    branch ends with the final world and result substituted. *)
Ltac io_cases H :=
  unfold_io_in H; simpl in H;
  repeat (match type of H with
          | context [match ?x with _ => _ end] =>
              lazymatch x with
              | context [match _ with _ => _ end] => fail
              | _ => destruct x eqn:?
              end
          end;
          simpl in H);
  try discriminate H;
  try (injection H as <- <-).

Lemma next_faults_run (w : World) :
  next_faults w = (begin_call w, Ok (upcoming_faults w)).
Proof.
  unfold next_faults, begin_call, upcoming_faults.
  destruct w as [files lines faults]; simpl. destruct faults; reflexivity.
Qed.

Lemma read_existing_parsed (flt : io_faults) (path : Path) (desc : string)
  (w : World) (text : string) (data : json) :
  fs w !! path = Some text -> read_fault flt = None ->
  json_loads text = inr data ->
  read_existing flt path desc w = (w, Ok data).
Proof.
  intros Hfs Hread Hload. unfold_io. simpl.
  rewrite Hfs, Hread; simpl. rewrite Hfs, Hload. reflexivity.
Qed.

Lemma read_existing_corrupt (flt : io_faults) (path : Path) (desc : string)
  (w : World) (text msg : string) :
  fs w !! path = Some text -> read_fault flt = None ->
  json_loads text = inl msg ->
  read_existing flt path desc w
  = (fst (print ("  Warning: Failed to parse existing " ++ desc ++ ": " ++ msg) w),
     Ok (JObj [])).
Proof.
  intros Hfs Hread Hload. unfold_io. simpl.
  rewrite Hfs, Hread; simpl. rewrite Hfs, Hload. reflexivity.
Qed.

Lemma read_existing_inv (flt : io_faults) (path : Path) (desc : string)
  (w w1 : World) (r : res json) :
  read_existing flt path desc w = (w1, r) ->
  fs w1 = fs w /\ oracle w1 = oracle w /\
  (forall e, r = Raise e -> is_Exception e = true) /\
  (forall text data data0, fs w !! path = Some text ->
     json_loads text = inr data -> r = Ok data0 -> data0 = data /\ out w1 = out w).
Proof.
  intros H. io_cases H.
  all: repeat split; try reflexivity; intros; simplify_eq; try reflexivity.
  all: try (match goal with
            | r : read_error |- _ =>
                destruct r; first [discriminate | reflexivity]
            end).
  all: congruence.
Qed.

Lemma create_backup_existing (flt : io_faults) (path bp : Path) (text : string)
  (w : World) :
  fs w !! path = Some text -> with_suffix path ".json.bak" = Ok bp ->
  exists w1, create_backup flt path w = (w1, Ok tt) /\
    oracle w1 = oracle w /\
    out w1 = out w ++ backup_warning flt /\
    (forall q, q <> bp -> fs w1 !! q = fs w !! q) /\
    (backup_fault flt = IoOk -> fs w1 !! bp = Some text).
Proof.
  intros Hfs Hbp. unfold_io. simpl. rewrite Hfs, Hbp. simpl. rewrite Hfs.
  unfold backup_warning.
  destruct (backup_fault flt) as [|msg|n msg]; simpl.
  all: eexists; split; [reflexivity|]; simpl.
  all: repeat split; try reflexivity; try discriminate.
  all: try (rewrite app_nil_r; reflexivity).
  all: try (intros q Hq; rewrite lookup_insert_ne by congruence; reflexivity).
  all: try (intros _; apply lookup_insert_eq).
Qed.

Lemma create_backup_inv (flt : io_faults) (path : Path) (w w1 : World)
  (r : res unit) :
  create_backup flt path w = (w1, r) ->
  oracle w1 = oracle w /\
  (forall e, r = Raise e -> is_Exception e = true) /\
  (forall q, (forall bp, with_suffix path ".json.bak" = Ok bp -> q <> bp) ->
     fs w1 !! q = fs w !! q).
Proof.
  intros H. io_cases H.
  all: repeat split; try reflexivity; intros; simplify_eq; try reflexivity.
  all: try (eapply with_suffix_raises; eassumption).
  all: simpl; rewrite lookup_insert_ne; [reflexivity|].
  all: intros <-; eapply H; reflexivity.
Qed.

Lemma mkdir_parent_inv (fault : option string) (path : Path) (w w1 : World)
  (r : res unit) :
  mkdir_parent fault path w = (w1, r) ->
  w1 = w /\ (forall e, r = Raise e -> is_Exception e = true) /\
  (forall text, fs w !! path = Some text -> r = Ok tt).
Proof.
  intros H. io_cases H.
  all: repeat split; try reflexivity; intros; simplify_eq; try reflexivity.
Qed.

Lemma write_updated_ok (flt : io_faults) (path : Path) (data : json)
  (desc : string) (w : World) :
  write_fault flt = IoOk ->
  write_updated flt path data desc w
  = (set_fs (<[path := (json_dumps data ++ newline)%string]> (fs w)) w, Ok true).
Proof. intros Hw. unfold_io. rewrite Hw. reflexivity. Qed.

Lemma write_updated_inv (flt : io_faults) (path : Path) (data : json)
  (desc : string) (w w2 : World) (r : res bool) :
  write_updated flt path data desc w = (w2, r) ->
  oracle w2 = oracle w /\
  (forall e, r = Raise e -> is_Exception e = true) /\
  (forall q, q <> path -> fs w2 !! q = fs w !! q) /\
  (r = Ok true ->
     write_fault flt = IoOk /\
     fs w2 !! path = Some (json_dumps data ++ newline)%string) /\
  (write_fault flt <> IoOk -> r <> Ok true).
Proof.
  intros H. io_cases H.
  all: repeat split; try reflexivity; intros; simplify_eq; try reflexivity.
  all: simpl; rewrite ?lookup_insert_eq; try reflexivity.
  all: try (rewrite !lookup_insert_ne by congruence; reflexivity).
  all: try discriminate.
  all: eapply with_suffix_raises; eassumption.
Qed.

(** A failed write is undone from the backup when the restore succeeds. *)
Lemma write_updated_restores (flt : io_faults) (path bp : Path) (data : json)
  (desc text : string) (w : World) :
  write_fault flt <> IoOk -> restore_fault flt = IoOk ->
  with_suffix path ".json.bak" = Ok bp -> fs w !! bp = Some text ->
  exists w2, write_updated flt path data desc w = (w2, Ok false) /\
    fs w2 !! path = Some text.
Proof.
  intros Hw Hr Hbp Hfs.
  pose proof (with_suffix_bak_differs _ _ Hbp) as Hne.
  unfold_io. simpl. rewrite Hbp, Hr.
  destruct (write_fault flt) as [|msg|n msg]; [congruence| |]; simpl.
  - rewrite Hfs. simpl. rewrite Hfs. simpl.
    eexists; split; [reflexivity|]. simpl. apply lookup_insert_eq.
  - rewrite lookup_insert_ne by congruence. rewrite Hfs. simpl.
    rewrite lookup_insert_ne by congruence. rewrite Hfs. simpl.
    eexists; split; [reflexivity|]. simpl. apply lookup_insert_eq.
Qed.


(** A failed write returns [False], whatever the restore does; and when
    the write could not open the file, its bytes are untouched if the
    restore cannot open it either, or if there is no backup file. *)
Lemma write_updated_failed (flt : io_faults) (path bp : Path) (data : json)
  (desc : string) (w w2 : World) (r : res bool) :
  write_fault flt <> IoOk ->
  with_suffix path ".json.bak" = Ok bp ->
  write_updated flt path data desc w = (w2, r) ->
  r = Ok false /\
  (forall msg,
     write_fault flt = IoFailOpen msg ->
     (exists msg', restore_fault flt = IoFailOpen msg') \/ fs w !! bp = None ->
     fs w2 !! path = fs w !! path).
Proof.
  intros Hw Hbp H. unfold_io_in H. simpl in H. rewrite Hbp in H.
  destruct (write_fault flt) as [|msg0|n msg0] eqn:Hwf; [congruence| |];
    simpl in H.
  - destruct (fs w !! bp) as [bytes|] eqn:Hb; simpl in H.
    + rewrite Hb in H. simpl in H.
      destruct (restore_fault flt) as [|msg1|m msg1]; simpl in H;
        injection H as <- <-; (split; [reflexivity|]);
        intros msg _ [[msg' Hr]|Hnone];
        try discriminate Hr; try discriminate Hnone; reflexivity.
    + injection H as <- <-. split; [reflexivity|]. reflexivity.
  - destruct (<[path:=_]> (fs w) !! bp) as [bytes|] eqn:Hb; simpl in H.
    + rewrite Hb in H. simpl in H.
      destruct (restore_fault flt) as [|msg1|m msg1]; simpl in H;
        injection H as <- <-; (split; [reflexivity|]);
        intros msg Hopen; discriminate Hopen.
    + injection H as <- <-. split; [reflexivity|].
      intros msg Hopen. discriminate Hopen.
Qed.

(** A backup that cannot be opened for writing leaves every file as it
    was. *)
Lemma create_backup_refused (flt : io_faults) (path bp : Path)
  (text msg : string) (w w1 : World) (r : res unit) :
  fs w !! path = Some text -> with_suffix path ".json.bak" = Ok bp ->
  backup_fault flt = IoFailOpen msg ->
  create_backup flt path w = (w1, r) ->
  fs w1 = fs w.
Proof.
  intros Hfs Hbp Hb H. unfold_io_in H. simpl in H.
  rewrite Hfs, Hbp in H. simpl in H. rewrite Hfs, Hb in H. simpl in H.
  injection H as <- _. reflexivity.
Qed.

Lemma create_backup_unnamed (flt : io_faults) (path : Path) (text : string)
  (e : exn) (w : World) :
  fs w !! path = Some text -> with_suffix path ".json.bak" = Raise e ->
  create_backup flt path w = (w, Raise e).
Proof. intros Hfs Hbp. unfold_io. simpl. rewrite Hfs, Hbp. reflexivity. Qed.

(** ** [update_json_file] as a whole *)

Lemma update_json_file_run (path : Path) (update_func : json -> res json)
  (desc : string) (w : World) :
  update_json_file path update_func desc w =
  let flt := upcoming_faults w in
  match read_existing flt path desc (begin_call w) with
  | (w1, Ok data) =>
      match create_backup flt path w1 with
      | (w2, Ok _) =>
          match update_func data with
          | Ok data' =>
              match mkdir_parent (mkdir_fault flt) path w2 with
              | (w3, Ok _) => write_updated flt path data' desc w3
              | (w3, Raise e) => (w3, Raise e)
              end
          | Raise e => (w2, Raise e)
          end
      | (w2, Raise e) => (w2, Raise e)
      end
  | (w1, Raise e) => (w1, Raise e)
  end.
Proof.
  unfold update_json_file, bind, lift. rewrite next_faults_run. simpl.
  destruct (read_existing _ _ _ _) as [w1 [data|e]]; [|reflexivity].
  destruct (create_backup _ _ _) as [w2 [[]|e]]; [|reflexivity].
  destruct (update_func data) as [data'|e]; [|reflexivity].
  destruct (mkdir_parent _ _ _) as [w3 [[]|e]]; reflexivity.
Qed.

(** The call touches the target and its backup, nothing else; what it raises
    is an [Exception] when the mutation raises nothing else. *)
Lemma update_json_file_inv (path : Path) (update_func : json -> res json)
  (desc : string) (w w' : World) (r : res bool) :
  update_json_file path update_func desc w = (w', r) ->
  (forall q, q <> path ->
     (forall bp, with_suffix path ".json.bak" = Ok bp -> q <> bp) ->
     fs w' !! q = fs w !! q) /\
  ((forall data e, update_func data = Raise e -> is_Exception e = true) ->
   forall e, r = Raise e -> is_Exception e = true).
Proof.
  rewrite update_json_file_run. simpl. intros H.
  destruct (read_existing _ _ _ _) as [w1 r1] eqn:E1.
  apply read_existing_inv in E1 as (Hfs1 & _ & Hexc1 & _).
  simpl in Hfs1.
  destruct r1 as [data|e1].
  2:{ injection H as <- <-. split; [intros; congruence|]. intros _ e [= <-].
      apply Hexc1. reflexivity. }
  destruct (create_backup _ _ _) as [w2 r2] eqn:E2.
  apply create_backup_inv in E2 as (_ & Hexc2 & Hfs2).
  destruct r2 as [[]|e2].
  2:{ injection H as <- <-. split.
      - intros q _ Hq. rewrite Hfs2 by exact Hq. congruence.
      - intros _ e [= <-]. apply Hexc2. reflexivity. }
  destruct (update_func data) as [data'|e3] eqn:E3.
  2:{ injection H as <- <-. split.
      - intros q _ Hq. rewrite Hfs2 by exact Hq. congruence.
      - intros Hf e [= <-]. eapply Hf. exact E3. }
  destruct (mkdir_parent _ _ _) as [w3 r3] eqn:E4.
  apply mkdir_parent_inv in E4 as (-> & Hexc4 & _).
  destruct r3 as [[]|e4].
  2:{ injection H as <- <-. split.
      - intros q _ Hq. rewrite Hfs2 by exact Hq. congruence.
      - intros _ e [= <-]. apply Hexc4. reflexivity. }
  apply write_updated_inv in H as (_ & Hexc5 & Hfs5 & _).
  split.
  - intros q Hqp Hq. rewrite Hfs5 by exact Hqp. rewrite Hfs2 by exact Hq.
    congruence.
  - intros _ e He. apply Hexc5. exact He.
Qed.

(** A call that reports success on an existing, parsable file has mutated
    the parsed document and written the result. *)
Lemma update_json_file_success (path : Path) (update_func : json -> res json)
  (desc : string) (w w' : World) (text : string) (data : json) :
  update_json_file path update_func desc w = (w', Ok true) ->
  fs w !! path = Some text -> json_loads text = inr data ->
  exists data', update_func data = Ok data' /\
    write_fault (upcoming_faults w) = IoOk /\
    fs w' !! path = Some (json_dumps data' ++ newline)%string.
Proof.
  rewrite update_json_file_run. simpl. intros H Hfs Hload.
  destruct (read_existing _ _ _ _) as [w1 r1] eqn:E1.
  apply read_existing_inv in E1 as (_ & _ & _ & Hdata).
  destruct r1 as [data0|e1]; [|discriminate H].
  destruct (Hdata text data data0 Hfs Hload eq_refl) as [-> _].
  destruct (create_backup _ _ _) as [w2 [[]|e2]]; [|discriminate H].
  destruct (update_func data) as [data'|e3]; [|discriminate H].
  destruct (mkdir_parent _ _ _) as [w3 [[]|e4]]; [|discriminate H].
  apply write_updated_inv in H as (_ & _ & _ & Hok & _).
  destruct (Hok eq_refl) as [Hw Hfs']. eauto.
Qed.

(** With the file read and parsed, the mutation applying and the write
    succeeding, the call reports success. *)
Lemma update_json_file_existing_ok (path : Path)
  (update_func : json -> res json) (desc text : string) (data data' : json)
  (w : World) :
  fs w !! path = Some text -> path_name path <> EmptyString ->
  read_fault (upcoming_faults w) = None -> json_loads text = inr data ->
  update_func data = Ok data' ->
  write_fault (upcoming_faults w) = IoOk ->
  exists w', update_json_file path update_func desc w = (w', Ok true).
Proof.
  intros Hfs Hname Hread Hload Hupd Hwrite.
  destruct (with_suffix_named path ".json.bak" Hname) as [bp Hbp].
  rewrite update_json_file_run. simpl.
  rewrite (read_existing_parsed _ _ _ _ text data) by assumption.
  destruct (create_backup_existing (upcoming_faults w) path bp text
              (begin_call w) Hfs Hbp)
    as (w2 & Hcb & _ & _ & Hframe & _).
  rewrite Hcb, Hupd.
  assert (Hfs2 : fs w2 !! path = Some text).
  { rewrite Hframe; [exact Hfs|].
    intros ->. exact (with_suffix_bak_differs _ _ Hbp eq_refl). }
  destruct (mkdir_parent _ _ _) as [w3 r3] eqn:E4.
  apply mkdir_parent_inv in E4 as (-> & _ & Hok).
  rewrite (Hok text Hfs2), write_updated_ok by exact Hwrite.
  eexists. reflexivity.
Qed.

Lemma apply_adapter_run (kind : adapter_kind) (path : Path) (name : string)
  (cfg : dict) :
  apply_adapter kind path name cfg
  = update_json_file path (adapter_update kind name cfg)
      (adapter_description kind).
Proof. destruct kind; reflexivity. Qed.

(** ** Preservation of unrelated keys *)

(** C1. When the target file exists and parses as a JSON object, and
    [update_json_file] run with an adapter's mutation reports success, the
    file holds the serialised mutated object, in which every top-level key
    other than the adapter's container key ("servers", "mcp" or
    "mcpServers") maps to what it mapped to before (and is absent if it was
    absent).  The call does report success whenever the file is read, the
    mutation applies and the write succeeds. *)
Theorem unrelated_top_level_keys_preserved (kind : adapter_kind) (path : Path)
  (name : string) (cfg top : dict) (text : string) (w : World) :
  fs w !! path = Some text ->
  json_loads text = inr (JObj top) ->
  (forall w',
     apply_adapter kind path name cfg w = (w', Ok true) ->
     exists top',
       fs w' !! path = Some (json_dumps (JObj top') ++ newline)%string /\
       forall k, k <> container_key kind -> dict_get k top' = dict_get k top) /\
  (forall data',
     adapter_update kind name cfg (JObj top) = Ok data' ->
     path_name path <> EmptyString ->
     read_fault (upcoming_faults w) = None ->
     write_fault (upcoming_faults w) = IoOk ->
     exists w', apply_adapter kind path name cfg w = (w', Ok true)).
Proof.
  intros Hfs Hload. split.
  - intros w' Hrun. rewrite apply_adapter_run in Hrun.
    destruct (update_json_file_success _ _ _ _ _ _ _ Hrun Hfs Hload)
      as (data' & Hupd & _ & Hfs').
    destruct (adapter_update_top_level _ _ _ _ _ Hupd) as (top' & -> & Hkeys).
    exists top'. split; assumption.
  - intros data' Hupd Hname Hread Hwrite. rewrite apply_adapter_run.
    eapply update_json_file_existing_ok; eassumption.
Qed.

(** ** The shape of a fresh document *)

(** C2. From the empty document, with the name "gitlab" and an entry [e]:
    the workspace adapter gives {"servers": {"gitlab": e}}, the user adapter
    {"mcp": {"servers": {"gitlab": e}}}, the Claude adapter with
    [is_claude_code] {"mcpServers": {"gitlab": e with "type": "stdio"}} and
    without it {"mcpServers": {"gitlab": e}}. *)
Theorem adapter_shapes_from_empty_document (e : dict) :
  update_vscode_workspace_update "gitlab" e (JObj [])
  = Ok (JObj [("servers", JObj [("gitlab", JObj e)])]) /\
  update_vscode_user_update "gitlab" e (JObj [])
  = Ok (JObj [("mcp", JObj [("servers", JObj [("gitlab", JObj e)])])]) /\
  update_claude_config_update "gitlab" e true (JObj [])
  = Ok (JObj [("mcpServers",
               JObj [("gitlab", JObj (dict_set "type" (JStr "stdio") e))])]) /\
  update_claude_config_update "gitlab" e false (JObj [])
  = Ok (JObj [("mcpServers", JObj [("gitlab", JObj e)])]).
Proof. repeat split; reflexivity. Qed.

(** ** Upsert *)

(** C5, as amended. When the innermost container of a document already maps
    the name [n] to an entry, applying an adapter with [(n, e)] succeeds and
    replaces the value at [n] by the object the adapter places: [e] itself
    for the workspace, user and plain Claude shapes, and a copy of [e] with
    "type" set to "stdio" for the Claude Code shape.  Every other name of the
    container keeps its value, and applying the same [(n, e)] to the result
    gives the result again. *)
Theorem upsert_overwrites_and_is_idempotent (kind : adapter_kind)
  (n : string) (e : dict) (data : json) (servers : dict) (old : json) :
  innermost_container kind data = Some servers ->
  dict_get n servers = Some old ->
  exists data' servers',
    adapter_update kind n e data = Ok data' /\
    innermost_container kind data' = Some servers' /\
    dict_get n servers' = Some (JObj (placed_entry kind e)) /\
    (forall m, m <> n -> dict_get m servers' = dict_get m servers) /\
    adapter_update kind n e data' = Ok data'.
Proof.
  intros Hc _.
  destruct (adapter_update_existing kind n e data servers Hc)
    as (data' & Hrun & Hc' & Hagain).
  exists data', (dict_set n (JObj (placed_entry kind e)) servers).
  repeat split; try assumption.
  - apply dict_get_set_eq.
  - intros m Hm. apply dict_get_set_ne. exact Hm.
Qed.

(** ** The entry builder *)

(** C6, as amended. In every built entry [env] maps GITLAB_TOKEN to the
    record's token, and maps GITLAB_HOST to the record's host whenever the
    host is a non-empty string.  [prompt_user] stores https://gitlab.com for
    an empty answer, so the host it records is never empty and GITLAB_HOST is
    set for the default host as for any other. *)
Theorem entry_env_token_and_host (binary_config : BinaryConfig)
  (server_config_data : ServerData) :
  let env := entry_env (create_server_config binary_config server_config_data) in
  dict_get "GITLAB_TOKEN" env = Some (JStr (sd_token server_config_data)) /\
  (sd_gitlab_host server_config_data <> EmptyString ->
   dict_get "GITLAB_HOST" env
   = Some (JStr (sd_gitlab_host server_config_data))) /\
  (forall host_input,
     sd_gitlab_host server_config_data = prompt_user_gitlab_host host_input ->
     dict_get "GITLAB_HOST" env
     = Some (JStr (sd_gitlab_host server_config_data))).
Proof.
  assert (Hhost : sd_gitlab_host server_config_data <> EmptyString ->
                  dict_get "GITLAB_HOST"
                    (entry_env (create_server_config binary_config
                                  server_config_data))
                  = Some (JStr (sd_gitlab_host server_config_data))).
  { intros Hne. unfold create_server_config, entry_env. simpl.
    destruct (String.eqb_spec (sd_gitlab_host server_config_data) EmptyString);
      [contradiction|]. simpl.
    destruct (sd_readonly server_config_data);
      rewrite ?dict_get_set; simpl; rewrite ?dict_get_set; reflexivity. }
  simpl. split; [|split].
  - unfold create_server_config, entry_env. simpl.
    destruct (negb _), (sd_readonly server_config_data);
      rewrite ?dict_get_set; simpl; rewrite ?dict_get_set; simpl;
      rewrite ?dict_get_set; reflexivity.
  - exact Hhost.
  - intros host_input Hprompt. apply Hhost. rewrite Hprompt.
    unfold prompt_user_gitlab_host.
    destruct (String.eqb_spec host_input EmptyString); [discriminate|assumption].
Qed.

Lemma list_insert_before_last {A : Type} (x z : A) (l : list A) :
  list_insert_at (-1) x (l ++ [z]) = l ++ [x; z].
Proof.
  unfold list_insert_at. rewrite length_app. simpl.
  replace (Z.to_nat (Z.max 0 (-1 + Z.of_nat (length l + 1)))) with (length l)
    by lia.
  rewrite take_app_length, drop_app_length. reflexivity.
Qed.

Lemma main_readonly_docker_args (server_config_data : ServerData)
  (binary_config : BinaryConfig) (flags : list json) (image : json) :
  sd_readonly server_config_data = true ->
  bc_mode binary_config = "docker" ->
  bc_args binary_config = flags ++ [image] ->
  bc_args (main_readonly server_config_data binary_config)
  = flags ++ [JStr "-e"; JStr "GITLAB_READ_ONLY"] ++ [image].
Proof.
  intros Hro Hmode Hargs. unfold main_readonly. rewrite Hro, Hmode, Hargs.
  simpl. rewrite list_insert_before_last.
  replace (flags ++ [JStr "-e"; image]) with ((flags ++ [JStr "-e"]) ++ [image])
    by (rewrite <- app_assoc; reflexivity).
  rewrite list_insert_before_last, <- app_assoc. reflexivity.
Qed.

Lemma get_binary_config_docker (project_root : Path) (w : World) :
  get_binary_config "docker" project_root w
  = (w, Ok {| bc_mode := "docker";
              bc_env := [];
              bc_docker_image := Some docker_image_tag;
              bc_command := "docker";
              bc_args :=
                [JStr "run"; JStr "-i"; JStr "--rm"; JStr "-e";
                 JStr "GITLAB_TOKEN"; JStr "-e"; JStr "GITLAB_HOST"]
                ++ [JStr docker_image_tag] |}).
Proof. reflexivity. Qed.

Lemma get_binary_config_missing (mode : string) (project_root : Path)
  (w : World) :
  mode <> "docker" ->
  fs w !! (project_root // "bin" // "gitlab-mcp-server") = None ->
  get_binary_config mode project_root w
  = (fst (print "Please run 'make build' first"
            (fst (print ("Error: Binary not found at "
                           ++ str_path (project_root // "bin"
                                                     // "gitlab-mcp-server"))
                    w))),
     Raise (SystemExit 1)).
Proof.
  intros Hmode Hfs. unfold get_binary_config.
  destruct (String.eqb_spec mode "docker"); [contradiction|].
  unfold bind, path_exists, print, raise. simpl. rewrite Hfs. reflexivity.
Qed.

Lemma get_binary_config_found (mode : string) (project_root : Path)
  (w : World) (content : string) :
  mode <> "docker" ->
  fs w !! (project_root // "bin" // "gitlab-mcp-server") = Some content ->
  get_binary_config mode project_root w
  = (w, Ok {| bc_mode := mode;
              bc_env := [];
              bc_docker_image := None;
              bc_command :=
                str_path (resolve (project_root // "bin" // "gitlab-mcp-server"));
              bc_args := [JStr "stdio"] |}).
Proof.
  intros Hmode Hfs. unfold get_binary_config.
  destruct (String.eqb_spec mode "docker"); [contradiction|].
  unfold bind, path_exists, ret. simpl. rewrite Hfs. reflexivity.
Qed.

(** C7. For a record with [readonly] set: in local mode (the binary being
    there) the entry's [env] maps GITLAB_READ_ONLY to "true"; in docker mode
    the entry's [args] are those of [get_binary_config] with the pair "-e",
    "GITLAB_READ_ONLY" inserted immediately before the last argument, which
    is still the image tag. *)
Theorem read_only_propagation (project_root : Path)
  (server_config_data : ServerData) (w : World) :
  sd_readonly server_config_data = true ->
  (sd_mode server_config_data = "local" ->
   forall content,
     fs w !! (project_root // "bin" // "gitlab-mcp-server") = Some content ->
     exists entry,
       main_server_config project_root server_config_data w = (w, Ok entry) /\
       dict_get "GITLAB_READ_ONLY" (entry_env entry) = Some (JStr "true")) /\
  (sd_mode server_config_data = "docker" ->
   exists binary_config flags entry,
     get_binary_config "docker" project_root w = (w, Ok binary_config) /\
     bc_args binary_config = flags ++ [JStr docker_image_tag] /\
     main_server_config project_root server_config_data w = (w, Ok entry) /\
     entry_args entry
     = flags ++ [JStr "-e"; JStr "GITLAB_READ_ONLY"] ++ [JStr docker_image_tag] /\
     dict_get "GITLAB_READ_ONLY" (entry_env entry) = Some (JStr "true")).
Proof.
  intros Hro. split.
  - intros Hmode content Hfs. unfold main_server_config, try_except, bind.
    rewrite (get_binary_config_found _ _ _ content);
      [|rewrite Hmode; discriminate|exact Hfs].
    eexists. split; [reflexivity|].
    unfold create_server_config, main_readonly, entry_env. rewrite Hro. simpl.
    destruct (negb _); rewrite ?dict_get_set; reflexivity.
  - intros Hmode. eexists _, _, _. split; [apply get_binary_config_docker|].
    split; [reflexivity|].
    unfold main_server_config, try_except, bind. rewrite Hmode.
    rewrite get_binary_config_docker. split; [reflexivity|].
    split.
    + unfold create_server_config, entry_args. simpl dict_get. cbv iota.
      apply main_readonly_docker_args; [exact Hro|reflexivity|reflexivity].
    + unfold create_server_config, main_readonly, entry_env. rewrite Hro.
      simpl. destruct (negb _); rewrite ?dict_get_set; reflexivity.
Qed.

Lemma for_each_raise {A : Type} (x : A) (l : list A) (body : A -> M unit)
  (w w' : World) (e : exn) :
  body x w = (w', Raise e) -> for_each (x :: l) body w = (w', Raise e).
Proof. intros H. simpl. unfold bind. rewrite H. reflexivity. Qed.

(** C8. In local mode, when <project_root>/bin/gitlab-mcp-server does not
    exist, [get_binary_config] returns no configuration and raises
    [SystemExit(1)]; the run of [main] ends with that exit at its first
    server, and no file has changed since the run began. *)
Theorem missing_binary_is_fatal (project_root : Path) (paths : platform_paths)
  (environments : list string) (server_config_data : ServerData)
  (more_servers : list ServerData) (w : World) :
  sd_mode server_config_data = "local" ->
  fs w !! (project_root // "bin" // "gitlab-mcp-server") = None ->
  (exists w0,
     get_binary_config (sd_mode server_config_data) project_root w
     = (w0, Raise (SystemExit 1))) /\
  exists w',
    main_configure_servers project_root paths environments
      (server_config_data :: more_servers) w
    = (w', Raise (SystemExit 1)) /\
    fs w' = fs w.
Proof.
  intros Hmode Hfs.
  assert (Hlocal : sd_mode server_config_data <> "docker")
    by (rewrite Hmode; discriminate).
  split.
  - eexists. apply get_binary_config_missing; assumption.
  - unfold main_configure_servers, bind at 1. unfold print at 1.
    eexists. split.
    + apply for_each_raise.
      unfold main_server, main_server_config, try_except, bind.
      unfold print at 1. cbn beta iota.
      rewrite get_binary_config_missing by (simpl; assumption).
      reflexivity.
    + reflexivity.
Qed.

(** ** The VS Code fallback *)

Lemma update_vscode_workspace_raises_Exception (path : Path) (name : string)
  (cfg : dict) (w w' : World) (e : exn) :
  update_vscode_workspace path name cfg w = (w', Raise e) ->
  is_Exception e = true.
Proof.
  intros H. apply update_json_file_inv in H as [_ Hexc].
  apply Hexc; [|reflexivity]. intros data e'.
  apply (adapter_update_raises_Exception WorkspaceNested).
Qed.

Lemma update_vscode_after_workspace (paths : platform_paths)
  (workspace user_settings : Path) (name : string) (cfg : dict)
  (w w1 : World) (r1 : res bool) :
  vscode_workspace paths = Some workspace ->
  vscode_user_settings paths = Some user_settings ->
  update_vscode_workspace workspace name cfg w = (w1, r1) ->
  update_vscode paths name cfg w
  = match r1 with
    | Ok true => (w1, Ok true)
    | _ => update_vscode_user user_settings name cfg w1
    end.
Proof.
  intros Hws Hus Hrun. unfold update_vscode, bind at 1, try_except.
  rewrite Hws, Hus, Hrun.
  destruct r1 as [[|]|e]; simpl; try reflexivity.
  rewrite (update_vscode_workspace_raises_Exception _ _ _ _ _ _ Hrun).
  reflexivity.
Qed.

Lemma platform_paths_vscode (system : string) (home appdata userprofile : Path) :
  let paths := get_platform_paths system home appdata userprofile in
  vscode_workspace paths = Some vscode_workspace_path /\
  exists dir, vscode_user_settings paths = Some (dir // "settings.json").
Proof.
  unfold get_platform_paths.
  destruct (String.eqb system "Windows"); [|destruct (String.eqb system "Darwin")].
  all: simpl; split; [reflexivity|eexists; reflexivity].
Qed.

(** C9. For the VS Code target, with the paths [get_platform_paths] gives:
    when the update of the workspace file .vscode/mcp.json does not return
    [True] (it returns [False], or it raises), [update_vscode] is exactly one
    call of [update_vscode_user] on the user-settings path, made in the world
    the failed attempt left, and its result is that call's result; when the
    workspace update returns [True], [update_vscode] returns [True] and the
    user-settings file is as it was. *)
Theorem vscode_falls_back_to_user_settings (system : string)
  (home appdata userprofile : Path) (name : string) (cfg : dict)
  (w w1 : World) (r1 : res bool) :
  let paths := get_platform_paths system home appdata userprofile in
  update_vscode_workspace vscode_workspace_path name cfg w = (w1, r1) ->
  vscode_workspace paths = Some vscode_workspace_path /\
  exists user_settings,
    vscode_user_settings paths = Some user_settings /\
    (r1 <> Ok true ->
     update_vscode paths name cfg w
     = update_vscode_user user_settings name cfg w1) /\
    (r1 = Ok true ->
     update_vscode paths name cfg w = (w1, Ok true) /\
     fs w1 !! user_settings = fs w !! user_settings).
Proof.
  intros paths Hrun.
  destruct (platform_paths_vscode system home appdata userprofile)
    as [Hws [dir Hus]].
  fold paths in Hws, Hus. split; [exact Hws|].
  exists (dir // "settings.json"). split; [exact Hus|].
  pose proof (update_vscode_after_workspace paths _ _ name cfg w w1 r1
                Hws Hus Hrun) as Hv.
  split.
  - intros Hr. rewrite Hv. destruct r1 as [[|]|e]; [contradiction| |];
      reflexivity.
  - intros Hr. rewrite Hv, Hr. split; [reflexivity|].
    apply update_json_file_inv in Hrun as [Hframe _].
    apply Hframe.
    + unfold path_div, vscode_workspace_path. intros Heq.
      apply (app_inj_tail dir [".vscode"]) in Heq as [_ Heq]. discriminate.
    + intros bp [= <-]. unfold path_div. simpl. intros Heq.
      apply (app_inj_tail dir [".vscode"]) in Heq as [_ Heq]. discriminate.
Qed.

(** ** Failures and the backup *)

(** C3, as amended. For an existing file with valid JSON: when the mutation
    raises, or the final write fails, the call does not report success.
    When the mutation raises, the file is never written: its bytes are
    those before the call and the exception propagates.  When the final
    write fails, the call returns [False], and the bytes are those before
    the call in these cases: the backup copy had succeeded and the restore
    from it succeeds; or the write could not open the file, and the restore
    either cannot open it or finds no backup file, none having been there
    and the backup copy having been refused. *)
Theorem failed_update_keeps_or_restores_file (path : Path)
  (update_func : json -> res json) (desc text : string) (data : json)
  (w w' : World) (r : res bool) :
  fs w !! path = Some text ->
  read_fault (upcoming_faults w) = None ->
  json_loads text = inr data ->
  ((exists e, update_func data = Raise e)
   \/ write_fault (upcoming_faults w) <> IoOk) ->
  update_json_file path update_func desc w = (w', r) ->
  r <> Ok true /\
  (forall e, update_func data = Raise e ->
     fs w' !! path = Some text /\ (path_name path <> EmptyString -> r = Raise e)) /\
  (forall data', update_func data = Ok data' ->
     path_name path <> EmptyString -> r = Ok false) /\
  (backup_fault (upcoming_faults w) = IoOk ->
   restore_fault (upcoming_faults w) = IoOk ->
   fs w' !! path = Some text) /\
  (forall msg,
     write_fault (upcoming_faults w) = IoFailOpen msg ->
     (exists msg', restore_fault (upcoming_faults w) = IoFailOpen msg')
     \/ (exists bp msg',
           with_suffix path ".json.bak" = Ok bp /\
           fs w !! bp = None /\
           backup_fault (upcoming_faults w) = IoFailOpen msg') ->
     fs w' !! path = Some text).
Proof.
  intros Hfs Hread Hload Hfail H.
  rewrite update_json_file_run in H. simpl in H.
  rewrite (read_existing_parsed _ _ _ _ text data) in H by assumption.
  destruct (with_suffix path ".json.bak") as [bp|e0] eqn:Hbp.
  - pose proof (with_suffix_bak_differs _ _ Hbp) as Hne.
    destruct (create_backup_existing (upcoming_faults w) path bp text
                (begin_call w) Hfs Hbp)
      as (w2 & Hcb & _ & _ & Hframe & Hbak).
    rewrite Hcb in H.
    assert (Hfs2 : fs w2 !! path = Some text)
      by (rewrite Hframe by congruence; exact Hfs).
    destruct (update_func data) as [data'|e] eqn:Hupd.
    + destruct Hfail as [[e He]|Hwrite]; [discriminate He|].
      destruct (mkdir_parent _ _ _) as [w3 r3] eqn:E4.
      apply mkdir_parent_inv in E4 as (-> & _ & Hok).
      rewrite (Hok text Hfs2) in H.
      destruct (write_updated_failed _ _ _ _ _ _ _ _ Hwrite Hbp H)
        as [Hfalse Hopen].
      split; [rewrite Hfalse; discriminate|].
      split; [intros e He; discriminate He|].
      split; [intros data'' _ _; exact Hfalse|].
      split.
      * intros Hb Hr.
        destruct (write_updated_restores (upcoming_faults w) path bp data'
                    desc text w2 Hwrite Hr Hbp (Hbak Hb))
          as (w4 & Hrun & Hfs4).
        rewrite Hrun in H. injection H as <- <-. exact Hfs4.
      * intros msg Hw Hcase. rewrite (Hopen msg Hw); [exact Hfs2|].
        destruct Hcase as [Hr|(bp' & msg' & Hbp' & Hnone & Hb)];
          [left; exact Hr|right].
        assert (bp' = bp) as -> by congruence.
        rewrite (create_backup_refused _ path bp text msg' (begin_call w) _ _
                   Hfs Hbp Hb Hcb).
        exact Hnone.
    + injection H as <- <-.
      split; [discriminate|]. split.
      * intros e' [= <-]. split; [exact Hfs2|reflexivity].
      * split; [intros data' Hd; discriminate Hd|].
        split; [intros _ _; exact Hfs2|intros msg _ _; exact Hfs2].
  - rewrite (create_backup_unnamed _ _ text e0) in H by assumption.
    injection H as <- <-.
    split; [discriminate|]. split.
    + intros e He. split; [exact Hfs|]. intros Hname.
      destruct (with_suffix_named path ".json.bak" Hname) as [bp Hbp'].
      congruence.
    + split.
      * intros data' _ Hname.
        destruct (with_suffix_named path ".json.bak" Hname) as [bp Hbp'].
        congruence.
      * split; [intros _ _; exact Hfs|intros msg _ _; exact Hfs].
Qed.


(** ** Documents that are not objects *)

Lemma update_environment_claude (env : string) (paths : platform_paths)
  (path : Path) (name : string) (cfg : dict) (w : World) :
  claude_target_path paths env = Some path ->
  update_environment env paths name cfg w =
  match
    apply_adapter (claude_target_kind env) path name cfg
      (fst (print (newline ++ "Configuring " ++ env ++ "...") w))
  with
  | (w1, Ok true) =>
      (fst (print ("  ✓ " ++ env ++ " configured successfully") w1), Ok true)
  | (w1, Ok false) =>
      (fst (print ("  ✗ Error configuring " ++ env) w1), Ok false)
  | (w1, Raise e) =>
      if is_Exception e then
        (fst (print ("  ✗ Error configuring " ++ env
                       ++ (if String.eqb (str_exn e) EmptyString then EmptyString
                           else ": " ++ str_exn e)) w1),
         Ok false)
      else (w1, Raise e)
  end.
Proof.
  unfold claude_target_path, claude_target_kind. intros Hpath.
  unfold update_environment, bind at 1. unfold print at 1. cbn beta iota.
  unfold try_except, bind, ret, apply_adapter.
  destruct (String.eqb_spec env "Claude Desktop") as [->|Hdesktop].
  { simpl in *. rewrite Hpath.
    destruct (update_claude_config _ _ _ _ _) as [w1 [[|]|e]];
      try reflexivity.
    destruct (is_Exception e); reflexivity. }
  destruct (String.eqb_spec env "Claude Code") as [->|Hcode].
  { simpl in *. rewrite Hpath.
    destruct (update_claude_config _ _ _ _ _) as [w1 [[|]|e]];
      try reflexivity.
    destruct (is_Exception e); reflexivity. }
  destruct (String.eqb_spec env "Cursor") as [->|Hcursor]; [|discriminate].
  simpl in *. rewrite Hpath.
  destruct (update_claude_config _ _ _ _ _) as [w1 [[|]|e]];
    try reflexivity.
  destruct (is_Exception e); reflexivity.
Qed.

Lemma update_environment_vscode (paths : platform_paths) (name : string)
  (cfg : dict) (w : World) :
  update_environment "VS Code" paths name cfg w =
  match
    update_vscode paths name cfg
      (fst (print (newline ++ "Configuring " ++ "VS Code" ++ "...") w))
  with
  | (w1, Ok true) =>
      (fst (print ("  ✓ " ++ "VS Code" ++ " configured successfully") w1),
       Ok true)
  | (w1, Ok false) =>
      (fst (print ("  ✗ Error configuring " ++ "VS Code") w1), Ok false)
  | (w1, Raise e) =>
      if is_Exception e then
        (fst (print ("  ✗ Error configuring " ++ "VS Code"
                       ++ (if String.eqb (str_exn e) EmptyString then EmptyString
                           else ": " ++ str_exn e)) w1),
         Ok false)
      else (w1, Raise e)
  end.
Proof.
  unfold update_environment, bind at 1. unfold print at 1. cbn beta iota.
  unfold try_except, bind, ret. simpl.
  destruct (update_vscode _ _ _ _) as [w1 [[|]|e]]; try reflexivity.
  destruct (is_Exception e); reflexivity.
Qed.

Lemma update_vscode_user_raises_Exception (path : Path) (name : string)
  (cfg : dict) (w w' : World) (e : exn) :
  update_vscode_user path name cfg w = (w', Raise e) ->
  is_Exception e = true.
Proof.
  intros H. apply update_json_file_inv in H as [_ Hexc].
  apply Hexc; [|reflexivity]. intros data e'.
  apply (adapter_update_raises_Exception UserNested).
Qed.

Lemma apply_adapter_not_object (kind : adapter_kind) (path bp : Path)
  (name : string) (cfg : dict) (text : string) (data : json) (w : World) :
  fs w !! path = Some text ->
  with_suffix path ".json.bak" = Ok bp ->
  read_fault (upcoming_faults w) = None ->
  json_loads text = inr data ->
  (forall top, data <> JObj top) ->
  exists w' msg,
    apply_adapter kind path name cfg w = (w', Raise (TypeError msg)) /\
    out w' = out w ++ backup_warning (upcoming_faults w) /\
    fs w' !! path = Some text /\
    (backup_fault (upcoming_faults w) = IoOk -> fs w' !! bp = Some text).
Proof.
  intros Hfs Hbp Hread Hload Hdata.
  destruct (adapter_update_not_object kind name cfg data Hdata) as [msg Hupd].
  rewrite apply_adapter_run, update_json_file_run. simpl.
  rewrite (read_existing_parsed _ _ _ _ text data) by assumption.
  destruct (create_backup_existing (upcoming_faults w) path bp text
              (begin_call w) Hfs Hbp)
    as (w2 & Hcb & _ & Hout & Hframe & Hbak).
  rewrite Hcb, Hupd. exists w2, msg.
  split; [reflexivity|]. split; [exact Hout|]. split; [|exact Hbak].
  rewrite Hframe; [exact Hfs|].
  intros ->. exact (with_suffix_bak_differs _ _ Hbp eq_refl).
Qed.

(** C10, as amended. When the target file exists and parses as valid JSON
    whose top level is not an object, the document is not taken for an empty
    one: the adapter's mutation raises a [TypeError] that propagates out of
    [update_json_file], no parse warning is printed (at most the warning of
    a failed backup), the bytes of the target file are unchanged, and the
    .bak sibling holds a copy of them when the backup copy succeeded.  For
    the Claude Desktop, Claude Code and Cursor targets [update_environment]
    then reports failure.  For the VS Code workspace file [update_vscode]
    catches the exception and falls back to the user settings, and
    [update_environment] reports what that fallback returns ([False] if it
    raises). *)
Theorem non_object_document_is_left_alone (kind : adapter_kind)
  (path bp : Path) (name : string) (cfg : dict) (text : string) (data : json)
  (w : World) :
  fs w !! path = Some text ->
  with_suffix path ".json.bak" = Ok bp ->
  read_fault (upcoming_faults w) = None ->
  json_loads text = inr data ->
  (forall top, data <> JObj top) ->
  (exists w' msg,
     apply_adapter kind path name cfg w = (w', Raise (TypeError msg)) /\
     out w' = out w ++ backup_warning (upcoming_faults w) /\
     fs w' !! path = Some text /\
     (backup_fault (upcoming_faults w) = IoOk -> fs w' !! bp = Some text)) /\
  (forall env paths,
     claude_target_path paths env = Some path ->
     exists w'',
       update_environment env paths name cfg w = (w'', Ok false) /\
       fs w'' !! path = Some text) /\
  (forall paths user_settings,
     vscode_workspace paths = Some path ->
     vscode_user_settings paths = Some user_settings ->
     exists w1 msg,
       update_vscode_workspace path name cfg
         (fst (print (newline ++ "Configuring " ++ "VS Code" ++ "...") w))
       = (w1, Raise (TypeError msg)) /\
       fs w1 !! path = Some text /\
       snd (update_environment "VS Code" paths name cfg w)
       = Ok match snd (update_vscode_user user_settings name cfg w1) with
            | Ok reported => reported
            | Raise _ => false
            end).
Proof.
  intros Hfs Hbp Hread Hload Hdata. split; [|split].
  - eapply apply_adapter_not_object; eassumption.
  - intros env paths Hpath.
    rewrite (update_environment_claude env paths path) by exact Hpath.
    set (w0 := fst (print _ w)).
    destruct (apply_adapter_not_object (claude_target_kind env) path bp name
                cfg text data w0 Hfs Hbp Hread Hload Hdata)
      as (w' & msg & Hrun & _ & Hfs' & _).
    rewrite Hrun. simpl. eexists. split; [reflexivity|exact Hfs'].
  - intros paths user_settings Hws Hus.
    rewrite update_environment_vscode.
    set (w0 := fst (print _ w)).
    destruct (apply_adapter_not_object WorkspaceNested path bp name
                cfg text data w0 Hfs Hbp Hread Hload Hdata)
      as (w1 & msg & Hrun & _ & Hfs1 & _).
    change (apply_adapter WorkspaceNested path name cfg w0)
      with (update_vscode_workspace path name cfg w0) in Hrun.
    exists w1, msg. split; [exact Hrun|]. split; [exact Hfs1|].
    rewrite (update_vscode_after_workspace paths path user_settings name cfg
               w0 w1 _ Hws Hus Hrun).
    destruct (update_vscode_user user_settings name cfg w1)
      as [w2 [[|]|e]] eqn:Huser; try reflexivity.
    rewrite (update_vscode_user_raises_Exception _ _ _ _ _ _ Huser).
    reflexivity.
Qed.

(** ** Further behaviour of [update_json_file] *)

Lemma read_existing_missing (flt : io_faults) (path : Path) (desc : string)
  (w : World) :
  fs w !! path = None -> read_existing flt path desc w = (w, Ok (JObj [])).
Proof. intros Hfs. unfold_io. rewrite Hfs. reflexivity. Qed.

Lemma create_backup_missing (flt : io_faults) (path : Path) (w : World) :
  fs w !! path = None -> create_backup flt path w = (w, Ok tt).
Proof. intros Hfs. unfold_io. rewrite Hfs. reflexivity. Qed.

(** X1. A target file that does not exist is created: when the parent
    directory can be made and the write succeeds, every adapter returns
    [True], prints nothing, writes the serialised fresh document (container
    scaffolding and the entry) and changes no other file; in particular no
    backup is made. *)
Theorem missing_file_is_created (kind : adapter_kind) (path : Path)
  (name : string) (cfg : dict) (w : World) :
  fs w !! path = None ->
  mkdir_fault (upcoming_faults w) = None ->
  write_fault (upcoming_faults w) = IoOk ->
  exists w',
    apply_adapter kind path name cfg w = (w', Ok true) /\
    fs w' !! path
    = Some (json_dumps (spec_fresh_document kind name cfg) ++ newline)%string /\
    out w' = out w /\
    forall q, q <> path -> fs w' !! q = fs w !! q.
Proof.
  intros Hfs Hmkdir Hwrite.
  rewrite apply_adapter_run, update_json_file_run. simpl.
  rewrite read_existing_missing, create_backup_missing by exact Hfs.
  rewrite adapter_update_empty.
  unfold mkdir_parent. simpl. rewrite Hfs, Hmkdir.
  rewrite write_updated_ok by exact Hwrite.
  eexists. split; [reflexivity|]. simpl. split; [apply lookup_insert_eq|].
  split; [reflexivity|].
  intros q Hq. apply lookup_insert_ne. congruence.
Qed.

Lemma create_backup_keeps_files (flt : io_faults) (path : Path) (w w1 : World)
  (r : res unit) (q : Path) :
  create_backup flt path w = (w1, r) ->
  is_Some (fs w !! q) -> is_Some (fs w1 !! q).
Proof.
  intros H Hq. io_cases H; simpl; try exact Hq.
  all: match goal with
       | |- is_Some (<[?a := _]> _ !! _) =>
           destruct (decide (a = q)) as [->|Hne];
           [rewrite lookup_insert_eq; eauto
           |rewrite lookup_insert_ne by exact Hne; exact Hq]
       end.
Qed.

Lemma write_updated_keeps_files (flt : io_faults) (path : Path) (data : json)
  (desc : string) (w w2 : World) (r : res bool) (q : Path) :
  write_updated flt path data desc w = (w2, r) ->
  is_Some (fs w !! q) -> is_Some (fs w2 !! q).
Proof.
  intros H Hq. io_cases H; simpl; try exact Hq.
  all: repeat match goal with
       | |- is_Some (<[?a := _]> _ !! _) =>
           destruct (decide (a = q)) as [->|?];
           [rewrite lookup_insert_eq; eauto
           |rewrite lookup_insert_ne by assumption]
       end.
  all: try exact Hq.
Qed.

Lemma update_json_file_keeps_files (path : Path)
  (update_func : json -> res json) (desc : string) (w w' : World)
  (r : res bool) (q : Path) :
  update_json_file path update_func desc w = (w', r) ->
  is_Some (fs w !! q) -> is_Some (fs w' !! q).
Proof.
  intros H Hq. rewrite update_json_file_run in H. simpl in H.
  destruct (read_existing _ _ _ _) as [w1 r1] eqn:E1.
  apply read_existing_inv in E1 as (Hfs1 & _).
  assert (Hq1 : is_Some (fs w1 !! q)) by (rewrite Hfs1; exact Hq).
  destruct r1 as [data|e1]; [|injection H as <- <-; exact Hq1].
  destruct (create_backup _ _ _) as [w2 r2] eqn:E2.
  pose proof (create_backup_keeps_files _ _ _ _ _ q E2 Hq1) as Hq2.
  destruct r2 as [[]|e2]; [|injection H as <- <-; exact Hq2].
  destruct (update_func data) as [data'|e3];
    [|injection H as <- <-; exact Hq2].
  destruct (mkdir_parent _ _ _) as [w3 r3] eqn:E4.
  apply mkdir_parent_inv in E4 as (-> & _).
  destruct r3 as [[]|e4]; [|injection H as <- <-; exact Hq2].
  exact (write_updated_keeps_files _ _ _ _ _ _ _ q H Hq2).
Qed.

(** X2. Whatever happens in a call of [update_json_file], the only files
    whose contents can change are the target and its .json.bak sibling, and
    no file that was there before the call is gone after it. *)
Theorem update_json_file_touches_target_and_backup_only (path : Path)
  (update_func : json -> res json) (desc : string) (w w' : World)
  (r : res bool) :
  update_json_file path update_func desc w = (w', r) ->
  (forall q, q <> path ->
     (forall bp, with_suffix path ".json.bak" = Ok bp -> q <> bp) ->
     fs w' !! q = fs w !! q) /\
  (forall q, is_Some (fs w !! q) -> is_Some (fs w' !! q)).
Proof.
  intros H. split.
  - apply (update_json_file_inv _ _ _ _ _ _ H).
  - intros q Hq. exact (update_json_file_keeps_files _ _ _ _ _ _ q H Hq).
Qed.

(** X3. When the target exists and is read, and the backup copy succeeds,
    the .json.bak sibling holds the bytes the target had before the call,
    whatever the call then does: parse failure, a mutation that raises, a
    failed write or success. *)
Theorem backup_holds_previous_bytes (path bp : Path)
  (update_func : json -> res json) (desc text : string) (w w' : World)
  (r : res bool) :
  fs w !! path = Some text ->
  with_suffix path ".json.bak" = Ok bp ->
  read_fault (upcoming_faults w) = None ->
  backup_fault (upcoming_faults w) = IoOk ->
  update_json_file path update_func desc w = (w', r) ->
  fs w' !! bp = Some text.
Proof.
  intros Hfs Hbp Hread Hbackup H.
  pose proof (with_suffix_bak_differs _ _ Hbp) as Hne.
  rewrite update_json_file_run in H. simpl in H.
  destruct (read_existing _ _ _ _) as [w1 r1] eqn:E1.
  assert (Hr1 : fs w1 = fs w /\ exists data, r1 = Ok data).
  { destruct (json_loads text) as [msg|data] eqn:Hload.
    - rewrite (read_existing_corrupt _ _ _ _ text msg) in E1 by assumption.
      injection E1 as <- <-. split; [reflexivity|eauto].
    - rewrite (read_existing_parsed _ _ _ _ text data) in E1 by assumption.
      injection E1 as <- <-. split; [reflexivity|eauto]. }
  destruct Hr1 as [Hfs1 [data ->]].
  assert (Hfs1' : fs w1 !! path = Some text) by (rewrite Hfs1; exact Hfs).
  destruct (create_backup_existing (upcoming_faults w) path bp text w1
              Hfs1' Hbp)
    as (w2 & Hcb & _ & _ & _ & Hbak).
  rewrite Hcb in H. specialize (Hbak Hbackup).
  destruct (update_func data) as [data'|e3];
    [|injection H as <- <-; exact Hbak].
  destruct (mkdir_parent _ _ _) as [w3 r3] eqn:E4.
  apply mkdir_parent_inv in E4 as (-> & _).
  destruct r3 as [[]|e4]; [|injection H as <- <-; exact Hbak].
  apply write_updated_inv in H as (_ & _ & Hframe & _).
  rewrite Hframe by exact Hne. exact Hbak.
Qed.

(** X4. Only a [JSONDecodeError] is forgiven when the existing file is
    read: when the file cannot be opened or read, or its bytes are not UTF-8,
    the error propagates out of [update_json_file] at once; nothing is
    printed, no backup is made and no file changes. *)
Theorem unreadable_file_raises (path : Path) (update_func : json -> res json)
  (desc text : string) (err : read_error) (w : World) :
  fs w !! path = Some text ->
  read_fault (upcoming_faults w) = Some err ->
  update_json_file path update_func desc w
  = (begin_call w, Raise (exn_of_read_error err)).
Proof.
  intros Hfs Hread. rewrite update_json_file_run. simpl.
  unfold_io. simpl. rewrite Hfs, Hread. simpl.
  destruct err; reflexivity.
Qed.

(** X5. When the target does not exist and its parent directory cannot be
    made, [update_json_file] does not return [False]: the [OSError] of
    [mkdir] propagates (the call is outside the [try] of the write), after
    the mutation has been applied in memory, and no file is written. *)
Theorem mkdir_failure_raises (path : Path) (update_func : json -> res json)
  (desc msg : string) (data' : json) (w : World) :
  fs w !! path = None ->
  update_func (JObj []) = Ok data' ->
  mkdir_fault (upcoming_faults w) = Some msg ->
  update_json_file path update_func desc w
  = (begin_call w, Raise (OSError msg)).
Proof.
  intros Hfs Hupd Hmkdir. rewrite update_json_file_run. simpl.
  rewrite read_existing_missing, create_backup_missing by exact Hfs.
  rewrite Hupd. unfold mkdir_parent. simpl. rewrite Hfs, Hmkdir.
  reflexivity.
Qed.

(** ** Further behaviour of the adapters *)

Lemma dict_set_keys (k : string) (v : json) (d : dict) :
  map fst (dict_set k v d)
  = if dict_has k d then map fst d else map fst d ++ [k].
Proof.
  unfold dict_has. induction d as [|[k0 v0] d IH]; simpl; [reflexivity|].
  destruct (String.eqb k0 k); simpl; [reflexivity|].
  rewrite IH. destruct (dict_get k d); reflexivity.
Qed.

Lemma adapter_update_places_entry (kind : adapter_kind) (n : string)
  (e : dict) (data data' : json) :
  adapter_update kind n e data = Ok data' ->
  exists servers,
    innermost_container kind data' = Some servers /\
    dict_get n servers = Some (JObj (placed_entry kind e)).
Proof.
  intros H.
  destruct kind; unfold adapter_update, update_vscode_workspace_update,
    update_vscode_user_update, update_claude_config_update in H.
  all: res_cases H.
  all: injection H as <-.
  all: simpl; repeat (rewrite dict_get_set_eq; simpl).
  all: eexists; split; [reflexivity|].
  all: first [apply dict_get_set_eq
             |simpl; rewrite String.eqb_refl; reflexivity].
Qed.

(** X6. An adapter never replaces a container that is not an object: when
    the container key of the document ("servers", "mcp" or "mcpServers")
    holds a value that is not an object -- a list, a string, a number,
    [null] -- the mutation raises [TypeError]; and so does the user-settings
    adapter when "mcp" is an object whose "servers" is not one. *)
Theorem occupied_container_raises (kind : adapter_kind) (name : string)
  (cfg top : dict) (v : json) :
  (forall d, v <> JObj d) ->
  (dict_get (container_key kind) top = Some v ->
   exists msg, adapter_update kind name cfg (JObj top) = Raise (TypeError msg)) /\
  (forall mcp,
     dict_get "mcp" top = Some (JObj mcp) ->
     dict_get "servers" mcp = Some v ->
     exists msg,
       update_vscode_user_update name cfg (JObj top) = Raise (TypeError msg)).
Proof.
  intros Hv. split.
  - intros Hget.
    destruct kind; simpl in Hget;
      unfold adapter_update, update_vscode_workspace_update,
        update_vscode_user_update, update_claude_config_update,
        res_bind, py_contains, py_getitem, dict_has; simpl;
      rewrite Hget; simpl; rewrite ?Hget; simpl.
    all: destruct v; try (exfalso; eapply Hv; reflexivity); simpl.
    all: repeat (first [rewrite Hget
                       |match goal with
                        | |- context [negb ?b] => destruct b
                        end];
                 simpl).
    all: eexists; reflexivity.
  - intros mcp Hmcp Hservers.
    unfold update_vscode_user_update, res_bind, py_contains, py_getitem,
      dict_has; simpl.
    repeat (first [rewrite Hmcp|rewrite Hservers]; simpl).
    destruct v; try (exfalso; eapply Hv; reflexivity); simpl.
    all: repeat (first [rewrite Hmcp|rewrite Hservers]; simpl).
    all: eexists; reflexivity.
Qed.

(** X7. An adapter keeps the order of the top-level keys: after a
    successful mutation of an object the keys are those of the document in
    their order, with the container key added last when it was absent. *)
Theorem top_level_key_order_kept (kind : adapter_kind) (name : string)
  (cfg top : dict) (data' : json) :
  adapter_update kind name cfg (JObj top) = Ok data' ->
  exists top',
    data' = JObj top' /\
    map fst top'
    = if dict_has (container_key kind) top then map fst top
      else map fst top ++ [container_key kind].
Proof.
  intros H.
  destruct kind; unfold adapter_update, update_vscode_workspace_update,
    update_vscode_user_update, update_claude_config_update in H.
  all: res_cases H.
  all: injection H as <-; eexists; split; [reflexivity|].
  all: rewrite ?dict_set_set, dict_set_keys; unfold dict_has; simpl.
  all: repeat match goal with
         | H : dict_get ?k ?d = _ |- context [dict_get ?k ?d] => rewrite H
         end.
  all: reflexivity.
Qed.

(** X8. Whenever a mutation succeeds, on any document, the entry is where
    the target expects it: the innermost container of the result maps the
    name to the entry (for the Claude Code shape, to its copy with the type
    tag). *)
Theorem successful_mutation_places_entry (kind : adapter_kind) (n : string)
  (e : dict) (data data' : json) :
  adapter_update kind n e data = Ok data' ->
  exists servers,
    innermost_container kind data' = Some servers /\
    dict_get n servers = Some (JObj (placed_entry kind e)).
Proof.
  intros Hupdate.
  destruct (adapter_update_places_entry kind n e data data' Hupdate)
    as (servers & Hcontainer & Hentry).
  exists servers. split; [exact Hcontainer|exact Hentry].
Qed.

(** X9. Entries under different names accumulate: after a successful
    mutation for [(n1, e1)], the mutation for [(n2, e2)] with another name
    succeeds too, and the container of the result holds both entries. *)
Theorem two_servers_accumulate (kind : adapter_kind) (n1 n2 : string)
  (e1 e2 : dict) (data data1 : json) :
  n1 <> n2 ->
  adapter_update kind n1 e1 data = Ok data1 ->
  exists data2 servers,
    adapter_update kind n2 e2 data1 = Ok data2 /\
    innermost_container kind data2 = Some servers /\
    dict_get n1 servers = Some (JObj (placed_entry kind e1)) /\
    dict_get n2 servers = Some (JObj (placed_entry kind e2)).
Proof.
  intros Hne H1.
  destruct (adapter_update_places_entry _ _ _ _ _ H1) as (servers1 & Hc1 & Hn1).
  destruct (adapter_update_existing kind n2 e2 data1 servers1 Hc1)
    as (data2 & H2 & Hc2 & _).
  exists data2, (dict_set n2 (JObj (placed_entry kind e2)) servers1).
  split; [exact H2|]. split; [exact Hc2|]. split.
  - rewrite dict_get_set_ne by exact Hne. exact Hn1.
  - apply dict_get_set_eq.
Qed.

(** ** Re-running on a written file *)

Lemma adapter_update_fixed_point (kind : adapter_kind) (n : string)
  (e : dict) (data data' : json) :
  adapter_update kind n e data = Ok data' ->
  adapter_update kind n e data' = Ok data'.
Proof.
  intros H.
  destruct kind; unfold adapter_update, update_vscode_workspace_update,
    update_vscode_user_update, update_claude_config_update in H.
  all: res_cases H; injection H as <-.
  all: unfold adapter_update, update_vscode_workspace_update,
         update_vscode_user_update, update_claude_config_update,
         res_bind, py_contains, py_getitem, py_setitem, written_back,
         dict_has; simpl.
  all: repeat (rewrite dict_get_set_eq; simpl).
  all: rewrite ?dict_set_set; simpl; rewrite ?String.eqb_refl.
  all: reflexivity.
Qed.

(** X10. Running the tool again with the same name and entry on a file it
    wrote leaves the file as it is: when the file holds the serialised
    result of the mutation, and the parser reads that text back as the same
    document, the second call returns [True] and the bytes of the file are
    unchanged. *)
Theorem rerun_leaves_file_unchanged (kind : adapter_kind) (path : Path)
  (name : string) (cfg : dict) (data0 data1 : json) (w : World) :
  adapter_update kind name cfg data0 = Ok data1 ->
  fs w !! path = Some (json_dumps data1 ++ newline)%string ->
  json_loads (json_dumps data1 ++ newline) = inr data1 ->
  path_name path <> EmptyString ->
  read_fault (upcoming_faults w) = None ->
  write_fault (upcoming_faults w) = IoOk ->
  exists w',
    apply_adapter kind path name cfg w = (w', Ok true) /\
    fs w' !! path = fs w !! path.
Proof.
  intros Hfirst Hfs Hload Hname Hread Hwrite.
  pose proof (adapter_update_fixed_point _ _ _ _ _ Hfirst) as Hidem.
  rewrite apply_adapter_run.
  destruct (update_json_file_existing_ok path (adapter_update kind name cfg)
              (adapter_description kind) _ data1 data1 w
              Hfs Hname Hread Hload Hidem Hwrite)
    as [w' Hrun].
  exists w'. split; [exact Hrun|].
  destruct (update_json_file_success _ _ _ _ _ _ _ Hrun Hfs Hload)
    as (data' & Hupd & _ & Hfs').
  rewrite Hidem in Hupd. injection Hupd as <-.
  rewrite Hfs', Hfs. reflexivity.
Qed.

(** ** The target files of a platform *)

Lemma path_div_inj (p q : Path) (c d : string) :
  p // c = q // d -> p = q /\ c = d.
Proof. unfold path_div. apply app_inj_tail. Qed.

Lemma with_suffix_div (p : Path) (c suffix : string) :
  c <> EmptyString ->
  with_suffix (p // c) suffix = Ok (p // (path_stem c ++ suffix)%string).
Proof.
  intros Hc. unfold with_suffix, path_name, path_div.
  rewrite last_last, removelast_last.
  destruct (String.eqb_spec c EmptyString); [contradiction|reflexivity].
Qed.

(** Two paths that differ in a component counted from the end. *)
Ltac path_neq H :=
  unfold vscode_workspace_path in H;
  repeat match type of H with
         | context [[?a; ?b]] => change [a; b] with ([] // a // b) in H
         end;
  repeat (let Hc := fresh "Hc" in
          apply path_div_inj in H as [H Hc];
          try (vm_compute in Hc; discriminate Hc)).

(** No member of a list of paths is the path of [H]. *)
Ltac in_cases H :=
  repeat match type of H with
         | _ \/ _ => destruct H as [H|H]; [path_neq H|]
         end;
  exact H.

(** X11. On every platform the five target files are all set and pairwise
    different, and the .json.bak sibling of a target is never another
    target: two environments never write the same file, and a backup never
    overwrites a configuration. *)
Theorem platform_targets_are_distinct (system : string)
  (home appdata userprofile : Path) :
  let paths := get_platform_paths system home appdata userprofile in
  length (config_targets paths) = 5 /\
  List.NoDup (config_targets paths) /\
  forall p bp,
    In p (config_targets paths) ->
    with_suffix p ".json.bak" = Ok bp ->
    ~ In bp (config_targets paths).
Proof.
  unfold get_platform_paths, config_targets.
  destruct (String.eqb system "Windows"); [|destruct (String.eqb system "Darwin")].
  all: simpl; split; [reflexivity|]; split.
  all: try (repeat constructor; simpl; intros Hin; in_cases Hin).
  all: intros p bp Hin Hbp Hin2.
  all: repeat match type of Hin with
         | _ \/ _ =>
             destruct Hin as [<-|Hin];
             [first [rewrite with_suffix_div in Hbp by discriminate
                    |vm_compute in Hbp];
              injection Hbp as <-; in_cases Hin2|]
         end.
  all: exact Hin.
Qed.

(** ** Environments *)

Lemma update_claude_config_raises_Exception (path : Path) (name : string)
  (cfg : dict) (is_claude_code : bool) (w w' : World) (e : exn) :
  update_claude_config path name cfg is_claude_code w = (w', Raise e) ->
  is_Exception e = true.
Proof.
  intros H. apply update_json_file_inv in H as [_ Hexc].
  apply Hexc; [|reflexivity]. intros data e'.
  destruct is_claude_code.
  - apply (adapter_update_raises_Exception FlatWithTypeTag).
  - apply (adapter_update_raises_Exception FlatPlain).
Qed.

Lemma update_vscode_raises_Exception (paths : platform_paths) (name : string)
  (cfg : dict) (w w' : World) (e : exn) :
  update_vscode paths name cfg w = (w', Raise e) -> is_Exception e = true.
Proof.
  unfold update_vscode, bind, try_except, ret. intros H.
  destruct (vscode_workspace paths) as [workspace|].
  - destruct (update_vscode_workspace _ _ _ _) as [w1 [[|]|e1]] eqn:E1;
      try discriminate H.
    + destruct (vscode_user_settings paths); [|discriminate H].
      exact (update_vscode_user_raises_Exception _ _ _ _ _ _ H).
    + rewrite (update_vscode_workspace_raises_Exception _ _ _ _ _ _ E1) in H.
      destruct (vscode_user_settings paths); [|discriminate H].
      exact (update_vscode_user_raises_Exception _ _ _ _ _ _ H).
  - destruct (vscode_user_settings paths); [|discriminate H].
    exact (update_vscode_user_raises_Exception _ _ _ _ _ _ H).
Qed.

Lemma append_empty (s : string) : (s ++ EmptyString)%string = s.
Proof.
  induction s as [|c s IH]; [reflexivity|].
  rewrite append_cons, IH. reflexivity.
Qed.

(** X12. For a name that is none of the four environments
    [update_environment] attempts nothing: it returns [False], no file is
    read or written, no fault of the file system is met, and the two lines
    printed are the heading and an error line without a cause. *)
Theorem unknown_environment_is_refused (env : string) (paths : platform_paths)
  (name : string) (cfg : dict) (w : World) :
  ~ In env ["VS Code"; "Claude Desktop"; "Claude Code"; "Cursor"] ->
  exists w',
    update_environment env paths name cfg w = (w', Ok false) /\
    fs w' = fs w /\ oracle w' = oracle w /\
    out w'
    = out w ++ [(newline ++ "Configuring " ++ env ++ "...")%string;
                ("  ✗ Error configuring " ++ env)%string].
Proof.
  intros Hnot.
  unfold update_environment, bind at 1. unfold print at 1. cbn beta iota.
  unfold try_except, bind, ret.
  destruct (String.eqb_spec env "VS Code") as [->|_];
    [exfalso; apply Hnot; simpl; auto 8|].
  destruct (String.eqb_spec env "Claude Desktop") as [->|_];
    [exfalso; apply Hnot; simpl; auto 8|].
  destruct (String.eqb_spec env "Claude Code") as [->|_];
    [exfalso; apply Hnot; simpl; auto 8|].
  destruct (String.eqb_spec env "Cursor") as [->|_];
    [exfalso; apply Hnot; simpl; auto 8|].
  eexists. split; [reflexivity|]. simpl.
  split; [reflexivity|]. split; [reflexivity|].
  rewrite append_empty, <- app_assoc. reflexivity.
Qed.

(** ** The files a run can touch *)

Lemma files_kept_same_fs (targets : list Path) (w w' : World) :
  fs w' = fs w -> files_kept targets w w'.
Proof. intros Hfs. split; intros q; rewrite Hfs; auto. Qed.

Lemma files_kept_trans (targets : list Path) (w1 w2 w3 : World) :
  files_kept targets w1 w2 -> files_kept targets w2 w3 ->
  files_kept targets w1 w3.
Proof.
  intros [Hout1 Hin1] [Hout2 Hin2]. split.
  - intros q Hq. rewrite Hout2, Hout1 by exact Hq. reflexivity.
  - intros q Hq. apply Hin2, Hin1. exact Hq.
Qed.

Lemma files_kept_incl (targets targets' : list Path) (w w' : World) :
  incl targets targets' ->
  files_kept targets w w' -> files_kept targets' w w'.
Proof.
  intros Hincl [Hout Hin]. split; [|exact Hin].
  intros q Hq. apply Hout. intros p Hp. apply Hq, Hincl, Hp.
Qed.

Lemma runs_within_incl {A : Type} (targets targets' : list Path) (m : M A) :
  incl targets targets' -> runs_within targets m -> runs_within targets' m.
Proof.
  intros Hincl Hm w w' r Hrun.
  exact (files_kept_incl _ _ _ _ Hincl (Hm _ _ _ Hrun)).
Qed.

Lemma runs_within_ret {A : Type} (targets : list Path) (a : A) :
  runs_within targets (ret a).
Proof. intros w w' r [= <- <-]. apply files_kept_same_fs. reflexivity. Qed.

Lemma runs_within_raise {A : Type} (targets : list Path) (e : exn) :
  runs_within targets (@raise A e).
Proof. intros w w' r [= <- <-]. apply files_kept_same_fs. reflexivity. Qed.

Lemma runs_within_print (targets : list Path) (line : string) :
  runs_within targets (print line).
Proof. intros w w' r [= <- <-]. apply files_kept_same_fs. reflexivity. Qed.

Lemma runs_within_bind {A B : Type} (targets : list Path) (m : M A)
  (k : A -> M B) :
  runs_within targets m -> (forall a, runs_within targets (k a)) ->
  runs_within targets (bind m k).
Proof.
  intros Hm Hk w w' r. unfold bind.
  destruct (m w) as [w1 [a|e]] eqn:E; intros H.
  - exact (files_kept_trans _ _ _ _ (Hm _ _ _ E) (Hk a _ _ _ H)).
  - injection H as <- <-. exact (Hm _ _ _ E).
Qed.

Lemma runs_within_try_except {A : Type} (targets : list Path) (m : M A)
  (class : exn -> bool) (handler : exn -> M A) :
  runs_within targets m -> (forall e, runs_within targets (handler e)) ->
  runs_within targets (try_except m class handler).
Proof.
  intros Hm Hh w w' r. unfold try_except.
  destruct (m w) as [w1 [a|e]] eqn:E; intros H.
  - injection H as <- <-. exact (Hm _ _ _ E).
  - destruct (class e).
    + exact (files_kept_trans _ _ _ _ (Hm _ _ _ E) (Hh e _ _ _ H)).
    + injection H as <- <-. exact (Hm _ _ _ E).
Qed.

Lemma runs_within_for_each {A : Type} (targets : list Path) (l : list A)
  (body : A -> M unit) :
  (forall x, runs_within targets (body x)) ->
  runs_within targets (for_each l body).
Proof.
  intros Hbody. induction l as [|x l IH]; simpl.
  - apply runs_within_ret.
  - apply runs_within_bind; [apply Hbody|intros _; exact IH].
Qed.

Lemma runs_within_update_json_file (targets : list Path) (path : Path)
  (update_func : json -> res json) (desc : string) :
  In path targets ->
  runs_within targets (update_json_file path update_func desc).
Proof.
  intros Hin w w' r H. split.
  - intros q Hq. destruct (Hq path Hin) as [Hne Hbak].
    apply (update_json_file_inv _ _ _ _ _ _ H); assumption.
  - intros q Hq. exact (update_json_file_keeps_files _ _ _ _ _ _ q H Hq).
Qed.

Lemma runs_within_update_vscode (paths : platform_paths) (name : string)
  (cfg : dict) :
  runs_within (omap id [vscode_workspace paths; vscode_user_settings paths])
    (update_vscode paths name cfg).
Proof.
  unfold update_vscode.
  apply runs_within_bind.
  - destruct (vscode_workspace paths) as [workspace|];
      [|apply runs_within_ret].
    apply runs_within_try_except; [|intros e; apply runs_within_ret].
    apply runs_within_update_json_file. simpl. left. reflexivity.
  - intros [|]; [apply runs_within_ret|].
    destruct (vscode_user_settings paths) as [user_settings|];
      [|apply runs_within_ret].
    apply runs_within_update_json_file.
    destruct (vscode_workspace paths); simpl; auto.
Qed.

Lemma runs_within_update_environment (env : string) (paths : platform_paths)
  (name : string) (cfg : dict) :
  runs_within (environment_targets paths env)
    (update_environment env paths name cfg).
Proof.
  unfold update_environment, environment_targets, claude_target_path.
  apply runs_within_bind; [apply runs_within_print|]. intros _.
  apply runs_within_bind.
  - apply runs_within_try_except; [|intros e; apply runs_within_ret].
    destruct (String.eqb env "VS Code").
    { apply runs_within_bind; [apply runs_within_update_vscode|].
      intros b. apply runs_within_ret. }
    destruct (String.eqb env "Claude Desktop").
    { destruct (claude_desktop paths); [|apply runs_within_ret].
      apply runs_within_bind; [|intros b; apply runs_within_ret].
      apply runs_within_update_json_file. left. reflexivity. }
    destruct (String.eqb env "Claude Code").
    { destruct (claude_code paths); [|apply runs_within_ret].
      apply runs_within_bind; [|intros b; apply runs_within_ret].
      apply runs_within_update_json_file. left. reflexivity. }
    destruct (String.eqb env "Cursor"); [|apply runs_within_ret].
    destruct (cursor paths); [|apply runs_within_ret].
    apply runs_within_bind; [|intros b; apply runs_within_ret].
    apply runs_within_update_json_file. left. reflexivity.
  - intros [[|] error].
    + apply runs_within_bind; [apply runs_within_print|].
      intros _. apply runs_within_ret.
    + apply runs_within_bind; [apply runs_within_print|].
      intros _. apply runs_within_ret.
Qed.

Lemma environment_targets_incl (paths : platform_paths) (env : string) :
  incl (environment_targets paths env) (config_targets paths).
Proof.
  unfold environment_targets, claude_target_path, config_targets.
  destruct (vscode_user_settings paths), (vscode_workspace paths),
    (claude_desktop paths), (claude_code paths), (cursor paths).
  all: destruct (String.eqb env "VS Code");
    [|destruct (String.eqb env "Claude Desktop");
      [|destruct (String.eqb env "Claude Code");
        [|destruct (String.eqb env "Cursor")]]].
  all: intros p Hp; simpl in *.
  all: repeat match goal with
         | H : _ \/ _ |- _ => destruct H
         | H : False |- _ => destruct H
         end.
  all: subst; auto 10.
Qed.

(** X13. Whatever a call of [update_environment] does, the only files it
    can change are those of that environment -- the workspace and user
    settings for VS Code, the one configuration file for the others -- and
    their .json.bak siblings, and it removes no file. *)
Theorem update_environment_is_contained (env : string)
  (paths : platform_paths) (name : string) (cfg : dict) (w w' : World)
  (r : res bool) :
  update_environment env paths name cfg w = (w', r) ->
  (forall q, outside_targets (environment_targets paths env) q ->
     fs w' !! q = fs w !! q) /\
  (forall q, is_Some (fs w !! q) -> is_Some (fs w' !! q)).
Proof.
  intros Hrun.
  exact (runs_within_update_environment env paths name cfg _ _ _ Hrun).
Qed.

Lemma runs_within_get_binary_config (targets : list Path) (mode : string)
  (project_root : Path) :
  runs_within targets (get_binary_config mode project_root).
Proof.
  unfold get_binary_config.
  destruct (String.eqb mode "docker"); [apply runs_within_ret|].
  apply runs_within_bind.
  - intros w w' r [= <- <-]. apply files_kept_same_fs. reflexivity.
  - intros [|]; simpl; [apply runs_within_ret|].
    apply runs_within_bind; [apply runs_within_print|]. intros _.
    apply runs_within_bind; [apply runs_within_print|]. intros _.
    apply runs_within_raise.
Qed.

Lemma runs_within_main_server (project_root : Path) (paths : platform_paths)
  (environments : list string) (server_config_data : ServerData) :
  runs_within (config_targets paths)
    (main_server project_root paths environments server_config_data).
Proof.
  unfold main_server, main_server_config.
  apply runs_within_bind; [apply runs_within_print|]. intros _.
  apply runs_within_bind.
  - apply runs_within_bind; [|intros bc; apply runs_within_ret].
    apply runs_within_try_except; [apply runs_within_get_binary_config|].
    intros e. apply runs_within_bind; [apply runs_within_print|].
    intros _. apply runs_within_raise.
  - intros server_config. apply runs_within_for_each. intros env.
    apply runs_within_bind; [|intros b; apply runs_within_ret].
    apply (runs_within_incl _ _ _ (environment_targets_incl paths env)).
    apply runs_within_update_environment.
Qed.

(** X14. The server loop of [main] writes configuration files only: a file
    that is neither one of the five targets nor the .json.bak sibling of one
    has the same contents after the loop as before, however many servers and
    environments are processed and whatever fails; and no file is removed. *)
Theorem main_touches_configuration_files_only (project_root : Path)
  (paths : platform_paths) (environments : list string)
  (servers : list ServerData) (w w' : World) (r : res unit) :
  main_configure_servers project_root paths environments servers w = (w', r) ->
  (forall q, outside_targets (config_targets paths) q ->
     fs w' !! q = fs w !! q) /\
  (forall q, is_Some (fs w !! q) -> is_Some (fs w' !! q)).
Proof.
  revert w w' r. change (runs_within (config_targets paths)
    (main_configure_servers project_root paths environments servers)).
  unfold main_configure_servers.
  apply runs_within_bind; [apply runs_within_print|]. intros _.
  apply runs_within_for_each. intros server_config_data.
  apply runs_within_main_server.
Qed.

(** ** Updates that raise *)

(** X15. An exception raised while the file of an environment is updated
    does not leave [update_environment]: in the world the update left, the
    cross line is printed with the text of the exception as the cause, and
    the call returns [False]. *)
Theorem raised_update_is_reported (env : string) (paths : platform_paths)
  (name : string) (cfg : dict) (w w1 : World) (e : exn) :
  let heading := fst (print (newline ++ "Configuring " ++ env ++ "...") w) in
  (exists path,
     claude_target_path paths env = Some path /\
     apply_adapter (claude_target_kind env) path name cfg heading
     = (w1, Raise e))
  \/ (env = "VS Code" /\ update_vscode paths name cfg heading = (w1, Raise e)) ->
  update_environment env paths name cfg w
  = (fst (print ("  ✗ Error configuring " ++ env
                   ++ (if String.eqb (str_exn e) EmptyString then EmptyString
                       else ": " ++ str_exn e)) w1),
     Ok false).
Proof.
  intros heading [(path & Hpath & Hrun)|[-> Hrun]]; subst heading.
  - rewrite (update_environment_claude env paths path name cfg w Hpath), Hrun.
    assert (He : is_Exception e = true).
    { unfold claude_target_kind, apply_adapter in Hrun.
      destruct (String.eqb env "Claude Code");
        exact (update_claude_config_raises_Exception _ _ _ _ _ _ _ Hrun). }
    rewrite He. reflexivity.
  - rewrite update_environment_vscode, Hrun.
    rewrite (update_vscode_raises_Exception _ _ _ _ _ _ Hrun). reflexivity.
Qed.

(** X16. Without the read-only answer nothing of it reaches the entry: for
    a record with [readonly] false, in either mode, the entry that [main]
    builds has no GITLAB_READ_ONLY in its [env] and no GITLAB_READ_ONLY
    among its [args]. *)
Theorem no_read_only_without_flag (project_root : Path)
  (server_config_data : ServerData) (w w' : World) (entry : dict) :
  sd_readonly server_config_data = false ->
  main_server_config project_root server_config_data w = (w', Ok entry) ->
  dict_get "GITLAB_READ_ONLY" (entry_env entry) = None /\
  ~ In (JStr "GITLAB_READ_ONLY") (entry_args entry).
Proof.
  intros Hro H. unfold main_server_config, try_except, bind in H.
  assert (Hentry : exists bc,
             entry = create_server_config bc server_config_data /\
             bc_env bc = [] /\
             ~ In (JStr "GITLAB_READ_ONLY") (bc_args bc)).
  { destruct (String.eqb_spec (sd_mode server_config_data) "docker")
      as [Hdocker|Hlocal].
    - rewrite Hdocker, get_binary_config_docker in H.
      unfold main_readonly in H. rewrite Hro in H.
      injection H as _ <-. eexists. split; [reflexivity|].
      split; [reflexivity|]. simpl. intros Hin.
      repeat (destruct Hin as [Hin|Hin]; [discriminate Hin|]). exact Hin.
    - destruct (fs w !! (project_root // "bin" // "gitlab-mcp-server"))
        as [content|] eqn:Hfs.
      + rewrite (get_binary_config_found _ _ _ content) in H by assumption.
        unfold main_readonly in H. rewrite Hro in H.
        injection H as _ <-. eexists. split; [reflexivity|].
        split; [reflexivity|]. simpl. intros [Hin|[]]. discriminate Hin.
      + rewrite get_binary_config_missing in H by assumption.
        discriminate H. }
  destruct Hentry as (bc & -> & Henv & Hargs). split.
  - unfold create_server_config, entry_env. simpl. rewrite Hro, Henv. simpl.
    destruct (negb _); rewrite ?dict_get_set; reflexivity.
  - exact Hargs.
Qed.

(** ** What is printed does not depend on the entry *)

(** Case analysis on every test in the goal, innermost test first. *)
Ltac goal_cases :=
  repeat (simpl;
          match goal with
          | |- context [match ?x with _ => _ end] =>
              lazymatch x with
              | context [match _ with _ => _ end] => fail
              | _ => destruct x eqn:?
              end
          end);
  simpl.

Lemma adapter_update_outcome (kind : adapter_kind) (name : string)
  (cfg1 cfg2 : dict) (data : json) :
  outcome_of (adapter_update kind name cfg1 data)
  = outcome_of (adapter_update kind name cfg2 data).
Proof.
  destruct kind; unfold adapter_update, update_vscode_workspace_update,
    update_vscode_user_update, update_claude_config_update, res_bind,
    py_contains, py_getitem, py_setitem, written_back, dict_has.
  all: goal_cases; try reflexivity; try congruence.
Qed.

Lemma read_existing_same (flt : io_faults) (path : Path) (desc : string)
  (w1 w2 w1' w2' : World) (r1 r2 : res json) :
  same_screen w1 w2 -> fs w1 !! path = fs w2 !! path ->
  read_existing flt path desc w1 = (w1', r1) ->
  read_existing flt path desc w2 = (w2', r2) ->
  r1 = r2 /\ same_screen w1' w2' /\ fs w1' = fs w1 /\ fs w2' = fs w2.
Proof.
  intros [Hout Hor] Hfs H1 H2. io_cases H1; io_cases H2.
  all: unfold same_screen; simpl; repeat split; congruence.
Qed.

Lemma create_backup_same (flt : io_faults) (path : Path)
  (w1 w2 w1' w2' : World) (r1 r2 : res unit) :
  same_screen w1 w2 -> fs w1 !! path = fs w2 !! path ->
  create_backup flt path w1 = (w1', r1) ->
  create_backup flt path w2 = (w2', r2) ->
  r1 = r2 /\ same_screen w1' w2' /\
  (forall q, fs w1 !! q = fs w2 !! q -> fs w1' !! q = fs w2' !! q).
Proof.
  intros [Hout Hor] Hfs H1 H2. io_cases H1; io_cases H2.
  all: unfold same_screen; simpl; repeat split; try congruence.
  all: intros q Hq; simplify_eq.
  all: match goal with
       | |- <[?a := _]> _ !! _ = _ =>
           destruct (decide (a = q)) as [->|?];
           [rewrite !lookup_insert_eq; congruence
           |rewrite !lookup_insert_ne by assumption; exact Hq]
       end.
Qed.

Lemma mkdir_parent_same (fault : option string) (path : Path)
  (w1 w2 w1' w2' : World) (r1 r2 : res unit) :
  fs w1 !! path = fs w2 !! path ->
  mkdir_parent fault path w1 = (w1', r1) ->
  mkdir_parent fault path w2 = (w2', r2) ->
  r1 = r2 /\ w1' = w1 /\ w2' = w2.
Proof.
  intros Hfs H1 H2. io_cases H1; io_cases H2.
  all: repeat split; congruence.
Qed.

Lemma write_updated_same (flt : io_faults) (path : Path) (data1 data2 : json)
  (desc : string) (w1 w2 w1' w2' : World) (r1 r2 : res bool) :
  same_screen w1 w2 ->
  (forall bp, with_suffix path ".json.bak" = Ok bp ->
     fs w1 !! bp = fs w2 !! bp) ->
  write_updated flt path data1 desc w1 = (w1', r1) ->
  write_updated flt path data2 desc w2 = (w2', r2) ->
  r1 = r2 /\ same_screen w1' w2' /\
  (forall q, q <> path -> fs w1 !! q = fs w2 !! q ->
     fs w1' !! q = fs w2' !! q).
Proof.
  intros [Hout Hor] Hbak H1 H2.
  unfold_io_in H1. unfold_io_in H2. simpl in H1, H2.
  destruct (with_suffix path ".json.bak") as [bp|e] eqn:Hbp;
    simpl in H1, H2.
  - pose proof (with_suffix_bak_differs _ _ Hbp) as Hne.
    specialize (Hbak bp eq_refl).
    destruct (fs w1 !! bp) as [text|] eqn:Hb1; symmetry in Hbak.
    all: destruct (write_fault flt) as [|msg|n msg]; simpl in H1, H2.
    all: repeat (first [rewrite lookup_insert_ne in H1 by congruence
                       |rewrite lookup_insert_ne in H2 by congruence
                       |rewrite Hb1 in H1
                       |rewrite Hbak in H2];
                 simpl in H1, H2).
    all: destruct (restore_fault flt); simpl in H1, H2.
    all: injection H1 as <- <-; injection H2 as <- <-.
    all: unfold same_screen; simpl; repeat split; try congruence.
    all: intros q Hq Hsame; rewrite ?lookup_insert_ne by congruence;
      exact Hsame.
  - destruct (write_fault flt) as [|msg|n msg]; simpl in H1, H2;
      injection H1 as <- <-; injection H2 as <- <-;
      unfold same_screen; simpl; repeat split; try congruence.
    all: intros q Hq Hsame; rewrite ?lookup_insert_ne by congruence;
      exact Hsame.
Qed.

Lemma update_json_file_same (path : Path) (f1 f2 : json -> res json)
  (desc : string) (w1 w2 w1' w2' : World) (r1 r2 : res bool) :
  (forall data, outcome_of (f1 data) = outcome_of (f2 data)) ->
  same_screen w1 w2 ->
  fs w1 !! path = fs w2 !! path ->
  (forall bp, with_suffix path ".json.bak" = Ok bp ->
     fs w1 !! bp = fs w2 !! bp) ->
  update_json_file path f1 desc w1 = (w1', r1) ->
  update_json_file path f2 desc w2 = (w2', r2) ->
  r1 = r2 /\ same_screen w1' w2' /\
  (forall q, q <> path -> fs w1 !! q = fs w2 !! q ->
     fs w1' !! q = fs w2' !! q).
Proof.
  intros Hf [Hout Hor] Hpath Hbak H1 H2.
  rewrite update_json_file_run in H1, H2. simpl in H1, H2.
  assert (Hflt : upcoming_faults w2 = upcoming_faults w1)
    by (unfold upcoming_faults; rewrite Hor; reflexivity).
  rewrite Hflt in H2. clear Hflt.
  set (flt := upcoming_faults w1) in *.
  assert (Hscreen0 : same_screen (begin_call w1) (begin_call w2))
    by (unfold same_screen, begin_call; simpl; rewrite Hout, Hor; auto).
  destruct (read_existing flt path desc (begin_call w1)) as [u1 a1] eqn:E1.
  destruct (read_existing flt path desc (begin_call w2)) as [u2 a2] eqn:E2.
  destruct (read_existing_same _ _ _ _ _ _ _ _ _ Hscreen0 Hpath E1 E2)
    as (-> & Hscreen1 & Hfs1 & Hfs2).
  destruct a2 as [data|e].
  2:{ injection H1 as <- <-. injection H2 as <- <-.
      split; [reflexivity|]. split; [exact Hscreen1|].
      intros q _ Hq. rewrite Hfs1, Hfs2. exact Hq. }
  assert (Hpath1 : fs u1 !! path = fs u2 !! path)
    by (rewrite Hfs1, Hfs2; exact Hpath).
  destruct (create_backup flt path u1) as [v1 b1] eqn:B1.
  destruct (create_backup flt path u2) as [v2 b2] eqn:B2.
  destruct (create_backup_same _ _ _ _ _ _ _ _ Hscreen1 Hpath1 B1 B2)
    as (-> & Hscreen2 & Hkeep).
  assert (Hstep : forall q, fs w1 !! q = fs w2 !! q -> fs v1 !! q = fs v2 !! q).
  { intros q Hq. apply Hkeep. rewrite Hfs1, Hfs2. exact Hq. }
  destruct b2 as [[]|e].
  2:{ injection H1 as <- <-. injection H2 as <- <-.
      split; [reflexivity|]. split; [exact Hscreen2|].
      intros q _ Hq. apply Hstep, Hq. }
  specialize (Hf data).
  destruct (f1 data) as [d1|e1], (f2 data) as [d2|e2]; try discriminate Hf.
  2:{ injection Hf as ->. injection H1 as <- <-. injection H2 as <- <-.
      split; [reflexivity|]. split; [exact Hscreen2|].
      intros q _ Hq. apply Hstep, Hq. }
  destruct (mkdir_parent (mkdir_fault flt) path v1) as [x1 m1] eqn:M1.
  destruct (mkdir_parent (mkdir_fault flt) path v2) as [x2 m2] eqn:M2.
  destruct (mkdir_parent_same _ _ _ _ _ _ _ _ (Hstep path Hpath) M1 M2)
    as (-> & -> & ->).
  destruct m2 as [[]|e].
  2:{ injection H1 as <- <-. injection H2 as <- <-.
      split; [reflexivity|]. split; [exact Hscreen2|].
      intros q _ Hq. apply Hstep, Hq. }
  destruct (write_updated_same _ _ _ _ _ _ _ _ _ _ _ Hscreen2
              (fun bp Hbp => Hstep bp (Hbak bp Hbp)) H1 H2)
    as (Hr & Hscreen3 & Hkeep3).
  split; [exact Hr|]. split; [exact Hscreen3|].
  intros q Hne Hq. apply Hkeep3; [exact Hne|]. apply Hstep, Hq.
Qed.

Lemma update_vscode_same (paths : platform_paths) (name : string)
  (cfg1 cfg2 : dict) (w w1' w2' : World) (r1 r2 : res bool) :
  (forall workspace user_settings,
     vscode_workspace paths = Some workspace ->
     vscode_user_settings paths = Some user_settings ->
     user_settings <> workspace /\
     forall bp, with_suffix user_settings ".json.bak" = Ok bp ->
                bp <> workspace) ->
  update_vscode paths name cfg1 w = (w1', r1) ->
  update_vscode paths name cfg2 w = (w2', r2) ->
  r1 = r2 /\ same_screen w1' w2'.
Proof.
  intros Hdistinct H1 H2.
  assert (Hscreen : same_screen w w) by (split; reflexivity).
  destruct (vscode_user_settings paths) as [user_settings|] eqn:Hus;
    destruct (vscode_workspace paths) as [workspace|] eqn:Hws.
  - destruct (update_vscode_workspace workspace name cfg1 w)
      as [u1 a1] eqn:E1.
    destruct (update_vscode_workspace workspace name cfg2 w)
      as [u2 a2] eqn:E2.
    rewrite (update_vscode_after_workspace paths workspace user_settings
               name cfg1 w u1 a1 Hws Hus E1) in H1.
    rewrite (update_vscode_after_workspace paths workspace user_settings
               name cfg2 w u2 a2 Hws Hus E2) in H2.
    destruct (update_json_file_same workspace _ _ _ w w u1 u2 a1 a2
                (adapter_update_outcome WorkspaceNested name cfg1 cfg2)
                Hscreen eq_refl (fun _ _ => eq_refl) E1 E2)
      as (-> & Hscreen1 & Hkeep).
    destruct (Hdistinct workspace user_settings eq_refl eq_refl)
      as [Hne Hbakne].
    destruct a2 as [[|]|e].
    + injection H1 as <- <-. injection H2 as <- <-. auto.
    + destruct (update_json_file_same user_settings _ _ _ u1 u2 w1' w2' r1 r2
                  (adapter_update_outcome UserNested name cfg1 cfg2)
                  Hscreen1 (Hkeep _ Hne eq_refl)
                  (fun bp Hbp => Hkeep bp (Hbakne bp Hbp) eq_refl) H1 H2)
        as (Hr & Hs & _).
      auto.
    + destruct (update_json_file_same user_settings _ _ _ u1 u2 w1' w2' r1 r2
                  (adapter_update_outcome UserNested name cfg1 cfg2)
                  Hscreen1 (Hkeep _ Hne eq_refl)
                  (fun bp Hbp => Hkeep bp (Hbakne bp Hbp) eq_refl) H1 H2)
        as (Hr & Hs & _).
      auto.
  - unfold update_vscode, bind, ret in H1, H2. rewrite Hws, Hus in H1, H2.
    destruct (update_json_file_same user_settings _ _ _ w w w1' w2' r1 r2
                (adapter_update_outcome UserNested name cfg1 cfg2)
                Hscreen eq_refl (fun _ _ => eq_refl) H1 H2)
      as (Hr & Hs & _).
    auto.
  - unfold update_vscode, bind, try_except, ret in H1, H2.
    rewrite Hws, Hus in H1, H2.
    destruct (update_vscode_workspace workspace name cfg1 w)
      as [u1 a1] eqn:E1.
    destruct (update_vscode_workspace workspace name cfg2 w)
      as [u2 a2] eqn:E2.
    destruct (update_json_file_same workspace _ _ _ w w u1 u2 a1 a2
                (adapter_update_outcome WorkspaceNested name cfg1 cfg2)
                Hscreen eq_refl (fun _ _ => eq_refl) E1 E2)
      as (-> & Hscreen1 & _).
    destruct a2 as [[|]|e]; try destruct (is_Exception e);
      injection H1 as <- <-; injection H2 as <- <-; auto.
  - unfold update_vscode, bind, ret in H1, H2. rewrite Hws, Hus in H1, H2.
    injection H1 as <- <-. injection H2 as <- <-. auto.
Qed.

Lemma update_environment_without_target (env : string)
  (paths : platform_paths) (name : string) (cfg1 cfg2 : dict) (w : World) :
  env <> "VS Code" -> claude_target_path paths env = None ->
  update_environment env paths name cfg1 w
  = update_environment env paths name cfg2 w.
Proof.
  unfold claude_target_path, update_environment. intros Hvs Hnone.
  destruct (String.eqb_spec env "VS Code"); [contradiction|].
  destruct (String.eqb env "Claude Desktop");
    [rewrite Hnone; reflexivity|].
  destruct (String.eqb env "Claude Code");
    [rewrite Hnone; reflexivity|].
  destruct (String.eqb env "Cursor");
    [rewrite Hnone; reflexivity|reflexivity].
Qed.

(** X17. What [update_environment] prints and returns does not depend on
    the entry: run from the same world with two entries (two tokens, say),
    it returns the same value and leaves the same lines on the terminal.
    For VS Code this holds when the user-settings file and its backup are
    not the workspace file, as with the paths of [get_platform_paths].  So
    no part of the entry -- the token in particular -- is ever echoed. *)
Theorem printed_output_ignores_entry (env : string) (paths : platform_paths)
  (name : string) (cfg1 cfg2 : dict) (w : World) :
  (forall workspace user_settings,
     vscode_workspace paths = Some workspace ->
     vscode_user_settings paths = Some user_settings ->
     user_settings <> workspace /\
     forall bp, with_suffix user_settings ".json.bak" = Ok bp ->
                bp <> workspace) ->
  snd (update_environment env paths name cfg1 w)
  = snd (update_environment env paths name cfg2 w) /\
  out (fst (update_environment env paths name cfg1 w))
  = out (fst (update_environment env paths name cfg2 w)).
Proof.
  intros Hdistinct.
  destruct (String.eqb_spec env "VS Code") as [->|Hvs].
  - rewrite !update_environment_vscode.
    set (w0 := fst (print _ w)).
    destruct (update_vscode paths name cfg1 w0) as [u1 a1] eqn:E1.
    destruct (update_vscode paths name cfg2 w0) as [u2 a2] eqn:E2.
    destruct (update_vscode_same paths name cfg1 cfg2 w0 u1 u2 a1 a2
                Hdistinct E1 E2) as (-> & Hout & _).
    destruct a2 as [[|]|e]; try destruct (is_Exception e); simpl;
      rewrite ?Hout; auto.
  - destruct (claude_target_path paths env) as [path|] eqn:Hpath.
    + rewrite !(update_environment_claude env paths path) by exact Hpath.
      set (w0 := fst (print _ w)).
      rewrite !apply_adapter_run.
      destruct (update_json_file path
                  (adapter_update (claude_target_kind env) name cfg1)
                  (adapter_description (claude_target_kind env)) w0)
        as [u1 a1] eqn:E1.
      destruct (update_json_file path
                  (adapter_update (claude_target_kind env) name cfg2)
                  (adapter_description (claude_target_kind env)) w0)
        as [u2 a2] eqn:E2.
      destruct (update_json_file_same path _ _ _ w0 w0 u1 u2 a1 a2
                  (adapter_update_outcome (claude_target_kind env) name
                     cfg1 cfg2)
                  (conj eq_refl eq_refl) eq_refl (fun _ _ => eq_refl) E1 E2)
        as (-> & [Hout _] & _).
      destruct a2 as [[|]|e]; try destruct (is_Exception e); simpl;
        rewrite ?Hout; auto.
    + rewrite (update_environment_without_target env paths name cfg1 cfg2 w)
        by assumption.
      auto.
Qed.

(** ** The prompts *)

Lemma asks_ret {A : Type} (bound : nat) (a : A) (Q : A -> Prop) :
  Q a -> asks bound 0 (ask_ret a) Q.
Proof.
  intros HQ typed w _. simpl. repeat split.
  exists []. repeat split; [assumption | simpl; lia].
Qed.

Lemma asks_bind {A B : Type} (bound n k least : nat) (m : Prompt A)
  (f : A -> Prompt B) (Q : A -> Prop) (R : B -> Prop) :
  asks bound n m Q ->
  (forall a, Q a -> asks (bound - n) k (f a) R) ->
  least <= n + k ->
  asks bound least (ask_bind m f) R.
Proof.
  intros Hm Hf Hleast typed w Hb. unfold ask_bind.
  specialize (Hm typed w Hb).
  destruct (m typed w) as [[rest w1] r].
  destruct Hm as (Hfs & Hor & used & -> & Hr).
  rewrite length_app in Hb.
  destruct r as [a| |].
  - destruct Hr as [HQ Hn].
    assert (Hb' : length rest < bound - n) by lia.
    specialize (Hf a HQ rest w1 Hb').
    destruct (f a rest w1) as [[rest' w2] r'].
    destruct Hf as (Hfs' & Hor' & used' & -> & Hr').
    split; [congruence|]. split; [congruence|].
    exists (used ++ used'). split; [by rewrite app_assoc|].
    destruct r' as [b| |]; [|assumption|assumption].
    destruct Hr' as [HR Hk]. split; [assumption|].
    rewrite length_app. lia.
  - repeat split; try assumption. exists used. split; [reflexivity|assumption].
  - contradiction.
Qed.

Lemma asks_weaken {A : Type} (bound bound' least least' : nat)
  (question : Prompt A) (Q R : A -> Prop) :
  asks bound least question Q ->
  bound' <= bound -> least' <= least -> (forall a, Q a -> R a) ->
  asks bound' least' question R.
Proof.
  intros H Hb Hl HQR typed w Hlen.
  specialize (H typed w ltac:(lia)).
  destruct (question typed w) as [[rest w'] r].
  destruct H as (Hfs & Hor & used & Heq & Hr).
  repeat split; try assumption. exists used. split; [assumption|].
  destruct r; try assumption.
  destruct Hr. split; [auto | lia].
Qed.

Lemma asks_input (bound : nat) (prompt : string) :
  asks bound 1 (input prompt) (fun _ => True).
Proof.
  intros [|line rest] w _; simpl; repeat split.
  - exists []. split; reflexivity.
  - exists [line]. repeat split. simpl. lia.
Qed.

Lemma asks_say (bound : nat) (line : string) :
  asks bound 0 (say line) (fun _ => True).
Proof.
  intros typed w _. simpl. repeat split.
  exists []. repeat split. simpl. lia.
Qed.

Lemma asks_until {A : Type} (bound : nat) (prompt : string)
  (body : string -> World -> World * option A) (Q : A -> Prop) :
  (forall line w,
     fs (fst (body line w)) = fs w /\
     oracle (fst (body line w)) = oracle w /\
     forall a, snd (body line w) = Some a -> Q a) ->
  asks bound 1 (ask_until prompt body) Q.
Proof.
  intros Hbody typed. induction typed as [|line typed IH]; intros w Hb; simpl.
  - repeat split. exists []. split; reflexivity.
  - specialize (Hbody line w).
    destruct (body line w) as [w1 [a|]]; simpl in Hbody;
      destruct Hbody as (Hfs & Hor & HQ).
    + repeat split; try assumption.
      exists [line]. repeat split; [auto | simpl; lia].
    + simpl in Hb. specialize (IH w1 ltac:(lia)).
      destruct (ask_until prompt body typed w1) as [[rest w2] r].
      destruct IH as (Hfs' & Hor' & used & -> & Hr).
      split; [congruence|]. split; [congruence|].
      exists (line :: used). split; [reflexivity|].
      destruct r; try assumption.
      destruct Hr. split; [assumption | simpl; lia].
Qed.

Ltac ask_body :=
  split; [reflexivity|]; split; [reflexivity|];
  let a := fresh "a" in
  let Ha := fresh "Ha" in
  intros a Ha; try discriminate Ha; try (injection Ha as <-).

Lemma asks_ask_mode (bound : nat) :
  asks bound 1 ask_mode (fun mode => mode = "local" \/ mode = "docker").
Proof.
  apply asks_until. intros line w. cbn beta zeta.
  destruct (String.eqb (strip line) EmptyString
            || String.eqb (strip line) "local"); simpl.
  { ask_body. by left. }
  destruct (String.eqb (strip line) "docker"); simpl.
  { ask_body. by right. }
  ask_body.
Qed.

Lemma asks_ask_token (bound : nat) (prompt : string) :
  asks bound 1 (ask_token prompt) (fun token => token <> EmptyString).
Proof.
  apply asks_until. intros line w. cbn beta zeta.
  destruct (String.eqb_spec (strip line) EmptyString) as [He|Hne]; simpl.
  - ask_body.
  - ask_body. assumption.
Qed.

Lemma asks_yes_or_no (bound : nat) (prompt : string) :
  asks bound 1
    (ask_until prompt
       (fun line w =>
          let choice := lower (strip line) in
          if String.eqb choice EmptyString || String.eqb choice "n"
          then (w, Some false)
          else if String.eqb choice "y" then (w, Some true)
          else (fst (print "Please enter 'y' or 'n'" w), None)))
    (fun _ => True).
Proof.
  apply asks_until. intros line w. cbn beta zeta.
  destruct (String.eqb (lower (strip line)) EmptyString
            || String.eqb (lower (strip line)) "n"); simpl.
  { ask_body. exact I. }
  destruct (String.eqb (lower (strip line)) "y"); simpl; ask_body. exact I.
Qed.

Lemma asks_ask_server_name (bound : nat) (servers : list ServerData) :
  asks bound 1 (ask_server_name servers)
    (fun name => name <> EmptyString /\ ~ In name (map sd_name servers)).
Proof.
  apply asks_until. intros line w. cbn beta zeta.
  destruct (String.eqb_spec (strip line) EmptyString) as [He|Hne]; simpl.
  { ask_body. }
  destruct (existsb _ servers) eqn:Hex; simpl.
  { ask_body. }
  ask_body. split; [assumption|].
  intros Hin. apply in_map_iff in Hin. destruct Hin as (s & Hs & Hin).
  assert (existsb (fun s => String.eqb (sd_name s) (strip line)) servers = true)
    as Htrue.
  { apply existsb_exists. exists s. split; [assumption|].
    rewrite Hs. apply String.eqb_refl. }
  congruence.
Qed.

Lemma prompt_user_gitlab_host_set (host_input : string) :
  prompt_user_gitlab_host host_input <> EmptyString.
Proof.
  unfold prompt_user_gitlab_host.
  destruct (String.eqb_spec host_input EmptyString); [discriminate|assumption].
Qed.

Lemma asks_prompt_user (bound : nat) :
  asks bound 4 prompt_user
    (fun config =>
       (uc_mode config = "local" \/ uc_mode config = "docker") /\
       uc_token config <> EmptyString /\
       uc_gitlab_host config <> EmptyString).
Proof.
  unfold prompt_user.
  eapply asks_bind; [apply asks_ask_mode | intros mode Hmode | ].
  { eapply asks_bind; [apply asks_input | intros host_input _ | ].
    { eapply asks_bind; [apply asks_ask_token | intros token Htoken | ].
      { eapply asks_bind; [apply asks_input | intros readonly_input _ | ].
        { apply asks_ret. simpl.
          split; [assumption|]. split; [assumption|].
          apply prompt_user_gitlab_host_set. }
        reflexivity. }
      reflexivity. }
    reflexivity. }
  simpl. lia.
Qed.

Ltac asks_by H :=
  eapply asks_weaken; [apply H | lia | first [reflexivity | lia] | auto].

Lemma asks_round_mode (bound : nat) (servers : list ServerData)
  (global_mode : string) :
  asks bound 0
    (if Nat.eqb (S (length servers)) 1 then ask_mode
     else ask_ret global_mode)
    (fun mode =>
       (servers = [] /\ (mode = "local" \/ mode = "docker")) \/
       (servers <> [] /\ mode = global_mode)).
Proof.
  destruct servers as [|s servers]; simpl.
  - eapply asks_weaken; [apply (asks_ask_mode bound) | lia | lia | ].
    intros mode Hmode. left. split; [reflexivity|assumption].
  - apply asks_ret. right. split; [discriminate|reflexivity].
Qed.

Lemma checked_servers_nil (mode : string) : checked_servers [] mode.
Proof.
  split; [apply NoDup_nil_2|]. split; [constructor|]. intros s [].
Qed.

Lemma checked_servers_snoc (servers : list ServerData) (global_mode : string)
  (config : ServerData) :
  checked_servers servers global_mode ->
  sd_name config <> EmptyString ->
  ~ In (sd_name config) (map sd_name servers) ->
  sd_token config <> EmptyString ->
  sd_gitlab_host config <> EmptyString ->
  (servers = [] /\ (sd_mode config = "local" \/ sd_mode config = "docker")) \/
  (servers <> [] /\ sd_mode config = global_mode) ->
  checked_servers (servers ++ [config]) (sd_mode config).
Proof.
  intros (Hnodup & Hall & Hmode) Hname Hnew Htoken Hhost Hcase.
  assert (Hm : (sd_mode config = "local" \/ sd_mode config = "docker") /\
               forall s, In s servers -> sd_mode s = sd_mode config).
  { destruct Hcase as [[-> Hm]|[Hne Hm]].
    - split; [assumption|]. intros s [].
    - destruct servers as [|s0 servers]; [congruence|].
      split.
      + rewrite Hm, <- (Hmode s0) by (by left).
        apply Forall_inv in Hall. apply Hall.
      + intros s Hs. rewrite Hm. by apply Hmode. }
  destruct Hm as [Hm Hsame].
  split; [|split].
  - rewrite map_app. apply NoDup_app. split; [assumption|]. split.
    + intros x Hx Hx'. apply list_elem_of_In in Hx.
      simpl in Hx'. apply list_elem_of_singleton in Hx'. subst x. by apply Hnew.
    + apply NoDup_singleton.
  - apply Forall_app. split; [assumption|].
    constructor; [|constructor]. repeat split; assumption.
  - intros s Hs. apply in_app_or in Hs. destruct Hs as [Hs|[<-|[]]];
      [by apply Hsame | reflexivity].
Qed.

Lemma asks_collect_servers_from (fuel : nat) :
  forall servers global_mode,
    checked_servers servers global_mode ->
    asks fuel 5
      (collect_servers_from fuel servers (length servers) global_mode)
      (fun result => result <> [] /\ exists mode, checked_servers result mode).
Proof.
  induction fuel as [|fuel IH]; intros servers global_mode Hinv.
  { intros typed w Hlen. lia. }
  cbn [collect_servers_from]. cbn zeta.
  eapply asks_bind; [apply asks_say | intros _ _ | ].
  { eapply asks_bind;
      [apply asks_ask_server_name | intros name [Hname Hnew] | ].
    { eapply asks_bind; [apply asks_round_mode | intros mode Hmode | ].
      { eapply asks_bind; [apply asks_input | intros host_input _ | ].
        { eapply asks_bind; [apply asks_ask_token | intros token Htoken | ].
          { eapply asks_bind; [apply asks_input | intros readonly_input _ | ].
            { eapply asks_bind; [apply asks_say | intros _ _ | ].
              { eapply asks_bind;
                  [apply asks_yes_or_no | intros more _ | ].
                { pose proof
                    (checked_servers_snoc servers global_mode
                       {| sd_name := name; sd_mode := mode;
                          sd_gitlab_host :=
                            prompt_user_gitlab_host (strip host_input);
                          sd_token := token;
                          sd_readonly :=
                            is_yes (lower (strip readonly_input)) |}
                       Hinv Hname Hnew Htoken
                       (prompt_user_gitlab_host_set _) Hmode) as Hnext.
                  simpl in Hnext.
                  destruct more.
                  2:{ apply asks_ret. split.
                      - destruct servers; discriminate.
                      - exists mode. exact Hnext. }
                  rewrite <- (last_length servers
                    {| sd_name := name; sd_mode := mode;
                       sd_gitlab_host :=
                         prompt_user_gitlab_host (strip host_input);
                       sd_token := token;
                       sd_readonly :=
                         is_yes (lower (strip readonly_input)) |}).
                  asks_by (IH _ _ Hnext). }
                reflexivity. }
              reflexivity. }
            reflexivity. }
          reflexivity. }
        reflexivity. }
      reflexivity. }
    reflexivity. }
  simpl. lia.
Qed.

Lemma asks_collect_servers (bound : nat) :
  asks bound 5 collect_servers
    (fun result => result <> [] /\ exists mode, checked_servers result mode).
Proof.
  intros typed w _. unfold collect_servers.
  apply (asks_collect_servers_from (S (length typed)) [] EmptyString
           (checked_servers_nil _) typed w).
  lia.
Qed.

Lemma asks_say_numbered (bound : nat) (environments : list string) :
  forall i, asks bound 0 (say_numbered i environments) (fun _ => True).
Proof.
  induction environments as [|env rest IH]; intros i; simpl.
  - by apply asks_ret.
  - eapply asks_bind; [apply asks_say | intros _ _; asks_by IH | lia].
Qed.

Lemma asks_select_environments (bound : nat) (parts : list string) :
  forall selected,
    (forall env, In env selected -> In env environments_offered) ->
    asks bound 0 (select_environments parts selected)
      (fun result => forall env, In env result -> In env environments_offered).
Proof.
  induction parts as [|part parts IH]; intros selected Hsel;
    cbn [select_environments]; cbn zeta.
  { by apply asks_ret. }
  destruct (String.eqb (strip part) EmptyString); [by apply IH|].
  destruct (int_of_str (strip part)) as [idx|].
  - destruct (Z.leb 1 idx && Z.leb idx _) eqn:Hrange; [|by apply IH].
    apply andb_true_iff in Hrange. destruct Hrange as [H1 H2].
    apply Z.leb_le in H1, H2. simpl in H2.
    apply IH. intros env Henv. apply in_app_or in Henv.
    destruct Henv as [Henv|[<-|[]]]; [by apply Hsel|].
    apply nth_In. simpl. lia.
  - destruct (find _ environments_offered) as [env|] eqn:Hfind.
    + apply IH. intros env' Henv. apply in_app_or in Henv.
      destruct Henv as [Henv|[<-|[]]]; [by apply Hsel|].
      apply find_some in Hfind. apply Hfind.
    + eapply asks_bind; [apply asks_say | intros _ _; asks_by (IH selected Hsel) | lia].
Qed.

Lemma asks_prompt_environments (bound : nat) :
  asks bound 1 prompt_environments
    (fun environments =>
       environments <> [] /\
       forall env, In env environments -> In env environments_offered).
Proof.
  unfold prompt_environments.
  eapply asks_bind; [apply asks_say | intros _ _ | ].
  { eapply asks_bind; [apply asks_say_numbered | intros _ _ | ].
    { eapply asks_bind; [apply asks_input | intros choice _ | ].
      { cbn zeta.
        destruct (String.eqb (strip choice) EmptyString
                  || String.eqb (lower (strip choice)) "all").
        { apply asks_ret. split; [discriminate|auto]. }
        eapply asks_bind;
          [apply (asks_select_environments _ _ []); intros env [] | | ].
        { intros selected Hsel. apply asks_ret.
          destruct selected as [|env selected].
          - split; [discriminate|auto].
          - split; [discriminate|exact Hsel]. }
        reflexivity. }
      reflexivity. }
    reflexivity. }
  simpl. lia.
Qed.

Lemma yes_or_no_loop (prompt : string) (skipped : list string) :
  forall w tail,
    Forall (fun line => yes_or_no line = None) skipped ->
    ask_until prompt
      (fun line w =>
         let choice := lower (strip line) in
         if String.eqb choice EmptyString || String.eqb choice "n"
         then (w, Some false)
         else if String.eqb choice "y" then (w, Some true)
         else (fst (print "Please enter 'y' or 'n'" w), None))
      (skipped ++ tail) w
    = ask_until prompt
        (fun line w =>
           let choice := lower (strip line) in
           if String.eqb choice EmptyString || String.eqb choice "n"
           then (w, Some false)
           else if String.eqb choice "y" then (w, Some true)
           else (fst (print "Please enter 'y' or 'n'" w), None))
        tail
        {| fs := fs w; out := out w ++ rejected_lines skipped;
           oracle := oracle w |}.
Proof.
  induction skipped as [|line skipped IH]; intros w tail Hall.
  - simpl. rewrite app_nil_r. by destruct w.
  - apply Forall_cons in Hall. destruct Hall as [Hline Hall].
    unfold yes_or_no in Hline. cbn zeta in Hline.
    rewrite <- app_comm_cons. cbn [ask_until]. cbn zeta.
    destruct (String.eqb (lower (strip line)) EmptyString
              || String.eqb (lower (strip line)) "n"); [discriminate|].
    destruct (String.eqb (lower (strip line)) "y"); [discriminate|].
    cbn [fst print]. rewrite IH by assumption.
    simpl. by rewrite <- app_assoc.
Qed.

(** X18. [prompt_multiple_servers] asks again on every line that is
    neither empty, "n" nor "y" once stripped and lowered, printing one
    message for each and nothing else; the first line that is one of them
    decides, and the lines after it are left unread.  When no line is, the
    question ends in [EOFError] with every line read. *)
Theorem prompt_multiple_servers_asks_again (skipped : list string)
  (w : World) :
  Forall (fun line => yes_or_no line = None) skipped ->
  (forall line rest answer,
     yes_or_no line = Some answer ->
     prompt_multiple_servers (skipped ++ line :: rest) w
     = (rest,
        {| fs := fs w; out := out w ++ rejected_lines skipped;
           oracle := oracle w |},
        Answered answer)) /\
  prompt_multiple_servers skipped w
  = ([],
     {| fs := fs w; out := out w ++ rejected_lines skipped;
        oracle := oracle w |},
     EOFError).
Proof.
  intros Hall. unfold prompt_multiple_servers. split.
  - intros line rest answer Hline.
    rewrite yes_or_no_loop by assumption.
    unfold yes_or_no in Hline. cbn zeta in Hline.
    cbn [ask_until]. cbn zeta.
    destruct (String.eqb (lower (strip line)) EmptyString
              || String.eqb (lower (strip line)) "n").
    { by injection Hline as <-. }
    destruct (String.eqb (lower (strip line)) "y"); [|discriminate].
    by injection Hline as <-.
  - rewrite <- (app_nil_r skipped) at 1.
    rewrite yes_or_no_loop by assumption. reflexivity.
Qed.

(** X19. Whatever is typed, [prompt_user] changes no file and ends with an
    answer or, once every line is read, in [EOFError].  An answer has
    mode "local" or "docker", a token and a host that are not empty, and
    has read at least four lines. *)
Theorem prompt_user_answer (typed rest : list string) (w w' : World)
  (r : asked UserConfig) :
  prompt_user typed w = (rest, w', r) ->
  fs w' = fs w /\
  r <> Unfinished /\
  (r = EOFError -> rest = []) /\
  forall config,
    r = Answered config ->
    (uc_mode config = "local" \/ uc_mode config = "docker") /\
    uc_token config <> EmptyString /\
    uc_gitlab_host config <> EmptyString /\
    length rest + 4 <= length typed.
Proof.
  intros Hrun.
  pose proof (asks_prompt_user (S (length typed)) typed w ltac:(lia)) as H.
  rewrite Hrun in H. destruct H as (Hfs & _ & used & -> & Hr).
  split; [assumption|].
  destruct r as [config| |].
  - split; [discriminate|]. split; [discriminate|].
    intros config' [= <-]. destruct Hr as ((Hmode & Htoken & Hhost) & Hused).
    repeat split; try assumption. rewrite length_app. lia.
  - split; [discriminate|]. split; [by intros _|]. discriminate.
  - contradiction.
Qed.

(** X20. Whatever is typed, [collect_servers] changes no file and never
    runs on without reading: it ends with an answer or, once every line is
    read, in [EOFError].  The servers it answers with are at least one,
    carry names that are not empty and differ from one another, tokens and
    hosts that are not empty, and all one mode, "local" or "docker". *)
Theorem collect_servers_answer (typed rest : list string) (w w' : World)
  (r : asked (list ServerData)) :
  collect_servers typed w = (rest, w', r) ->
  fs w' = fs w /\
  r <> Unfinished /\
  (r = EOFError -> rest = []) /\
  forall servers,
    r = Answered servers ->
    servers <> [] /\
    NoDup (map sd_name servers) /\
    Forall checked_server servers /\
    exists mode, forall s, In s servers -> sd_mode s = mode.
Proof.
  intros Hrun.
  pose proof (asks_collect_servers (S (length typed)) typed w ltac:(lia)) as H.
  rewrite Hrun in H. destruct H as (Hfs & _ & used & -> & Hr).
  split; [assumption|].
  destruct r as [servers| |].
  - split; [discriminate|]. split; [discriminate|].
    intros servers' [= <-].
    destruct Hr as ((Hne & mode & Hnodup & Hall & Hmode) & _).
    repeat split; try assumption. by exists mode.
  - split; [discriminate|]. split; [by intros _|]. discriminate.
  - contradiction.
Qed.

(** X21. Whatever is typed, [prompt_environments] changes no file; an
    answer is never the empty list and names only the four environments
    offered. *)
Theorem prompt_environments_answer (typed rest : list string) (w w' : World)
  (r : asked (list string)) :
  prompt_environments typed w = (rest, w', r) ->
  fs w' = fs w /\
  r <> Unfinished /\
  forall environments,
    r = Answered environments ->
    environments <> [] /\
    forall env, In env environments -> In env environments_offered.
Proof.
  intros Hrun.
  pose proof (asks_prompt_environments (S (length typed)) typed w ltac:(lia))
    as H.
  rewrite Hrun in H. destruct H as (Hfs & _ & used & -> & Hr).
  split; [assumption|].
  destruct r as [environments| |].
  - split; [discriminate|]. intros environments' [= <-]. apply Hr.
  - split; discriminate.
  - contradiction.
Qed.

Lemma select_unrecognised (parts : list string) :
  forall selected typed w,
    Forall unrecognised parts ->
    exists w',
      select_environments parts selected typed w
      = (typed, w', Answered selected) /\
      fs w' = fs w.
Proof.
  induction parts as [|part parts IH]; intros selected typed w Hall.
  { exists w. split; reflexivity. }
  apply Forall_cons in Hall. destruct Hall as [Hpart Hall].
  cbn [select_environments]. cbn zeta.
  destruct (String.eqb_spec (strip part) EmptyString) as [Hempty|Hfilled].
  { by apply IH. }
  destruct Hpart as [Hpart|[(idx & Hidx & Hrange)|[Hint Hname]]].
  - contradiction.
  - rewrite Hidx.
    replace (Z.leb 1 idx
             && Z.leb idx (Z.of_nat (length environments_offered)))
      with false.
    { by apply IH. }
    symmetry. apply andb_false_iff. simpl.
    destruct Hrange; [left; apply Z.leb_gt | right; apply Z.leb_gt]; lia.
  - rewrite Hint.
    destruct (find _ environments_offered) as [env|] eqn:Hfind.
    { apply find_some in Hfind. destruct Hfind as [Hin Heq].
      apply String.eqb_eq in Heq. by destruct (Hname env Hin). }
    unfold ask_bind, say. cbn [fst print].
    destruct (IH selected typed
                {| fs := fs w;
                   out := out w ++ [("Warning: Unknown environment '"
                                       ++ strip part ++ "', skipping")%string];
                   oracle := oracle w |} Hall) as (w' & -> & Hfs).
    exists w'. split; [reflexivity|exact Hfs].
Qed.

(** X22. A choice in which no part is recognised -- each is empty, a
    number outside 1..4, or a name that is not offered -- selects all four
    environments, as an empty choice does. *)
Theorem unrecognised_choice_selects_all (line : string) (rest : list string)
  (w : World) :
  Forall unrecognised (split_comma (strip line)) ->
  exists w',
    prompt_environments (line :: rest) w
    = (rest, w', Answered environments_offered) /\
    fs w' = fs w.
Proof.
  intros Hall. unfold prompt_environments.
  unfold ask_bind at 1. unfold say at 1. cbn [fst print].
  unfold ask_bind at 1. cbn [say_numbered environments_offered].
  unfold ask_bind, say, ask_ret, input. cbn [fst print]. cbn zeta.
  destruct (String.eqb (strip line) EmptyString
            || String.eqb (lower (strip line)) "all").
  { eexists. split; reflexivity. }
  match goal with
  | |- context [select_environments _ _ rest ?w0] =>
      destruct (select_unrecognised (split_comma (strip line)) [] rest w0 Hall)
        as (w' & Hsel & Hfs)
  end.
  unfold ask_bind, say, ask_ret in Hsel. rewrite Hsel.
  exists w'. split; [reflexivity|exact Hfs].
Qed.

Lemma path_parents_are_ancestors (cwd path : Path) :
  In path (path_parents cwd) ->
  exists below, below <> [] /\ cwd = path ++ below.
Proof.
  destruct cwd as [|anchor parts]; [intros []|].
  unfold path_parents. intros Hin.
  apply in_map_iff in Hin. destruct Hin as (k & <- & Hk).
  apply in_rev in Hk. apply in_seq in Hk.
  exists (skipn k parts). split.
  - intros Hnil. apply (f_equal length) in Hnil.
    rewrite length_skipn in Hnil. simpl in Hnil. lia.
  - simpl. by rewrite firstn_skipn.
Qed.

Lemma first_with_go_mod_finds (candidates : list Path) (cwd : Path)
  (w : World) :
  exists root,
    first_with_go_mod candidates cwd w = (w, Ok root) /\
    ((exists nearer farther,
        candidates = nearer ++ root :: farther /\
        (forall path, In path nearer -> fs w !! (path // "go.mod") = None) /\
        is_Some (fs w !! (root // "go.mod"))) \/
     (root = cwd /\
      forall path, In path candidates -> fs w !! (path // "go.mod") = None)).
Proof.
  induction candidates as [|path candidates IH]; simpl.
  { exists cwd. split; [reflexivity|]. right. split; [reflexivity|].
    intros path []. }
  unfold bind, path_exists.
  destruct (fs w !! (path // "go.mod")) as [content|] eqn:Hfs.
  - exists path. split; [reflexivity|]. left.
    exists [], candidates. split; [reflexivity|]. split; [intros p []|].
    rewrite Hfs. by eexists.
  - destruct IH as (root & -> & Hroot). exists root. split; [reflexivity|].
    destruct Hroot as [(nearer & farther & -> & Hnone & Hsome)|[-> Hnone]].
    + left. exists (path :: nearer), farther.
      split; [reflexivity|]. split; [|assumption].
      intros p [<-|Hp]; [assumption|by apply Hnone].
    + right. split; [reflexivity|].
      intros p [<-|Hp]; [assumption|by apply Hnone].
Qed.

Lemma get_project_root_returns (cwd : Path) (w : World) :
  exists root, get_project_root cwd w = (w, Ok root).
Proof.
  unfold get_project_root.
  destruct (first_with_go_mod_finds (cwd :: path_parents cwd) cwd w)
    as (root & Hrun & _).
  by exists root.
Qed.

(** X23. [get_project_root] changes nothing and always returns: the
    working directory or one of its ancestors.  What it returns is the
    nearest of them that holds a go.mod, and the working directory itself
    when none does. *)
Theorem get_project_root_finds_nearest (cwd : Path) (w : World) :
  exists root,
    get_project_root cwd w = (w, Ok root) /\
    (exists below, cwd = root ++ below) /\
    ((exists nearer farther,
        cwd :: path_parents cwd = nearer ++ root :: farther /\
        (forall path, In path nearer -> fs w !! (path // "go.mod") = None) /\
        is_Some (fs w !! (root // "go.mod"))) \/
     (root = cwd /\
      forall path,
        In path (cwd :: path_parents cwd) ->
        fs w !! (path // "go.mod") = None)).
Proof.
  unfold get_project_root.
  destruct (first_with_go_mod_finds (cwd :: path_parents cwd) cwd w)
    as (root & Hrun & Hroot).
  exists root. split; [assumption|]. split; [|assumption].
  destruct Hroot as [(nearer & farther & Heq & _)|[-> _]].
  - assert (Hin : In root (cwd :: path_parents cwd)).
    { rewrite Heq. apply in_or_app. right. by left. }
    destruct Hin as [<-|Hin].
    + exists []. by rewrite app_nil_r.
    + destruct (path_parents_are_ancestors _ _ Hin) as (below & _ & ->).
      by exists below.
  - exists []. by rewrite app_nil_r.
Qed.

(** ** The whole of [main] *)

Lemma first_with_go_mod_fs (candidates : list Path) (cwd : Path)
  (w w0 : World) :
  fs w0 = fs w ->
  first_with_go_mod candidates cwd w0
  = (w0, snd (first_with_go_mod candidates cwd w)).
Proof.
  intros Hfs. induction candidates as [|path candidates IH]; simpl.
  { reflexivity. }
  unfold bind, path_exists. rewrite Hfs.
  destruct (fs w !! (path // "go.mod")); [reflexivity|exact IH].
Qed.

Lemma main_asks_cases {A : Type} (question : Prompt A) (Q : A -> Prop)
  (least : nat) (typed : list string) (w : World) :
  asks (S (length typed)) least question Q ->
  (exists rest w' a,
     main_asks question typed w = (w', Ok (a, rest)) /\
     Q a /\ fs w' = fs w /\ oracle w' = oracle w /\
     length rest + least <= length typed) \/
  (exists w',
     main_asks question typed w = (w', Raise (SystemExit 1)) /\
     fs w' = fs w /\ oracle w' = oracle w /\
     List.last (out w') EmptyString = cancelled_line).
Proof.
  intros Hasks. specialize (Hasks typed w ltac:(lia)). unfold main_asks.
  destruct (question typed w) as [[rest w1] [a| |]];
    destruct Hasks as (Hfs & Hor & used & -> & Hr).
  - left. exists rest, w1, a. destruct Hr as [HQ Hused].
    repeat split; try assumption. rewrite length_app. lia.
  - right. eexists. split; [reflexivity|]. simpl.
    repeat split; try assumption. apply last_last.
  - contradiction.
Qed.

Lemma main_run (cwd : Path) (system : string)
  (home appdata userprofile : Path) (typed : list string) (w : World) :
  exists w' r,
    main cwd system home appdata userprofile typed w = (w', r) /\
    ((r = Raise (SystemExit 1) /\ fs w' = fs w /\
      List.last (out w') EmptyString = cancelled_line) \/
     (exists project_root servers environments w1 mode,
        get_project_root cwd w = (w, Ok project_root) /\
        servers <> [] /\ checked_servers servers mode /\
        environments <> [] /\
        (forall env, In env environments -> In env environments_offered) /\
        fs w1 = fs w /\ oracle w1 = oracle w /\
        main_configure_servers project_root
          (get_platform_paths system home appdata userprofile)
          environments servers w1
        = (w', r))).
Proof.
  destruct (get_project_root_returns cwd w) as [root Hroot].
  unfold main.
  unfold bind at 1. unfold print at 1. cbn beta iota.
  unfold bind at 1. unfold print at 1. cbn beta iota.
  unfold bind at 1.
  match goal with
  | |- context [get_project_root cwd ?w0] =>
      assert (Hroot0 : get_project_root cwd w0 = (w0, Ok root));
      [ unfold get_project_root in Hroot |- *;
        rewrite (first_with_go_mod_fs _ cwd w w0 eq_refl), Hroot; reflexivity
      | rewrite Hroot0; set (w1 := w0) ]
  end.
  assert (Hfs1 : fs w1 = fs w) by reflexivity.
  assert (Hor1 : oracle w1 = oracle w) by reflexivity.
  clearbody w1. clear Hroot0.
  cbn beta iota. unfold bind at 1.
  destruct (main_asks_cases prompt_multiple_servers _ _ typed w1
              (asks_yes_or_no _ _))
    as [(rest1 & w2 & multi & -> & _ & Hfs2 & Hor2 & _)
       |(w2 & -> & Hfs2 & _ & Hlast)];
    [|exists w2, (Raise (SystemExit 1)); split; [reflexivity|];
      left; split; [reflexivity|split; [congruence|assumption]]].
  cbn beta iota. cbn [fst snd]. unfold bind at 1.
  assert (exists w3,
            fs w3 = fs w /\ oracle w3 = oracle w /\
            ((exists servers rest2 mode,
                (if multi
                 then main_asks collect_servers rest1
                 else main_asks
                        (ask_bind prompt_user
                           (fun config => ask_ret [named "gitlab" config]))
                        rest1) w2
                = (w3, Ok (servers, rest2)) /\
                servers <> [] /\ checked_servers servers mode) \/
             ((if multi
               then main_asks collect_servers rest1
               else main_asks
                      (ask_bind prompt_user
                         (fun config => ask_ret [named "gitlab" config]))
                      rest1) w2
              = (w3, Raise (SystemExit 1)) /\
              List.last (out w3) EmptyString = cancelled_line)))
    as (w3 & Hfs3 & Hor3 & Hservers).
  { destruct multi.
    - destruct (main_asks_cases collect_servers _ _ rest1 w2
                  (asks_collect_servers _))
        as [(rest2 & w3 & servers & -> & (Hne & mode & Hchecked) & Hfs3
             & Hor3 & _)
           |(w3 & -> & Hfs3 & Hor3 & Hlast)].
      + exists w3. split; [congruence|]. split; [congruence|].
        left. exists servers, rest2, mode.
        split; [reflexivity|]. split; assumption.
      + exists w3. split; [congruence|]. split; [congruence|].
        right. by split.
    - assert (Hq : asks (S (length rest1)) 4
                     (ask_bind prompt_user
                        (fun config => ask_ret [named "gitlab" config]))
                     (fun servers =>
                        servers <> [] /\
                        exists mode, checked_servers servers mode)).
      { eapply asks_bind; [apply asks_prompt_user| |lia].
        intros config (Hmode & Htoken & Hhost). apply asks_ret.
        split; [discriminate|]. exists (uc_mode config).
        split; [apply NoDup_singleton|]. split.
        - constructor; [|constructor].
          repeat split; try assumption. discriminate.
        - intros s [<-|[]]. reflexivity. }
      destruct (main_asks_cases _ _ _ rest1 w2 Hq)
        as [(rest2 & w3 & servers & -> & (Hne & mode & Hchecked) & Hfs3
             & Hor3 & _)
           |(w3 & -> & Hfs3 & Hor3 & Hlast)].
      + exists w3. split; [congruence|]. split; [congruence|].
        left. exists servers, rest2, mode.
        split; [reflexivity|]. split; assumption.
      + exists w3. split; [congruence|]. split; [congruence|].
        right. by split. }
  destruct Hservers as [(servers & rest2 & mode & -> & Hne & Hchecked)
                       |[-> Hlast]];
    [|exists w3, (Raise (SystemExit 1)); split; [reflexivity|];
      left; split; [reflexivity|split; assumption]].
  cbn beta iota. cbn [fst snd]. unfold bind at 1.
  destruct (main_asks_cases prompt_environments _ _ rest2 w3
              (asks_prompt_environments _))
    as [(rest3 & w4 & environments & -> & (Henvs & Hoffered) & Hfs4 & Hor4 & _)
       |(w4 & -> & Hfs4 & _ & Hlast)].
  - cbn beta iota. cbn [fst snd].
    destruct (main_configure_servers root
                (get_platform_paths system home appdata userprofile)
                environments servers w4) as [w' r] eqn:Hloop.
    exists w', r. split; [reflexivity|].
    right. exists root, servers, environments, w4, mode.
    split; [exact Hroot|]. split; [exact Hne|]. split; [exact Hchecked|].
    split; [exact Henvs|]. split; [exact Hoffered|].
    split; [congruence|]. split; [congruence|]. exact Hloop.
  - exists w4, (Raise (SystemExit 1)). split; [reflexivity|].
    left. split; [reflexivity|]. split; [congruence|assumption].
Qed.

(** X24. [main], followed to the end of its server loop, has two ways to
    go.  Either a prompt meets the end of the input: [main] prints
    "Installation cancelled" last, exits with status 1 and has changed no
    file.  Or every prompt is answered, and what follows is the server loop
    alone, run from a state with the files and faults of the start, for the
    project root that [get_project_root] finds, on servers that are at
    least one, with names that are not empty and differ, tokens and hosts
    that are not empty and one mode, "local" or "docker", and on
    environments that are at least one and all among the four offered. *)
Theorem main_configures_checked_servers (cwd : Path) (system : string)
  (home appdata userprofile : Path) (typed : list string) (w w' : World)
  (r : res unit) :
  main cwd system home appdata userprofile typed w = (w', r) ->
  (r = Raise (SystemExit 1) /\ fs w' = fs w /\
   List.last (out w') EmptyString = cancelled_line) \/
  (exists project_root servers environments w1,
     get_project_root cwd w = (w, Ok project_root) /\
     servers <> [] /\
     NoDup (map sd_name servers) /\
     Forall checked_server servers /\
     (exists mode, forall s, In s servers -> sd_mode s = mode) /\
     environments <> [] /\
     (forall env, In env environments -> In env environments_offered) /\
     fs w1 = fs w /\ oracle w1 = oracle w /\
     main_configure_servers project_root
       (get_platform_paths system home appdata userprofile)
       environments servers w1
     = (w', r)).
Proof.
  intros Hrun.
  destruct (main_run cwd system home appdata userprofile typed w)
    as (w0 & r0 & Hmain
        & [(-> & Hfs & Hlast)
          |(root & servers & environments & w1 & mode & Hroot & Hne
            & (Hnodup & Hall & Hmode) & Henvs & Hoffered & Hfs & Hor
            & Hloop)]);
    rewrite Hmain in Hrun; injection Hrun as <- <-.
  - left. split; [reflexivity|]. split; assumption.
  - right. exists root, servers, environments, w1.
    split; [exact Hroot|]. split; [exact Hne|]. split; [exact Hnodup|].
    split; [exact Hall|]. split; [by exists mode|].
    split; [exact Henvs|]. split; [exact Hoffered|].
    split; [exact Hfs|]. split; [exact Hor|]. exact Hloop.
Qed.

(** X25. [main] needs six answers at least: on fewer typed lines it prints
    "Installation cancelled" last, exits with status 1, and has changed no
    file. *)
Theorem main_needs_six_answers (cwd : Path) (system : string)
  (home appdata userprofile : Path) (typed : list string) (w : World) :
  length typed < 6 ->
  exists w',
    main cwd system home appdata userprofile typed w
    = (w', Raise (SystemExit 1)) /\
    fs w' = fs w /\
    List.last (out w') EmptyString = cancelled_line.
Proof.
  intros Hlen. unfold main.
  unfold bind at 1. unfold print at 1. cbn beta iota.
  unfold bind at 1. unfold print at 1. cbn beta iota.
  unfold bind at 1.
  match goal with
  | |- context [get_project_root cwd ?w0] =>
      destruct (get_project_root_returns cwd w0) as [root ->];
      set (w1 := w0)
  end.
  assert (Hfs1 : fs w1 = fs w) by reflexivity. clearbody w1.
  cbn beta iota. unfold bind at 1.
  destruct (main_asks_cases prompt_multiple_servers _ _ typed w1
              (asks_yes_or_no _ _))
    as [(rest1 & w2 & multi & -> & _ & Hfs2 & _ & Hlen1)
       |(w2 & -> & Hfs2 & _ & Hlast)];
    [|exists w2; split; [reflexivity|split; [congruence|assumption]]].
  cbn beta iota. cbn [fst snd]. unfold bind at 1.
  assert (exists w3,
            fs w3 = fs w /\
            ((exists servers rest2,
                (if multi
                 then main_asks collect_servers rest1
                 else main_asks
                        (ask_bind prompt_user
                           (fun config => ask_ret [named "gitlab" config]))
                        rest1) w2
                = (w3, Ok (servers, rest2)) /\
                length rest2 + 4 <= length rest1) \/
             ((if multi
               then main_asks collect_servers rest1
               else main_asks
                      (ask_bind prompt_user
                         (fun config => ask_ret [named "gitlab" config]))
                      rest1) w2
              = (w3, Raise (SystemExit 1)) /\
              List.last (out w3) EmptyString = cancelled_line)))
    as (w3 & Hfs3 & Hservers).
  { destruct multi.
    - destruct (main_asks_cases collect_servers _ _ rest1 w2
                  (asks_collect_servers _))
        as [(rest2 & w3 & servers & -> & _ & Hfs3 & _ & Hlen2)
           |(w3 & -> & Hfs3 & _ & Hlast)].
      + exists w3. split; [congruence|]. left. exists servers, rest2.
        split; [reflexivity|lia].
      + exists w3. split; [congruence|]. right. by split.
    - assert (Hq : asks (S (length rest1)) 4
                     (ask_bind prompt_user
                        (fun config => ask_ret [named "gitlab" config]))
                     (fun _ => True)).
      { eapply asks_bind;
          [apply asks_prompt_user
          |intros config _; by apply asks_ret
          |lia]. }
      destruct (main_asks_cases _ _ _ rest1 w2 Hq)
        as [(rest2 & w3 & servers & -> & _ & Hfs3 & _ & Hlen2)
           |(w3 & -> & Hfs3 & _ & Hlast)].
      + exists w3. split; [congruence|]. left. exists servers, rest2.
        split; [reflexivity|lia].
      + exists w3. split; [congruence|]. right. by split. }
  destruct Hservers as [(servers & rest2 & -> & Hlen2)|[-> Hlast]];
    [|exists w3; split; [reflexivity|split; assumption]].
  cbn beta iota. cbn [fst snd]. unfold bind at 1.
  destruct (main_asks_cases prompt_environments _ _ rest2 w3
              (asks_prompt_environments _))
    as [(rest3 & w4 & environments & -> & _ & Hfs4 & _ & Hlen3)
       |(w4 & -> & Hfs4 & _ & Hlast)].
  - simpl in Hlen1. lia.
  - exists w4. split; [reflexivity|]. split; [congruence|assumption].
Qed.
End Installer.

(** ** The theorems on sample inputs *)

Lemma unrelated_top_level_keys_preserved_witness :
  let w := sample_world sample_settings_text [] in
  fs w !! vscode_workspace_path = Some sample_settings_text /\
  sample_loads sample_settings_text = inr sample_settings /\
  exists w' top',
    apply_adapter sample_loads sample_dumps UserNested vscode_workspace_path
      "gitlab" sample_entry w = (w', Ok true) /\
    fs w' !! vscode_workspace_path
    = Some (sample_dumps (JObj top') ++ newline)%string /\
    forall k, k <> "mcp" ->
      dict_get k top'
      = dict_get k
          match sample_settings with JObj top => top | _ => [] end.
Proof.
  intros w.
  assert (Hfs : fs w !! vscode_workspace_path = Some sample_settings_text)
    by reflexivity.
  assert (Hload : sample_loads sample_settings_text = inr sample_settings)
    by (vm_compute; reflexivity).
  split; [exact Hfs|]. split; [exact Hload|].
  destruct (unrelated_top_level_keys_preserved sample_loads sample_dumps
              UserNested vscode_workspace_path "gitlab" sample_entry _
              sample_settings_text w Hfs Hload)
    as [Hkept Hruns].
  destruct (Hruns _ eq_refl) as [w' Hrun].
  - discriminate.
  - reflexivity.
  - reflexivity.
  - destruct (Hkept w' Hrun) as (top' & Hfile & Hkeys).
    exists w', top'. split; [exact Hrun|]. split; [exact Hfile|exact Hkeys].
Defined.

(** The claim of C3 fails when the restore fails as the write did: on a
    failing device the write truncates the settings file and stops, the
    restore from the backup stops in the same way, the call returns [False],
    and the file is left empty although a valid file was there before the
    call. *)
Lemma restore_failure_leaves_truncated_file :
  let w := sample_world sample_settings_text [failing_device] in
  let run :=
    update_json_file sample_loads sample_dumps vscode_workspace_path
      (update_vscode_workspace_update "gitlab" sample_entry)
      "VS Code workspace config" w in
  fs w !! vscode_workspace_path = Some sample_settings_text /\
  sample_loads sample_settings_text = inr sample_settings /\
  write_fault (upcoming_faults w) <> IoOk /\
  snd run = Ok false /\
  fs (fst run) !! vscode_workspace_path = Some EmptyString /\
  fs (fst run) !! vscode_workspace_path <> fs w !! vscode_workspace_path.
Proof.
  intros w run.
  split; [reflexivity|]. split; [vm_compute; reflexivity|].
  split; [discriminate|]. split; [vm_compute; reflexivity|].
  split; [vm_compute; reflexivity|].
  vm_compute. discriminate.
Defined.

Lemma failed_update_keeps_or_restores_file_witness :
  let w := sample_world sample_settings_text [write_protected_target] in
  let run :=
    update_json_file sample_loads sample_dumps vscode_workspace_path
      (update_vscode_workspace_update "gitlab" sample_entry)
      "VS Code workspace config" w in
  write_fault (upcoming_faults w) <> IoOk /\
  snd run <> Ok true /\
  snd run = Ok false /\
  fs (fst run) !! vscode_workspace_path = Some sample_settings_text.
Proof.
  intros w run.
  assert (Hwrite : write_fault (upcoming_faults w) <> IoOk) by discriminate.
  destruct (failed_update_keeps_or_restores_file sample_loads sample_dumps
              vscode_workspace_path
              (update_vscode_workspace_update "gitlab" sample_entry)
              "VS Code workspace config" sample_settings_text sample_settings
              w (fst run) (snd run))
    as (Hno & _ & Hfalse & _ & Hkept).
  - reflexivity.
  - reflexivity.
  - vm_compute; reflexivity.
  - right. exact Hwrite.
  - apply surjective_pairing.
  - split; [exact Hwrite|]. split; [exact Hno|]. split.
    + eapply Hfalse; [vm_compute; reflexivity|discriminate].
    + eapply Hkept; [reflexivity|]. left. eexists. reflexivity.
Defined.



(** The claim of C5 fails for the Claude Code shape: the value stored under
    the name is a copy of the entry with "type": "stdio" added, not the
    entry. *)
Lemma claude_code_upsert_stores_tagged_copy :
  exists servers old data' servers',
    innermost_container FlatWithTypeTag sample_settings = Some servers /\
    dict_get "gitlab" servers = Some old /\
    update_claude_config_update "gitlab" sample_entry true sample_settings
    = Ok data' /\
    innermost_container FlatWithTypeTag data' = Some servers' /\
    dict_get "gitlab" servers'
    = Some (JObj (sample_entry ++ [("type", JStr "stdio")])) /\
    dict_get "gitlab" servers' <> Some (JObj sample_entry).
Proof.
  eexists _, _, _, _.
  split; [reflexivity|]. split; [reflexivity|]. split; [reflexivity|].
  split; [reflexivity|]. split; [reflexivity|]. discriminate.
Defined.

Lemma upsert_overwrites_and_is_idempotent_witness :
  exists data' servers',
    adapter_update UserNested "gitlab" sample_entry sample_settings = Ok data' /\
    innermost_container UserNested data' = Some servers' /\
    dict_get "gitlab" servers' = Some (JObj sample_entry) /\
    (forall m, m <> "gitlab" ->
       dict_get m servers'
       = dict_get m [("gitlab", JObj [("command", JStr "old")])]) /\
    adapter_update UserNested "gitlab" sample_entry data' = Ok data'.
Proof.
  apply (upsert_overwrites_and_is_idempotent UserNested "gitlab" sample_entry
           sample_settings _ (JObj [("command", JStr "old")])).
  - reflexivity.
  - reflexivity.
Defined.

(** The claim of C6 fails for the default host: a record whose host is the
    default https://gitlab.com (the answer left empty) gives an entry whose
    [env] does contain GITLAB_HOST. *)
Lemma default_host_is_set_in_env :
  let server_config_data := sample_server "docker" false in
  let env :=
    entry_env (create_server_config sample_docker_config server_config_data) in
  sd_gitlab_host server_config_data = "https://gitlab.com" /\
  dict_get "GITLAB_HOST" env = Some (JStr "https://gitlab.com") /\
  dict_get "GITLAB_HOST" env <> None.
Proof.
  intros server_config_data env.
  split; [reflexivity|]. split; [reflexivity|]. discriminate.
Defined.

Lemma entry_env_token_and_host_witness :
  let server_config_data := sample_server "local" true in
  let env :=
    entry_env (create_server_config sample_docker_config server_config_data) in
  sd_gitlab_host server_config_data = prompt_user_gitlab_host EmptyString /\
  dict_get "GITLAB_TOKEN" env = Some (JStr "glpat-secret") /\
  dict_get "GITLAB_HOST" env = Some (JStr "https://gitlab.com").
Proof.
  intros server_config_data env.
  destruct (entry_env_token_and_host sample_docker_config server_config_data)
    as (Htoken & Hhost & Hprompt).
  split; [reflexivity|]. split; [exact Htoken|].
  apply (Hprompt EmptyString). reflexivity.
Defined.

Lemma read_only_propagation_witness :
  let w := sample_world "{}" [] in
  exists binary_config flags entry,
    get_binary_config sample_str_path sample_resolve "docker"
      sample_project_root w = (w, Ok binary_config) /\
    bc_args binary_config = flags ++ [JStr docker_image_tag] /\
    main_server_config sample_str_path sample_resolve sample_project_root
      (sample_server "docker" true) w = (w, Ok entry) /\
    entry_args entry
    = flags ++ [JStr "-e"; JStr "GITLAB_READ_ONLY"] ++ [JStr docker_image_tag] /\
    dict_get "GITLAB_READ_ONLY" (entry_env entry) = Some (JStr "true").
Proof.
  intros w.
  destruct (read_only_propagation sample_str_path sample_resolve
              sample_project_root (sample_server "docker" true) w eq_refl)
    as [_ Hdocker].
  exact (Hdocker eq_refl).
Defined.

Lemma missing_binary_is_fatal_witness :
  let w := sample_world "{}" [] in
  fs w !! (sample_project_root // "bin" // "gitlab-mcp-server") = None /\
  exists w',
    main_configure_servers sample_loads sample_dumps sample_str_path
      sample_resolve sample_project_root sample_paths
      ["VS Code"; "Claude Desktop"; "Claude Code"; "Cursor"]
      [sample_server "local" false] w
    = (w', Raise (SystemExit 1)) /\
    fs w' = fs w.
Proof.
  intros w.
  assert (Hfs : fs w !! (sample_project_root // "bin" // "gitlab-mcp-server")
                = None) by (vm_compute; reflexivity).
  split; [exact Hfs|].
  destruct (missing_binary_is_fatal sample_loads sample_dumps sample_str_path
              sample_resolve sample_project_root sample_paths
              ["VS Code"; "Claude Desktop"; "Claude Code"; "Cursor"]
              (sample_server "local" false) [] w eq_refl Hfs)
    as [_ Hrun].
  exact Hrun.
Defined.

Lemma vscode_falls_back_to_user_settings_witness :
  let w := sample_world "[]" [] in
  let attempt :=
    update_vscode_workspace sample_loads sample_dumps vscode_workspace_path
      "gitlab" sample_entry w in
  snd attempt <> Ok true /\
  update_vscode sample_loads sample_dumps sample_paths "gitlab" sample_entry w
  = update_vscode_user sample_loads sample_dumps
      (sample_home // ".config" // "Code" // "User" // "settings.json")
      "gitlab" sample_entry (fst attempt).
Proof.
  intros w attempt.
  assert (Hfailed : snd attempt <> Ok true) by (vm_compute; discriminate).
  split; [exact Hfailed|].
  destruct (vscode_falls_back_to_user_settings sample_loads sample_dumps
              "Linux" sample_home [] [] "gitlab" sample_entry w
              (fst attempt) (snd attempt) (surjective_pairing attempt))
    as (_ & user_settings & Huser & Hfallback & _).
  injection Huser as <-.
  exact (Hfallback Hfailed).
Defined.

(** The claim of C10 fails for the VS Code workspace file: with a JSON array
    in .vscode/mcp.json the mutation raises out of [update_json_file] and
    the file is left as it was, but [update_vscode] falls back to the user
    settings, that update succeeds, and [update_environment] reports the
    pair as configured. *)
Lemma non_object_workspace_file_reported_configured :
  let w := sample_world "[]" [] in
  let attempt :=
    update_vscode_workspace sample_loads sample_dumps vscode_workspace_path
      "gitlab" sample_entry w in
  let report :=
    update_environment sample_loads sample_dumps "VS Code" sample_paths
      "gitlab" sample_entry w in
  fs w !! vscode_workspace_path = Some "[]" /\
  sample_loads "[]" = inr (JArr []) /\
  snd attempt
  = Raise (TypeError "list indices must be integers or slices, not str") /\
  fs (fst attempt) !! vscode_workspace_path = Some "[]" /\
  snd report = Ok true /\
  snd report <> Ok false.
Proof.
  intros w attempt report.
  split; [reflexivity|]. split; [vm_compute; reflexivity|].
  split; [vm_compute; reflexivity|]. split; [vm_compute; reflexivity|].
  split; [vm_compute; reflexivity|]. vm_compute. discriminate.
Defined.

Lemma non_object_document_is_left_alone_witness :
  let w :=
    {| fs := {[ sample_home // ".cursor" // "mcp.json" := "[]" ]};
       out := [];
       oracle := [] |} in
  let path := sample_home // ".cursor" // "mcp.json" in
  (exists w' msg,
     apply_adapter sample_loads sample_dumps FlatPlain path "gitlab"
       sample_entry w = (w', Raise (TypeError msg)) /\
     out w' = out w ++ backup_warning (upcoming_faults w) /\
     fs w' !! path = Some "[]" /\
     (backup_fault (upcoming_faults w) = IoOk ->
      fs w' !! (sample_home // ".cursor" // "mcp.json.bak") = Some "[]")) /\
  exists w'',
    update_environment sample_loads sample_dumps "Cursor" sample_paths
      "gitlab" sample_entry w = (w'', Ok false) /\
    fs w'' !! path = Some "[]".
Proof.
  intros w path.
  destruct (non_object_document_is_left_alone sample_loads sample_dumps
              FlatPlain path (sample_home // ".cursor" // "mcp.json.bak")
              "gitlab" sample_entry "[]" (JArr []) w)
    as (Hadapter & Henv & _).
  - vm_compute; reflexivity.
  - vm_compute; reflexivity.
  - reflexivity.
  - vm_compute; reflexivity.
  - discriminate.
  - split; [exact Hadapter|].
    apply (Henv "Cursor" sample_paths). reflexivity.
Defined.


(** ** The further properties on sample inputs *)

Lemma missing_file_is_created_witness :
  exists w',
    apply_adapter sample_loads sample_dumps FlatPlain cursor_path "gitlab"
      sample_entry empty_world = (w', Ok true) /\
    fs w' !! cursor_path
    = Some (sample_dumps (spec_fresh_document FlatPlain "gitlab" sample_entry)
              ++ newline)%string /\
    out w' = out empty_world /\
    forall q, q <> cursor_path -> fs w' !! q = fs empty_world !! q.
Proof.
  apply (missing_file_is_created sample_loads sample_dumps FlatPlain
           cursor_path "gitlab" sample_entry empty_world); reflexivity.
Defined.

Lemma update_json_file_touches_target_and_backup_only_witness :
  let w := sample_world sample_settings_text [] in
  let run :=
    update_json_file sample_loads sample_dumps vscode_workspace_path
      (update_vscode_workspace_update "gitlab" sample_entry)
      "VS Code workspace" w in
  (forall q, q <> vscode_workspace_path ->
     (forall bp, with_suffix vscode_workspace_path ".json.bak" = Ok bp ->
                 q <> bp) ->
     fs (fst run) !! q = fs w !! q) /\
  (forall q, is_Some (fs w !! q) -> is_Some (fs (fst run) !! q)).
Proof.
  intros w run.
  apply (update_json_file_touches_target_and_backup_only sample_loads
           sample_dumps vscode_workspace_path
           (update_vscode_workspace_update "gitlab" sample_entry)
           "VS Code workspace" w (fst run) (snd run)).
  vm_compute. reflexivity.
Defined.

Lemma backup_holds_previous_bytes_witness :
  let w := sample_world sample_settings_text [] in
  fs (fst (update_json_file sample_loads sample_dumps vscode_workspace_path
             (update_vscode_workspace_update "gitlab" sample_entry)
             "VS Code workspace" w))
    !! [".vscode"; "mcp.json.bak"]
  = Some sample_settings_text.
Proof.
  intros w.
  apply (backup_holds_previous_bytes sample_loads sample_dumps
           vscode_workspace_path [".vscode"; "mcp.json.bak"]
           (update_vscode_workspace_update "gitlab" sample_entry)
           "VS Code workspace" sample_settings_text w _
           (snd (update_json_file sample_loads sample_dumps
                   vscode_workspace_path
                   (update_vscode_workspace_update "gitlab" sample_entry)
                   "VS Code workspace" w))).
  - reflexivity.
  - reflexivity.
  - reflexivity.
  - reflexivity.
  - vm_compute. reflexivity.
Defined.

Lemma unreadable_file_raises_witness :
  let w := sample_world sample_settings_text [unreadable_target] in
  update_json_file sample_loads sample_dumps vscode_workspace_path
    (update_vscode_workspace_update "gitlab" sample_entry)
    "VS Code workspace" w
  = (begin_call w, Raise (OSError "[Errno 13] Permission denied")).
Proof.
  intros w.
  apply (unreadable_file_raises sample_loads sample_dumps
           vscode_workspace_path
           (update_vscode_workspace_update "gitlab" sample_entry)
           "VS Code workspace" sample_settings_text
           (ReadOSError "[Errno 13] Permission denied") w); reflexivity.
Defined.

Lemma mkdir_failure_raises_witness :
  let w := {| fs := ∅; out := []; oracle := [no_parent_directory] |} in
  update_json_file sample_loads sample_dumps cursor_path
    (update_claude_config_update "gitlab" sample_entry false) "Cursor" w
  = (begin_call w, Raise (OSError "[Errno 13] Permission denied")).
Proof.
  intros w.
  apply (mkdir_failure_raises sample_loads sample_dumps cursor_path
           (update_claude_config_update "gitlab" sample_entry false) "Cursor"
           "[Errno 13] Permission denied"
           (spec_fresh_document FlatPlain "gitlab" sample_entry) w);
    reflexivity.
Defined.

Lemma occupied_container_raises_witness :
  (dict_get (container_key WorkspaceNested) [("servers", JArr [])]
   = Some (JArr []) ->
   exists msg,
     adapter_update WorkspaceNested "gitlab" sample_entry
       (JObj [("servers", JArr [])])
     = Raise (TypeError msg)) /\
  (forall mcp,
     dict_get "mcp" [("servers", JArr [])] = Some (JObj mcp) ->
     dict_get "servers" mcp = Some (JArr []) ->
     exists msg,
       update_vscode_user_update "gitlab" sample_entry
         (JObj [("servers", JArr [])])
       = Raise (TypeError msg)).
Proof.
  apply (occupied_container_raises WorkspaceNested "gitlab" sample_entry
           [("servers", JArr [])] (JArr [])).
  intros d. discriminate.
Defined.

Lemma top_level_key_order_kept_witness :
  exists top',
    JObj [("editor.fontSize", JInt 14);
          ("mcpServers", JObj [("gitlab", JObj sample_entry)])]
    = JObj top' /\
    map fst top'
    = if dict_has (container_key FlatPlain) [("editor.fontSize", JInt 14)]
      then map fst [("editor.fontSize", JInt 14)]
      else map fst [("editor.fontSize", JInt 14)] ++ [container_key FlatPlain].
Proof.
  apply (top_level_key_order_kept FlatPlain "gitlab" sample_entry
           [("editor.fontSize", JInt 14)]).
  reflexivity.
Defined.

Lemma successful_mutation_places_entry_witness :
  exists servers,
    innermost_container FlatWithTypeTag
      (spec_fresh_document FlatWithTypeTag "gitlab" sample_entry)
    = Some servers /\
    dict_get "gitlab" servers
    = Some (JObj (placed_entry FlatWithTypeTag sample_entry)).
Proof.
  apply (successful_mutation_places_entry FlatWithTypeTag "gitlab"
           sample_entry (JObj [])).
  reflexivity.
Defined.

Lemma two_servers_accumulate_witness :
  exists data2 servers,
    adapter_update UserNested "personal" [("command", JStr "docker")]
      (spec_fresh_document UserNested "work" sample_entry)
    = Ok data2 /\
    innermost_container UserNested data2 = Some servers /\
    dict_get "work" servers = Some (JObj (placed_entry UserNested sample_entry)) /\
    dict_get "personal" servers
    = Some (JObj (placed_entry UserNested [("command", JStr "docker")])).
Proof.
  apply (two_servers_accumulate UserNested "work" "personal" sample_entry
           [("command", JStr "docker")] (JObj [])).
  - discriminate.
  - reflexivity.
Defined.

Lemma rerun_leaves_file_unchanged_witness :
  let w := sample_world sample_settings_text [] in
  exists w',
    apply_adapter sample_loads sample_dumps WorkspaceNested
      vscode_workspace_path "gitlab" [("command", JStr "old")] w
    = (w', Ok true) /\
    fs w' !! vscode_workspace_path = fs w !! vscode_workspace_path.
Proof.
  intros w.
  apply (rerun_leaves_file_unchanged sample_loads sample_dumps WorkspaceNested
           vscode_workspace_path "gitlab" [("command", JStr "old")]
           sample_settings sample_settings w).
  - reflexivity.
  - reflexivity.
  - vm_compute. reflexivity.
  - discriminate.
  - reflexivity.
  - reflexivity.
Defined.

Lemma unknown_environment_is_refused_witness :
  exists w',
    update_environment sample_loads sample_dumps "Zed" sample_paths "gitlab"
      sample_entry empty_world
    = (w', Ok false) /\
    fs w' = fs empty_world /\ oracle w' = oracle empty_world /\
    out w'
    = out empty_world
        ++ [(newline ++ "Configuring " ++ "Zed" ++ "...")%string;
            ("  ✗ Error configuring " ++ "Zed")%string].
Proof.
  apply (unknown_environment_is_refused sample_loads sample_dumps "Zed"
           sample_paths "gitlab" sample_entry empty_world).
  simpl. intros [H|[H|[H|[H|H]]]]; [discriminate H ..|exact H].
Defined.

Lemma update_environment_is_contained_witness :
  let w := sample_world sample_settings_text [] in
  let run :=
    update_environment sample_loads sample_dumps "Cursor" sample_paths
      "gitlab" sample_entry w in
  (forall q, outside_targets (environment_targets sample_paths "Cursor") q ->
     fs (fst run) !! q = fs w !! q) /\
  (forall q, is_Some (fs w !! q) -> is_Some (fs (fst run) !! q)).
Proof.
  intros w run.
  apply (update_environment_is_contained sample_loads sample_dumps "Cursor"
           sample_paths "gitlab" sample_entry w (fst run) (snd run)).
  vm_compute. reflexivity.
Defined.

Lemma main_touches_configuration_files_only_witness :
  let w := built_world [] in
  let run :=
    main_configure_servers sample_loads sample_dumps sample_str_path
      sample_resolve sample_checkout sample_paths ["VS Code"; "Cursor"]
      [sample_server "local" true] w in
  (forall q, outside_targets (config_targets sample_paths) q ->
     fs (fst run) !! q = fs w !! q) /\
  (forall q, is_Some (fs w !! q) -> is_Some (fs (fst run) !! q)).
Proof.
  intros w run.
  apply (main_touches_configuration_files_only sample_loads sample_dumps
           sample_str_path sample_resolve sample_checkout sample_paths
           ["VS Code"; "Cursor"] [sample_server "local" true] w
           (fst run) (snd run)).
  vm_compute. reflexivity.
Defined.

Lemma raised_update_is_reported_witness :
  let w := {| fs := {[ cursor_path := "{}" ]}; out := [];
              oracle := [unreadable_target] |} in
  update_environment sample_loads sample_dumps "Cursor" sample_paths "gitlab"
    sample_entry w
  = ({| fs := {[ cursor_path := "{}" ]};
        out := [(newline ++ "Configuring Cursor...")%string;
                "  ✗ Error configuring Cursor: [Errno 13] Permission denied"];
        oracle := [] |},
     Ok false).
Proof.
  intros w.
  refine (raised_update_is_reported sample_loads sample_dumps "Cursor"
            sample_paths "gitlab" sample_entry w
            {| fs := {[ cursor_path := "{}" ]};
               out := [(newline ++ "Configuring Cursor...")%string];
               oracle := [] |}
            (OSError "[Errno 13] Permission denied") _).
  left. exists cursor_path. split; reflexivity.
Defined.

Lemma no_read_only_without_flag_witness :
  let entry :=
    create_server_config sample_docker_config (sample_server "docker" false) in
  dict_get "GITLAB_READ_ONLY" (entry_env entry) = None /\
  ~ In (JStr "GITLAB_READ_ONLY") (entry_args entry).
Proof.
  intros entry.
  apply (no_read_only_without_flag sample_str_path sample_resolve
           sample_checkout (sample_server "docker" false) empty_world
           empty_world entry).
  - reflexivity.
  - reflexivity.
Defined.

Lemma printed_output_ignores_entry_witness :
  let w := sample_world sample_settings_text [] in
  snd (update_environment sample_loads sample_dumps "VS Code" sample_paths
         "gitlab" sample_entry w)
  = snd (update_environment sample_loads sample_dumps "VS Code" sample_paths
           "gitlab" [("command", JStr "docker")] w) /\
  out (fst (update_environment sample_loads sample_dumps "VS Code"
              sample_paths "gitlab" sample_entry w))
  = out (fst (update_environment sample_loads sample_dumps "VS Code"
                sample_paths "gitlab" [("command", JStr "docker")] w)).
Proof.
  intros w.
  apply (printed_output_ignores_entry sample_loads sample_dumps "VS Code"
           sample_paths "gitlab" sample_entry [("command", JStr "docker")] w).
  intros workspace user_settings [= <-] [= <-].
  split; [discriminate|]. intros bp [= <-]. discriminate.
Defined.

Lemma prompt_multiple_servers_asks_again_witness :
  (forall line rest answer,
     yes_or_no sample_strip sample_lower line = Some answer ->
     prompt_multiple_servers sample_strip sample_lower
       (["maybe"; "2"] ++ line :: rest) empty_world
     = (rest,
        {| fs := fs empty_world;
           out := out empty_world ++ rejected_lines ["maybe"; "2"];
           oracle := oracle empty_world |},
        Answered answer)) /\
  prompt_multiple_servers sample_strip sample_lower ["maybe"; "2"] empty_world
  = ([],
     {| fs := fs empty_world;
        out := out empty_world ++ rejected_lines ["maybe"; "2"];
        oracle := oracle empty_world |},
     EOFError).
Proof.
  apply (prompt_multiple_servers_asks_again sample_strip sample_lower
           ["maybe"; "2"] empty_world).
  repeat (constructor; [reflexivity|]). constructor.
Defined.

Lemma prompt_user_answer_witness :
  let typed := ["docker"; EmptyString; "  "; " glpat-secret "; "Y"; "4"] in
  let config :=
    {| uc_mode := "docker"; uc_gitlab_host := "https://gitlab.com";
       uc_token := "glpat-secret"; uc_readonly := true |} in
  fs empty_world = fs empty_world /\
  Answered config <> Unfinished /\
  (Answered config = EOFError -> ["4"] = []) /\
  forall config',
    Answered config = Answered config' ->
    (uc_mode config' = "local" \/ uc_mode config' = "docker") /\
    uc_token config' <> EmptyString /\
    uc_gitlab_host config' <> EmptyString /\
    length ["4"] + 4 <= length typed.
Proof.
  intros typed config.
  apply (prompt_user_answer sample_strip sample_lower typed ["4"]
           empty_world
           {| fs := ∅; out := ["Error: token cannot be empty"]; oracle := [] |}
           (Answered config)).
  reflexivity.
Defined.

Lemma collect_servers_answer_witness :
  let run := collect_servers sample_strip sample_lower two_servers_typed
               empty_world in
  fs (snd (fst run)) = fs empty_world /\
  snd run <> Unfinished /\
  (snd run = EOFError -> fst (fst run) = []) /\
  forall servers,
    snd run = Answered servers ->
    servers <> [] /\
    NoDup (map sd_name servers) /\
    Forall checked_server servers /\
    exists mode, forall s, In s servers -> sd_mode s = mode.
Proof.
  intros run.
  apply (collect_servers_answer sample_strip sample_lower two_servers_typed
           (fst (fst run)) empty_world (snd (fst run)) (snd run)).
  vm_compute. reflexivity.
Defined.

Lemma prompt_environments_answer_witness :
  let run := prompt_environments sample_strip sample_lower sample_int
               ["1, cursor, emacs, 9"] empty_world in
  fs (snd (fst run)) = fs empty_world /\
  snd run <> Unfinished /\
  forall environments,
    snd run = Answered environments ->
    environments <> [] /\
    forall env, In env environments -> In env environments_offered.
Proof.
  intros run.
  apply (prompt_environments_answer sample_strip sample_lower sample_int
           ["1, cursor, emacs, 9"] (fst (fst run)) empty_world
           (snd (fst run)) (snd run)).
  vm_compute. reflexivity.
Defined.

Lemma unrecognised_choice_selects_all_witness :
  exists w',
    prompt_environments sample_strip sample_lower sample_int
      ["emacs, 9,, 0"; "left over"] empty_world
    = (["left over"], w', Answered environments_offered) /\
    fs w' = fs empty_world.
Proof.
  apply (unrecognised_choice_selects_all sample_strip sample_lower sample_int
           "emacs, 9,, 0" ["left over"] empty_world).
  change (split_comma (sample_strip "emacs, 9,, 0"))
    with ["emacs"; " 9"; EmptyString; " 0"].
  constructor; [|constructor; [|constructor; [|constructor; [|constructor]]]].
  - right. right. split; [reflexivity|].
    intros env [<-|[<-|[<-|[<-|[]]]]]; discriminate.
  - right. left. exists 9%Z. split; [reflexivity|lia].
  - left. reflexivity.
  - right. left. exists 0%Z. split; [reflexivity|lia].
Defined.

Lemma main_configures_checked_servers_witness :
  let typed :=
    [EmptyString; "local"; EmptyString; "glpat-secret"; EmptyString; "4"] in
  let run :=
    main sample_loads sample_dumps sample_str_path sample_resolve sample_strip
      sample_lower sample_int sample_cwd "Linux" sample_home [] [] typed
      (built_world []) in
  (snd run = Raise (SystemExit 1) /\ fs (fst run) = fs (built_world []) /\
   List.last (out (fst run)) EmptyString = cancelled_line) \/
  (exists project_root servers environments w1,
     get_project_root sample_cwd (built_world [])
     = (built_world [], Ok project_root) /\
     servers <> [] /\
     NoDup (map sd_name servers) /\
     Forall checked_server servers /\
     (exists mode, forall s, In s servers -> sd_mode s = mode) /\
     environments <> [] /\
     (forall env, In env environments -> In env environments_offered) /\
     fs w1 = fs (built_world []) /\ oracle w1 = oracle (built_world []) /\
     main_configure_servers sample_loads sample_dumps sample_str_path
       sample_resolve project_root
       (get_platform_paths "Linux" sample_home [] [])
       environments servers w1
     = (fst run, snd run)).
Proof.
  intros typed run.
  apply (main_configures_checked_servers sample_loads sample_dumps
           sample_str_path sample_resolve sample_strip sample_lower sample_int
           sample_cwd "Linux" sample_home [] [] typed (built_world [])
           (fst run) (snd run)).
  vm_compute. reflexivity.
Defined.

Lemma main_needs_six_answers_witness :
  exists w',
    main sample_loads sample_dumps sample_str_path sample_resolve sample_strip
      sample_lower sample_int sample_cwd "Linux" sample_home [] []
      ["n"; "local"] (built_world [])
    = (w', Raise (SystemExit 1)) /\
    fs w' = fs (built_world []) /\
    List.last (out w') EmptyString = cancelled_line.
Proof.
  apply (main_needs_six_answers sample_loads sample_dumps sample_str_path
           sample_resolve sample_strip sample_lower sample_int sample_cwd
           "Linux" sample_home [] [] ["n"; "local"] (built_world [])).
  simpl. lia.
Defined.
